(** * BFAIR.thermo.io and the MFA test-data script, as programs over library calls

    The repository is orchestration code: every function of [io.py] and the
    script [generate_test_data.py] is a straight sequence (with a few loops
    and branches) of calls into cobra, pytfa, optlang, pandas, pickle and the
    INCA script generator.  The embedding keeps that shape.  A Python
    function becomes a program of the free monad [Py.prog] over the
    signature of the library calls it makes; [Py.run] executes a program
    against an arbitrary library (a state-passing handler that may fail) and
    returns the list of calls that happened, the outcome and the final
    world.  Programs can catch exceptions ([Py.try_except]), so that a
    function which does not is told apart from one which does.  What the
    libraries do to their own objects is not part of this
    repository, so theorems either quantify over every library, or, where a
    claim speaks of the bounds stored in a model, use the reference store
    [cobra] of the DictList/Reaction/Variable interface. *)

From Stdlib Require Import Ascii String ZArith.
From stdpp Require Import base option list gmap strings sorting.

Local Open Scope string_scope.
Local Open Scope list_scope.

(** ** Programs over library calls *)

Module Py.

(** A signature: the calls a program may make, what each returns, and the
    exceptions the library side may raise. *)
Record sig : Type := Sig {
  call : Type;
  #[canonical=no] resp : call → Type;
  #[canonical=no] lib_exn : Type;
}.

Inductive result (E A : Type) : Type :=
| Ok (a : A)
| Err (e : E).
Arguments Ok {E A} a.
Arguments Err {E A} e.

Definition result_map {E A B} (f : A → B) (r : result E A) : result E B :=
  match r with
  | Ok a => Ok (f a)
  | Err e => Err e
  end.

Section Prog.
Context {Σ : sig}.

(** Exceptions, tagged by where they are raised: [ValueError] and
    [AttributeError] by the interpreter on behalf of the repository's own
    statements, [LibraryError] inside a library call, carrying the
    library's exception as it is. *)
Inductive exn : Type :=
| ValueError (msg : string)
| AttributeError (name : string)
| LibraryError (x : lib_exn Σ).

(** Programs: [Call c k] is a call outside any [try] block, so that an
    exception of the library ends the program; [CallExcept c k except] is
    a call inside a [try] block, where [except x] takes over when the
    library raises [x]. *)
Inductive prog (A : Type) : Type :=
| Ret (a : A)
| Raise (e : exn)
| Call (c : call Σ) (k : resp Σ c → prog A)
| CallExcept (c : call Σ) (k : resp Σ c → prog A) (except : lib_exn Σ → prog A).
Global Arguments Ret {A} a.
Global Arguments Raise {A} e.
Global Arguments Call {A} c k.
Global Arguments CallExcept {A} c k except.

Fixpoint bind {A B} (p : prog A) (f : A → prog B) : prog B :=
  match p with
  | Ret a => f a
  | Raise e => Raise e
  | Call c k => Call c (λ r, bind (k r) f)
  | CallExcept c k except =>
      CallExcept c (λ r, bind (k r) f) (λ x, bind (except x) f)
  end.

(** [try: body except BaseException as e: handler(e)] *)
Fixpoint try_except {A} (body : prog A) (handler : exn → prog A) : prog A :=
  match body with
  | Ret a => Ret a
  | Raise e => handler e
  | Call c k =>
      CallExcept c (λ r, try_except (k r) handler)
        (λ x, handler (LibraryError x))
  | CallExcept c k except =>
      CallExcept c (λ r, try_except (k r) handler)
        (λ x, try_except (except x) handler)
  end.

(** A single library call. *)
Definition perform (c : call Σ) : prog (resp Σ c) := Call c Ret.

(** [for x in xs: body(x)] *)
Fixpoint for_ {T} (xs : list T) (body : T → prog unit) : prog unit :=
  match xs with
  | [] => Ret tt
  | x :: xs' => bind (body x) (λ _, for_ xs' body)
  end.

(** What a run leaves behind: each call with what it returned, or with
    the exception it raised. *)
Inductive event : Type :=
| Returned (c : call Σ) (r : resp Σ c)
| Failed (c : call Σ) (x : lib_exn Σ).

Definition called (e : event) : call Σ :=
  match e with
  | Returned c _ => c
  | Failed c _ => c
  end.

Definition is_Failed (e : event) : bool :=
  match e with
  | Returned _ _ => false
  | Failed _ _ => true
  end.

(** A library over a world [W]: the answer to every call, and the world
    after it.  A failing call may still have changed the world. *)
Definition lib (W : Type) : Type :=
  ∀ c : call Σ, W → result (lib_exn Σ) (resp Σ c) * W.

Fixpoint run {W A} (h : lib W) (p : prog A) (w : W)
  : list event * result exn A * W :=
  match p with
  | Ret a => ([], Ok a, w)
  | Raise e => ([], Err e, w)
  | Call c k =>
      match h c w with
      | (Err x, w') => ([Failed c x], Err (LibraryError x), w')
      | (Ok r, w') =>
          let '(tr, o, w'') := run h (k r) w' in
          (Returned c r :: tr, o, w'')
      end
  | CallExcept c k except =>
      match h c w with
      | (Err x, w') =>
          let '(tr, o, w'') := run h (except x) w' in
          (Failed c x :: tr, o, w'')
      | (Ok r, w') =>
          let '(tr, o, w'') := run h (k r) w' in
          (Returned c r :: tr, o, w'')
      end
  end.

Definition trace {W A} (h : lib W) (p : prog A) (w : W) : list event :=
  (run h p w).1.1.
Definition outcome {W A} (h : lib W) (p : prog A) (w : W) : result exn A :=
  (run h p w).1.2.
Definition final {W A} (h : lib W) (p : prog A) (w : W) : W :=
  (run h p w).2.

(** The exceptions the program's own statements can raise, as opposed to
    those that come out of a library call. *)
Fixpoint may_raise {A} (p : prog A) (e : exn) : Prop :=
  match p with
  | Ret _ => False
  | Raise e' => e' = e
  | Call c k => ∃ r, may_raise (k r) e
  | CallExcept c k except =>
      (∃ r, may_raise (k r) e) ∨ (∃ x, may_raise (except x) e)
  end.

(** Every call the program can make satisfies [P]. *)
Fixpoint only_calls {A} (P : call Σ → Prop) (p : prog A) : Prop :=
  match p with
  | Ret _ | Raise _ => True
  | Call c k => P c ∧ ∀ r, only_calls P (k r)
  | CallExcept c k except =>
      P c ∧ (∀ r, only_calls P (k r)) ∧ (∀ x, only_calls P (except x))
  end.

(** No call of the program is inside a [try] block. *)
Fixpoint no_except {A} (p : prog A) : Prop :=
  match p with
  | Ret _ | Raise _ => True
  | Call c k => ∀ r, no_except (k r)
  | CallExcept _ _ _ => False
  end.

(** A run passes on library failures: a call that fails is the last thing
    that happens, its exception is the outcome as it was raised, and no
    exception other than one raised in [own] or by a failed call comes
    out. *)
Definition passes_on {W A} (h : lib W) (p : prog A) (own : exn → Prop) : Prop :=
  ∀ w,
    (∀ c x, Failed c x ∈ trace h p w →
       last (trace h p w) = Some (Failed c x) ∧
       outcome h p w = Err (LibraryError x)) ∧
    (∀ e, outcome h p w = Err e →
       own e ∨ ∃ c x, e = LibraryError x ∧ last (trace h p w) = Some (Failed c x)).
End Prog.

Arguments exn Σ : clear implicits.
Arguments prog Σ A : clear implicits.
Arguments event Σ : clear implicits.
Arguments lib Σ W : clear implicits.

Declare Scope py_scope.
Delimit Scope py_scope with py.
Notation "'let*' x := p 'in' q" := (bind p (λ x, q))
  (at level 10, x pattern, p at level 100, q at level 200) : py_scope.
Notation "p ;; q" := (bind p (λ _, q))
  (at level 100, q at level 200, right associativity) : py_scope.

End Py.

Import Py.
Local Open Scope py_scope.

(** ** Python builtins used by the sources *)

(** [x is None] *)
Definition is_None {A} (x : option A) : bool :=
  match x with
  | None => true
  | Some _ => false
  end.

(** [all(flags)] and [any(flags)] on a list of booleans. *)
Definition py_all (flags : list bool) : bool := forallb id flags.
Definition py_any (flags : list bool) : bool := existsb id flags.

(** [s.split(".")[0]]: the text before the first dot, all of [s] when it
    has none. *)
Fixpoint split_dot_0 (s : string) : string :=
  match s with
  | EmptyString => EmptyString
  | String c s' =>
      if Ascii.eqb c "."%char then EmptyString else String c (split_dot_0 s')
  end.

(** How Python orders [str] values: by code point, which on UTF-8 bytes
    is the byte-wise lexicographic order. *)
Definition str_le (a b : string) : Prop := String.leb a b = true.

Global Instance str_le_dec a b : Decision (str_le a b).
Proof. unfold str_le. apply _. Defined.

(** [sorted(l)] on a list of strings. *)
Definition sorted (l : list string) : list string := merge_sort str_le l.

(** A float literal: [Float m k] stands for m * 10^k.  The sources only
    pass such values on. *)
Inductive float_literal : Type :=
| Float (mantissa exponent : Z).

(** ** What lies outside the repository *)

(** The host of [io.py]: the objects and exceptions of cobra, pytfa,
    optlang and logging, the location of the package's static folder
    ([os.path.dirname(static.__file__)]), the two [os.path] functions, and
    what attribute lookup finds on the class [_ModelFactory] and on
    [object] (bound methods such as [__dir__], [__class__] and the like). *)
Class Host : Type := {
  obj : Type;
  lib_error : Type;
  static_dir : string;
  os_path_join : string → string → string;
  os_path_basename : string → string;
  type_attr : string → option obj;
}.

(** ** BFAIR/thermo/io.py: loading and creating models *)

Section Thermo.
Context `{Host}.

Inductive thermo_call : Type :=
| glob (pattern : string)
| load_json_model (path : string)
| load_thermoDB (path : string)
| read_lexicon (path : string)
| read_compartment_data (path : string)
| get_bistream_logger (logger_name : string)
| logger_handlers (logger : obj)
| isinstance_FileHandler (handler : obj)
| handler_setLevel (handler : obj) (level : Z)
| ThermoModel (thermo_data cmodel : obj)
| set_name (tmodel : obj) (name : string)
| annotate_from_lexicon (tmodel lexicon : obj)
| apply_compartment_data (tmodel compartment_data : obj)
| solver_interface_name (tmodel : obj)
| set_NumericFocus (tmodel : obj) (value : Z)
| set_tolerances_feasibility (tmodel : obj) (value : float_literal)
| set_presolve (tmodel : obj) (value : bool)
| prepare (tmodel : obj)
| convert (tmodel : obj) (verbose : bool).

Definition thermo_resp (c : thermo_call) : Type :=
  match c with
  | glob _ => list string
  | load_json_model _ | load_thermoDB _ | read_lexicon _
  | read_compartment_data _ | get_bistream_logger _ | ThermoModel _ _ => obj
  | logger_handlers _ => list obj
  | isinstance_FileHandler _ => bool
  | solver_interface_name _ => string
  | handler_setLevel _ _ | set_name _ _ | annotate_from_lexicon _ _
  | apply_compartment_data _ _ | set_NumericFocus _ _
  | set_tolerances_feasibility _ _ | set_presolve _ _ | prepare _
  | convert _ _ => unit
  end.

Canonical Structure thermo_sig : sig := Sig thermo_call thermo_resp lib_error.

Local Abbreviation invoke c := (perform (Σ:=thermo_sig) c).

(** [logging.ERROR] *)
Definition logging_ERROR : Z := 40.

Definition _path (filename : string) : string :=
  os_path_join static_dir filename.

Definition _silence_pytfa (logger_name : string) : prog thermo_sig unit :=
  let* logger := invoke (get_bistream_logger logger_name) in
  let* handlers := invoke (logger_handlers logger) in
  for_ handlers (λ handler,
    let* is_file := invoke (isinstance_FileHandler handler) in
    if negb is_file
    then invoke (handler_setLevel handler logging_ERROR)
    else Ret tt).

Definition load_cbm (model_name : string) : prog thermo_sig obj :=
  invoke (load_json_model (_path (model_name +:+ ".json"))).

Definition load_data (model_name : string) : prog thermo_sig (obj * obj * obj) :=
  let* thermo_data := invoke (load_thermoDB (_path "thermo_data.thermodb")) in
  let* lexicon :=
    invoke (read_lexicon (_path (os_path_join model_name "lexicon.csv"))) in
  let* compartment_data :=
    invoke (read_compartment_data
              (_path (os_path_join model_name "compartment_data.json"))) in
  Ret (thermo_data, lexicon, compartment_data).

Definition not_all_supplied : exn thermo_sig :=
  ValueError "Not all required data supplied.".

(** Lines 126 to 146 of [create_model]: what it does once the three data
    objects are known. *)
Definition create_model_from
    (model_name : string) (thermo_data lexicon compartment_data : obj)
  : prog thermo_sig obj :=
  _silence_pytfa "thermomodel_None" ;;
  _silence_pytfa ("thermomodel_" +:+ model_name) ;;
  let* cmodel := load_cbm model_name in
  let* tmodel := invoke (ThermoModel thermo_data cmodel) in
  invoke (set_name tmodel model_name) ;;
  invoke (annotate_from_lexicon tmodel lexicon) ;;
  invoke (apply_compartment_data tmodel compartment_data) ;;
  let* interface := invoke (solver_interface_name tmodel) in
  (if String.eqb interface "optlang.gurobi_interface"
   then invoke (set_NumericFocus tmodel 3)
   else Ret tt) ;;
  invoke (set_tolerances_feasibility tmodel (Float 1 (-9))) ;;
  invoke (set_presolve tmodel true) ;;
  invoke (prepare tmodel) ;;
  invoke (convert tmodel false) ;;
  Ret tmodel.

(** Lines 120 to 124: which data [create_model] goes on with.  The last
    branch of the [match] is never taken, since a [None] among the three
    sets a flag of [data_is_none]. *)
Definition required_data
    (model_name : string) (thermo_data lexicon compartment_data : option obj)
  : prog thermo_sig (obj * obj * obj) :=
  let data_is_none := map is_None [thermo_data; lexicon; compartment_data] in
  if py_all data_is_none then load_data model_name
  else if py_any data_is_none then Raise not_all_supplied
  else
    match thermo_data, lexicon, compartment_data with
    | Some td, Some lx, Some cd => Ret (td, lx, cd)
    | _, _, _ => Raise not_all_supplied
    end.

Definition create_model
    (model_name : string) (thermo_data lexicon compartment_data : option obj)
  : prog thermo_sig obj :=
  let* (td, lx, cd) :=
    required_data model_name thermo_data lexicon compartment_data in
  create_model_from model_name td lx cd.

(** The calls that write the solver's configuration. *)
Definition configures_solver (c : thermo_call) : bool :=
  match c with
  | set_NumericFocus _ _ | set_tolerances_feasibility _ _ | set_presolve _ _ => true
  | _ => false
  end.

(** *** The model factory *)

(** What an attribute access on the factory can give back. *)
Inductive attr : Type :=
| AttrList (l : list string)
| AttrStr (s : string)
| AttrObj (o : obj).

(** The instance dictionary of the factory object: [_list], and [__doc__]
    once line 178 has assigned it. *)
Record _ModelFactory : Type := {
  _list : list string;
  __doc__ : option string;
}.

Definition __init__ : prog thermo_sig _ModelFactory :=
  let* paths := invoke (glob (_path "*.json")) in
  Ret {| _list := map (λ path, split_dot_0 (os_path_basename path)) paths;
         __doc__ := None |}.

Definition __dir__ (self : _ModelFactory) : list string := _list self.

(** The builtin [dir(x)]: the list [x.__dir__()] returns, sorted. *)
Definition dir (self : _ModelFactory) : list string := sorted (__dir__ self).

Definition instance_attr (self : _ModelFactory) (item : string) : option attr :=
  if String.eqb item "_list" then Some (AttrList (_list self))
  else if String.eqb item "__doc__" then AttrStr <$> __doc__ self
  else None.

(** Normal attribute lookup, [object.__getattribute__]: the instance
    dictionary, then the class and its bases; [None] stands for its
    [AttributeError]. *)
Definition default_lookup (self : _ModelFactory) (item : string) : option attr :=
  match instance_attr self item with
  | Some v => Some v
  | None => AttrObj <$> type_attr item
  end.

Definition object_getattribute (self : _ModelFactory) (item : string)
  : prog thermo_sig attr :=
  match default_lookup self item with
  | Some v => Ret v
  | None => Raise (AttributeError item)
  end.

Definition __getattr__ (self : _ModelFactory) (item : string)
  : prog thermo_sig attr :=
  if bool_decide (item ∈ _list self)
  then let* tmodel := create_model item None None None in Ret (AttrObj tmodel)
  else object_getattribute self item.

(** The expression [self.item]: Python calls [__getattr__] only after
    normal lookup has raised [AttributeError]. *)
Definition getattr (self : _ModelFactory) (item : string)
  : prog thermo_sig attr :=
  match default_lookup self item with
  | Some v => Ret v
  | None => __getattr__ self item
  end.

Definition dquote : string := String (ascii_of_nat 34) EmptyString.

Definition models_doc : string :=
  "A factory class to create pre-curated thermodynamics-based metabolic models.

Example
-------
>>> dir(models)
['iJO1366', 'small_ecoli']

>>> tmodel = models.small_ecoli
>>> tmodel.slim_optimize()
0.8109972502600706

This is equivalent to ``create_model(" +:+ dquote +:+ "small_ecoli" +:+ dquote
  +:+ ")``.
".

(** Lines 177 and 178: the module-level object [models]. *)
Definition models : prog thermo_sig _ModelFactory :=
  let* self := __init__ in
  Ret {| _list := _list self; __doc__ := Some models_doc |}.
End Thermo.

(** ** BFAIR/thermo/io.py: adjust_model *)

Section Adjust.
Context {obj num X : Type}.

(** The calls [adjust_model] makes on the model it is given. *)
Inductive model_call : Type :=
| reactions_has_id (tmodel : obj) (id : string)
| parent_reactions_get_by_id (tmodel : obj) (id : string)
| reactions_get_by_id (tmodel : obj) (id : string)
| reaction_set_bounds (reaction : obj) (lb ub : num)
| compartments (tmodel : obj)
| log_concentration_has_id (tmodel : obj) (id : string)
| log_concentration_get_by_id (tmodel : obj) (id : string)
| variable_set_bounds (lc : obj) (lb ub : num).

Definition model_resp (c : model_call) : Type :=
  match c with
  | reactions_has_id _ _ | log_concentration_has_id _ _ => bool
  | parent_reactions_get_by_id _ _ | reactions_get_by_id _ _
  | log_concentration_get_by_id _ _ => obj
  | compartments _ => list string
  | reaction_set_bounds _ _ _ | variable_set_bounds _ _ _ => unit
  end.

Canonical Structure model_sig : sig := Sig model_call model_resp X.

Local Abbreviation invoke c := (perform (Σ:=model_sig) c).

(** A row [(id, lb, ub)] of a bounds table.  A table is the list of its
    rows, which is what [zip] over its columns [id], [lb] and [ub] yields. *)
Definition row : Type := string * num * num.

(** One round of the first loop, lines 166 to 168. *)
Definition constrain_reaction (tmodel : obj) (r : row) : prog model_sig unit :=
  let '(rxn_id, lb, ub) := r in
  let* present := invoke (reactions_has_id tmodel rxn_id) in
  if present then
    (let* reaction := invoke (parent_reactions_get_by_id tmodel rxn_id) in
     invoke (reaction_set_bounds reaction lb ub)) ;;
    (let* reaction := invoke (reactions_get_by_id tmodel rxn_id) in
     invoke (reaction_set_bounds reaction lb ub))
  else Ret tt.

(** One round of the inner loop, lines 172 to 174. *)
Definition constrain_variable (tmodel : obj) (met : string) (lb ub : num)
    (compartment : string) : prog model_sig unit :=
  let met_id := met +:+ "_" +:+ compartment in
  let* present := invoke (log_concentration_has_id tmodel met_id) in
  if present then
    let* lc := invoke (log_concentration_get_by_id tmodel met_id) in
    invoke (variable_set_bounds lc lb ub)
  else Ret tt.

(** One round of the second loop, lines 171 to 174. *)
Definition constrain_log_concentration (tmodel : obj) (r : row)
  : prog model_sig unit :=
  let '(met, lb, ub) := r in
  let* comps := invoke (compartments tmodel) in
  for_ comps (constrain_variable tmodel met lb ub).

Definition adjust_model (tmodel : obj) (rxn_bounds lc_bounds : list row)
  : prog model_sig unit :=
  for_ rxn_bounds (constrain_reaction tmodel) ;;
  for_ lc_bounds (constrain_log_concentration tmodel).
End Adjust.

Arguments model_call : clear implicits.
Arguments model_sig : clear implicits.
Arguments row : clear implicits.

(** *** A reference store for the model objects

    The part of cobra, pytfa and optlang that [adjust_model] talks to, kept
    to what the method names say: a DictList answers [has_id] by membership
    and [get_by_id] by lookup ([KeyError] when the id is absent), and
    setting bounds stores the pair once the library's own validation
    [bounds_ok] accepts it.  The reactions of the thermodynamic model and
    those of its parent are separate objects. *)

Section Cobra.
Context {num : Type}.
Variable bounds_ok : num → num → bool.

Inductive handle : Type :=
| the_tmodel
| parent_reaction (id : string)
| reaction (id : string)
| lc_variable (id : string).

Inductive cobra_exn : Type :=
| KeyError (id : string)
| BoundsRejected (lb ub : num)
| WrongObject.

Record store : Type := Store {
  reactions : gmap string (num * num);
  parent_reactions : gmap string (num * num);
  compartment_ids : list string;
  log_concentration : gmap string (num * num);
}.

Definition has_id (d : gmap string (num * num)) (id : string) : bool :=
  bool_decide (is_Some (d !! id)).

Definition set_reactions (s : store) (d : gmap string (num * num)) : store :=
  Store d (parent_reactions s) (compartment_ids s) (log_concentration s).
Definition set_parent_reactions (s : store) (d : gmap string (num * num)) : store :=
  Store (reactions s) d (compartment_ids s) (log_concentration s).
Definition set_log_concentration (s : store) (d : gmap string (num * num)) : store :=
  Store (reactions s) (parent_reactions s) (compartment_ids s) d.

Definition on_tmodel {A} (t : handle) (s : store) (a : result cobra_exn A)
  : result cobra_exn A * store :=
  match t with
  | the_tmodel => (a, s)
  | _ => (Err WrongObject, s)
  end.

Definition get_by_id (d : gmap string (num * num)) (id : string) (h : handle)
  : result cobra_exn handle :=
  if has_id d id then Ok h else Err (KeyError id).

Definition cobra : lib (model_sig handle num cobra_exn) store := λ c s,
  match c with
  | reactions_has_id t id => on_tmodel t s (Ok (has_id (reactions s) id))
  | parent_reactions_get_by_id t id =>
      on_tmodel t s (get_by_id (parent_reactions s) id (parent_reaction id))
  | reactions_get_by_id t id =>
      on_tmodel t s (get_by_id (reactions s) id (reaction id))
  | reaction_set_bounds r lb ub =>
      if bounds_ok lb ub then
        match r with
        | parent_reaction id =>
            (Ok tt, set_parent_reactions s (<[id:=(lb, ub)]> (parent_reactions s)))
        | reaction id =>
            (Ok tt, set_reactions s (<[id:=(lb, ub)]> (reactions s)))
        | _ => (Err WrongObject, s)
        end
      else (Err (BoundsRejected lb ub), s)
  | compartments t => on_tmodel t s (Ok (compartment_ids s))
  | log_concentration_has_id t id =>
      on_tmodel t s (Ok (has_id (log_concentration s) id))
  | log_concentration_get_by_id t id =>
      on_tmodel t s (get_by_id (log_concentration s) id (lc_variable id))
  | variable_set_bounds v lb ub =>
      if bounds_ok lb ub then
        match v with
        | lc_variable id =>
            (Ok tt, set_log_concentration s (<[id:=(lb, ub)]> (log_concentration s)))
        | _ => (Err WrongObject, s)
        end
      else (Err (BoundsRejected lb ub), s)
  end.

(** Bookkeeping for the proofs: a list of writes [(id, bounds)] applied in
    order to a dictionary, each under the guard [g] on its id. *)
Fixpoint guarded_writes (g : string → bool) (d : gmap string (num * num))
    (ws : list (string * (num * num))) : gmap string (num * num) :=
  match ws with
  | [] => d
  | (k, v) :: ws' => guarded_writes g (if g k then <[k:=v]> d else d) ws'
  end.

(** The writes the rows of [rxn_bounds] ask for. *)
Definition rxn_writes (rows : list (row num)) : list (string * (num * num)) :=
  map (λ '(rxn_id, lb, ub), (rxn_id, (lb, ub))) rows.

(** The writes the rows of [lc_bounds] ask for, over the compartments
    [comps]. *)
Definition lc_row_writes (comps : list string) (r : row num)
  : list (string * (num * num)) :=
  let '(met, lb, ub) := r in
  map (λ compartment, (met +:+ "_" +:+ compartment, (lb, ub))) comps.

Definition lc_writes (comps : list string) (rows : list (row num))
  : list (string * (num * num)) :=
  flat_map (lc_row_writes comps) rows.
End Cobra.

Arguments store : clear implicits.
Arguments cobra_exn : clear implicits.

(** ** tests/test_data/MFA_modelInputsData/generate_test_data.py *)

Section Script.
(** Data frames, lists and scripts made by pandas and by the INCA script
    generator; the file object [open] returns; the exceptions raised. *)
Context {obj file X : Type}.

(** A value put into the pickled list: a library object or a [str]. *)
Inductive pyval : Type :=
| PObj (o : obj)
| PStr (s : string).

Inductive script_call : Type :=
| pd_set_option (pat : string) (value : option string)
| open_ (name mode : string)
| pd_read_csv (filepath : string)
| limit_to_one_model (data : obj) (column value : string)
| limit_to_one_experiment (data : obj) (column value : string)
| initiate_MATLAB_script
| add_reactions_to_script
    (modelReaction_data atomMappingReactions_data : obj) (biomass_function : string)
| initialize_model
| symmetrical_metabolites (atomMappingMetabolite_data : obj)
| unbalanced_reactions (atomMappingMetabolite_data : obj)
| add_reaction_parameters
    (modelReaction_data measuredFluxes_data model_rxn_ids : obj)
    (fluxes_present : bool)
| verify_and_estimate
| add_experimental_parameters
    (experimentalMS_data tracer measuredFluxes_data atomMappingMetabolite_data : obj)
| mapping (experimentalMS_data fragments_used : obj)
| script_generator
    (modelReaction_data atomMappingReactions_data : obj) (biomass_function : string)
    (atomMappingMetabolite_data measuredFluxes_data experimentalMS_data tracer : obj)
| runner_script_generator (output_filename : string) (n_estimates : Z)
| pickle_dump (value : list pyval) (f : file)
| close (f : file).

Definition script_resp (c : script_call) : Type :=
  match c with
  | pd_set_option _ _ | pickle_dump _ _ | close _ => unit
  | open_ _ _ => file
  | add_reactions_to_script _ _ _ | add_experimental_parameters _ _ _ _ =>
      (obj * obj)%type
  | _ => obj
  end.

Canonical Structure script_sig : sig := Sig script_call script_resp X.

Local Abbreviation invoke c := (perform (Σ:=script_sig) c).

Definition biomass_function : string :=
  "0.176*phe_DASH_L_c + 0.443*mlthf_c + 0.34*oaa_c + 0.326*lys_DASH_L_c + 33.247*atp_c + 0.205*ser_DASH_L_c + 0.129*g3p_c + 0.131*tyr_DASH_L_c + 0.051*pep_c + 0.146*met_DASH_L_c + 0.205*g6p_c + 0.087*akg_c + 0.25*glu_DASH_L_c + 0.25*gln_DASH_L_c + 0.754*r5p_c + 0.071*f6p_c + 0.083*pyr_c + 0.582*gly_c + 0.241*thr_DASH_L_c + 0.229*asp_DASH_L_c + 5.363*nadph_c + 0.087*cys_DASH_L_c + 0.619*3pg_c + 0.402*val_DASH_L_c + 0.488*ala_DASH_L_c + 0.276*ile_DASH_L_c + 0.229*asn_DASH_L_c + 0.09*his_DASH_L_c + 0.428*leu_DASH_L_c + 2.51*accoa_c + 0.281*arg_DASH_L_c + 0.21*pro_DASH_L_c + 0.054*trp_DASH_L_c -> 1.455*nadh_c + 39.68*Biomass_c".

Definition generate_test_data : prog script_sig unit :=
  invoke (pd_set_option "mode.chained_assignment" None) ;;
  let* filehandler := invoke (open_ "test_data.obj" "wb") in
  let* atomMappingReactions_data_I :=
    invoke (pd_read_csv "data_stage02_isotopomer_atomMappingReactions2.csv") in
  let* modelReaction_data_I :=
    invoke (pd_read_csv "data_stage02_isotopomer_modelReactions.csv") in
  let* atomMappingMetabolite_data_I :=
    invoke (pd_read_csv "data_stage02_isotopomer_atomMappingMetabolites.csv") in
  let* measuredFluxes_data_I :=
    invoke (pd_read_csv "data_stage02_isotopomer_measuredFluxes.csv") in
  let* experimentalMS_data_I := invoke (pd_read_csv "data-1604345289079.csv") in
  let* tracer_I := invoke (pd_read_csv "data_stage02_isotopomer_tracers.csv") in
  let* atomMappingReactions_data_I :=
    invoke (limit_to_one_model atomMappingReactions_data_I
              "mapping_id" "ecoli_RL2013_02") in
  let* modelReaction_data_I :=
    invoke (limit_to_one_model modelReaction_data_I
              "model_id" "ecoli_RL2013_02") in
  let* atomMappingMetabolite_data_I :=
    invoke (limit_to_one_model atomMappingMetabolite_data_I
              "mapping_id" "ecoli_RL2013_02") in
  let* measuredFluxes_data_I :=
    invoke (limit_to_one_model measuredFluxes_data_I
              "model_id" "ecoli_RL2013_02") in
  let* measuredFluxes_data_I :=
    invoke (limit_to_one_experiment measuredFluxes_data_I
              "experiment_id" "WTEColi_113C80_U13C20_01") in
  let* experimentalMS_data_I :=
    invoke (limit_to_one_experiment experimentalMS_data_I
              "experiment_id" "WTEColi_113C80_U13C20_01") in
  let* tracer_I :=
    invoke (limit_to_one_experiment tracer_I
              "experiment_id" "WTEColi_113C80_U13C20_01") in
  let* initiated_MATLAB_script := invoke initiate_MATLAB_script in
  let* (model_reactions, model_rxn_ids) :=
    invoke (add_reactions_to_script
              modelReaction_data_I atomMappingReactions_data_I biomass_function) in
  let* initialized_model := invoke initialize_model in
  let* symmetrical_metabolites_script :=
    invoke (symmetrical_metabolites atomMappingMetabolite_data_I) in
  let* unbalanced_reactions_script :=
    invoke (unbalanced_reactions atomMappingMetabolite_data_I) in
  let* reaction_parameters :=
    invoke (add_reaction_parameters
              modelReaction_data_I measuredFluxes_data_I model_rxn_ids true) in
  let* verify_and_estimate_script := invoke verify_and_estimate in
  let* (experimental_parameters, fragments_used) :=
    invoke (add_experimental_parameters
              experimentalMS_data_I tracer_I measuredFluxes_data_I
              atomMappingMetabolite_data_I) in
  let* mapping_script := invoke (mapping experimentalMS_data_I fragments_used) in
  let* script :=
    invoke (script_generator
              modelReaction_data_I atomMappingReactions_data_I biomass_function
              atomMappingMetabolite_data_I measuredFluxes_data_I
              experimentalMS_data_I tracer_I) in
  let* runner := invoke (runner_script_generator "TestFile" 10) in
  invoke (pickle_dump
            [ PObj modelReaction_data_I;
              PObj atomMappingReactions_data_I;
              PStr biomass_function;
              PObj atomMappingMetabolite_data_I;
              PObj measuredFluxes_data_I;
              PObj experimentalMS_data_I;
              PObj tracer_I;
              PObj initiated_MATLAB_script;
              PObj model_reactions;
              PObj model_rxn_ids;
              PObj initialized_model;
              PObj symmetrical_metabolites_script;
              PObj unbalanced_reactions_script;
              PObj reaction_parameters;
              PObj verify_and_estimate_script;
              PObj experimental_parameters;
              PObj fragments_used;
              PObj mapping_script;
              PObj script;
              PObj runner ]
            filehandler) ;;
  invoke (close filehandler).

(** The life of the output file: not yet opened, open, written, closed. *)
Inductive phase : Type :=
| Start
| Opened (f : file)
| Dumped (f : file)
| Closed.

(** The calls the file protocol admits in a phase: one [open], of
    ["test_data.obj"] for writing bytes; then one [pickle.dump] into the
    file object [open] returned; then [close] of that object; no call on a
    file after that.  Calls that touch no file are always admitted. *)
Definition allowed (st : phase) (c : script_call) : Prop :=
  match c, st with
  | open_ name mode, Start => name = "test_data.obj" ∧ mode = "wb"
  | pickle_dump _ f, Opened f' => f = f'
  | close f, Dumped f' => f = f'
  | (open_ _ _ | pickle_dump _ _ | close _), _ => False
  | _, _ => True
  end.

Definition next (st : phase) (c : script_call) : script_resp c → phase :=
  match c with
  | open_ _ _ => λ f, Opened f
  | pickle_dump _ f => λ _, Dumped f
  | close _ => λ _, Closed
  | _ => λ _, st
  end.

(** A trace follows the protocol from phase [st] on. *)
Fixpoint follows (st : phase) (tr : list (event script_sig)) : Prop :=
  match tr with
  | [] => True
  | Returned c r :: tr' => allowed st c ∧ follows (next st c r) tr'
  | Failed c _ :: tr' => allowed st c ∧ follows st tr'
  end.

(** A program follows the protocol from phase [st] on, whatever the
    library answers. *)
Fixpoint safe {A} (st : phase) (p : prog script_sig A) : Prop :=
  match p with
  | Ret _ | Raise _ => True
  | Call c k => allowed st c ∧ ∀ r, safe (next st c r) (k r)
  | CallExcept c k except =>
      allowed st c ∧ (∀ r, safe (next st c r) (k r)) ∧ (∀ x, safe st (except x))
  end.
End Script.

Arguments phase : clear implicits.

Arguments script_call : clear implicits.
Arguments script_sig : clear implicits.
Arguments pyval : clear implicits.

(** ** Notions used to state further facts *)

(** Whether a string holds a dot. *)
Fixpoint has_dot (s : string) : bool :=
  match s with
  | EmptyString => false
  | String c s' => Ascii.eqb c "."%char || has_dot s'
  end.

Section ThermoMore.
Context `{Host}.

(** What one round of the loop of [_silence_pytfa] leaves in the trace for
    a handler, given the answer of [isinstance(handler, FileHandler)]. *)
Definition silenced (handler : obj) (is_file : bool) : list (event thermo_sig) :=
  Returned (Σ:=thermo_sig) (isinstance_FileHandler handler) is_file ::
  (if is_file then []
   else [ Returned (Σ:=thermo_sig) (handler_setLevel handler logging_ERROR) tt ]).

(** The calls [_silence_pytfa] makes. *)
Definition on_logger (c : thermo_call) : bool :=
  match c with
  | get_bistream_logger _ | logger_handlers _ | isinstance_FileHandler _
  | handler_setLevel _ _ => true
  | _ => false
  end.
End ThermoMore.

Section WriteOrder.
Context {num : Type}.

(** More bookkeeping: the value the last write to [id] in [ws] carries, if
    [ws] writes to [id] at all. *)
Fixpoint last_write (id : string) (ws : list (string * (num * num)))
  : option (num * num) :=
  match ws with
  | [] => None
  | (k, v) :: ws' =>
      match last_write id ws' with
      | Some v' => Some v'
      | None => if bool_decide (k = id) then Some v else None
      end
  end.

(** What [adjust_model] needs of a row of [rxn_bounds] to get past it: if
    the id is a reaction of the model, the parent has it too and the
    library accepts the bounds. *)
Definition rxn_row_ok (bounds_ok : num → num → bool) (s : store num)
    (r : row num) : Prop :=
  is_Some (reactions s !! r.1.1) →
  is_Some (parent_reactions s !! r.1.1) ∧ bounds_ok r.1.2 r.2 = true.

(** And of a row of [lc_bounds]: the library accepts the bounds if some
    compartment has a log-concentration variable for the metabolite. *)
Definition lc_row_ok (bounds_ok : num → num → bool) (s : store num)
    (r : row num) : Prop :=
  ∀ c, c ∈ compartment_ids s →
       is_Some (log_concentration s !! (r.1.1 +:+ "_" +:+ c)) →
       bounds_ok r.1.2 r.2 = true.
End WriteOrder.

Section ScriptMore.
Context {obj file X : Type}.

(** The phase the output file is in after a trace, from phase [st]: only
    calls that returned move it on. *)
Fixpoint reached (st : phase file) (tr : list (event (script_sig obj file X)))
    : phase file :=
  match tr with
  | [] => st
  | Returned c r :: tr' => reached (next st c r) tr'
  | Failed _ _ :: tr' => reached st tr'
  end.
End ScriptMore.

(** ** A POSIX host and canned libraries

    Concrete stand-ins for what lies outside the repository, on which the
    programs above can be run. *)

Fixpoint has_slash (s : string) : bool :=
  match s with
  | EmptyString => false
  | String c s' => Ascii.eqb c "/"%char || has_slash s'
  end.

(** [posixpath.basename]: what follows the last slash. *)
Fixpoint posix_basename (s : string) : string :=
  match s with
  | EmptyString => EmptyString
  | String c s' =>
      if has_slash s' then posix_basename s'
      else if Ascii.eqb c "/"%char then s' else s
  end.

Fixpoint ends_with_slash (s : string) : bool :=
  match s with
  | EmptyString => false
  | String c EmptyString => Ascii.eqb c "/"%char
  | String _ s' => ends_with_slash s'
  end.

(** [posixpath.join] of two components. *)
Definition posix_join (a b : string) : string :=
  match b with
  | String "/"%char _ => b
  | _ =>
      match a with
      | EmptyString => b
      | _ => if ends_with_slash a then a +:+ b else a +:+ "/" +:+ b
      end
  end.

(** Objects and exceptions are named by strings; the class gives the
    factory its three methods and [__class__]. *)
Definition posix_host : Host := {|
  obj := string;
  lib_error := string;
  static_dir := "/site-packages/BFAIR/thermo/static";
  os_path_join := posix_join;
  os_path_basename := posix_basename;
  type_attr := λ item,
    if bool_decide (item ∈ ["__init__"; "__dir__"; "__getattr__"; "__class__"])
    then Some ("<" +:+ item +:+ ">") else None;
|}.

(** A library for which [glob] lists [listing], which finds the files
    [files] and no others, whose loggers have a stream and a file handler,
    and whose solver interface is [interface]. *)
Definition canned (listing files : list string) (interface : string)
  : lib (@thermo_sig posix_host) unit := λ c w,
  let found (path : string) : result string string :=
    if bool_decide (path ∈ files) then Ok ("<" +:+ path +:+ ">")
    else Err ("FileNotFoundError: " +:+ path) in
  match c with
  | glob _ => (Ok listing, w)
  | load_json_model path => (found path, w)
  | load_thermoDB path => (found path, w)
  | read_lexicon path => (found path, w)
  | read_compartment_data path => (found path, w)
  | get_bistream_logger logger_name => (Ok ("<logger " +:+ logger_name +:+ ">"), w)
  | logger_handlers _ => (Ok ["<StreamHandler>"; "<FileHandler>"], w)
  | isinstance_FileHandler handler => (Ok (String.eqb handler "<FileHandler>"), w)
  | handler_setLevel _ _ => (Ok tt, w)
  | ThermoModel _ _ => (Ok "<ThermoModel>", w)
  | set_name _ _ => (Ok tt, w)
  | annotate_from_lexicon _ _ => (Ok tt, w)
  | apply_compartment_data _ _ => (Ok tt, w)
  | solver_interface_name _ => (Ok interface, w)
  | set_NumericFocus _ _ => (Ok tt, w)
  | set_tolerances_feasibility _ _ => (Ok tt, w)
  | set_presolve _ _ => (Ok tt, w)
  | prepare _ => (Ok tt, w)
  | convert _ _ => (Ok tt, w)
  end.

(** A static folder with the two models of the docstring, of which only
    [small_ecoli] has its lexicon and compartment data; [glob] lists it out
    of alphabetical order. *)
Definition shipped_json : list string :=
  [ "/site-packages/BFAIR/thermo/static/small_ecoli.json";
    "/site-packages/BFAIR/thermo/static/iJO1366.json" ].

Definition shipped : list string :=
  shipped_json ++
  [ "/site-packages/BFAIR/thermo/static/thermo_data.thermodb";
    "/site-packages/BFAIR/thermo/static/small_ecoli/lexicon.csv";
    "/site-packages/BFAIR/thermo/static/small_ecoli/compartment_data.json" ].

Definition glpk : lib (@thermo_sig posix_host) unit :=
  canned shipped_json shipped "optlang.glpk_interface".
Definition gurobi : lib (@thermo_sig posix_host) unit :=
  canned shipped_json shipped "optlang.gurobi_interface".

(** A static folder with a model file named [_list.json]. *)
Definition clashing_json : list string :=
  [ "/site-packages/BFAIR/thermo/static/_list.json" ].

Definition clashing : lib (@thermo_sig posix_host) unit :=
  canned clashing_json
    (clashing_json ++
     [ "/site-packages/BFAIR/thermo/static/thermo_data.thermodb";
       "/site-packages/BFAIR/thermo/static/_list/lexicon.csv";
       "/site-packages/BFAIR/thermo/static/_list/compartment_data.json" ])
    "optlang.glpk_interface".

(** The factory object over the shipped folder. *)
Definition shipped_models : _ModelFactory :=
  {| _list := ["small_ecoli"; "iJO1366"]; __doc__ := Some models_doc |}.

(** A pandas and an INCA script generator that answer every call, except
    that [read_csv] does not find the files in [missing]. *)
Definition canned_script (missing : list string)
  : lib (script_sig string string string) unit := λ c w,
  match c with
  | pd_set_option _ _ => (Ok tt, w)
  | open_ name _ => (Ok ("<file " +:+ name +:+ ">"), w)
  | pd_read_csv filepath =>
      (if bool_decide (filepath ∈ missing)
       then Err ("FileNotFoundError: " +:+ filepath)
       else Ok ("<" +:+ filepath +:+ ">"), w)
  | limit_to_one_model data _ value => (Ok (data +:+ "[" +:+ value +:+ "]"), w)
  | limit_to_one_experiment data _ value =>
      (Ok (data +:+ "[" +:+ value +:+ "]"), w)
  | initiate_MATLAB_script => (Ok "<initiated_MATLAB_script>", w)
  | add_reactions_to_script _ _ _ =>
      (Ok ("<model_reactions>", "<model_rxn_ids>"), w)
  | initialize_model => (Ok "<initialized_model>", w)
  | symmetrical_metabolites _ => (Ok "<symmetrical_metabolites_script>", w)
  | unbalanced_reactions _ => (Ok "<unbalanced_reactions_script>", w)
  | add_reaction_parameters _ _ _ _ => (Ok "<reaction_parameters>", w)
  | verify_and_estimate => (Ok "<verify_and_estimate_script>", w)
  | add_experimental_parameters _ _ _ _ =>
      (Ok ("<experimental_parameters>", "<fragments_used>"), w)
  | mapping _ _ => (Ok "<mapping_script>", w)
  | script_generator _ _ _ _ _ _ _ => (Ok "<script>", w)
  | runner_script_generator _ _ => (Ok "<runner>", w)
  | pickle_dump _ _ => (Ok tt, w)
  | close _ => (Ok tt, w)
  end.

(** A model with two reactions, two compartments and three
    log-concentration variables, and two bounds tables for it; bounds are
    integers, and the library accepts them when [lb <= ub]. *)
Local Open Scope Z_scope.

Definition small_model : store Z :=
  Store
    (list_to_map [("EX_glc", (-10, 0)); ("BIOMASS", (0, 1000))])
    (list_to_map [("EX_glc", (-10, 0)); ("BIOMASS", (0, 1000))])
    ["c"; "e"]
    (list_to_map [("glc_c", (-12, -2)); ("glc_e", (-12, -2)); ("atp_c", (-12, -2))]).

Definition small_rxn_bounds : list (row Z) :=
  [ ("EX_glc", -5, -5); ("PFK", 0, 10); ("BIOMASS", 0, 1); ("EX_glc", -8, -1) ].

Definition small_lc_bounds : list (row Z) :=
  [ ("glc", -7, -3); ("nadh", -9, -4); ("atp", -6, -5) ].

Local Close Scope Z_scope.

(** A static folder in which one model file has a dot in its stem, and the
    factory object over it. *)
Definition dotted_json : list string :=
  [ "/site-packages/BFAIR/thermo/static/iJO1366.json";
    "/site-packages/BFAIR/thermo/static/e_coli.core.json" ].

Definition dotted : lib (@thermo_sig posix_host) unit :=
  canned dotted_json dotted_json "optlang.glpk_interface".

Definition dotted_models : _ModelFactory :=
  {| _list := ["iJO1366"; "e_coli"]; __doc__ := Some models_doc |}.

Local Open Scope Z_scope.

(** A bounds table whose second row has its bounds the wrong way round. *)
Definition crossed_rxn_bounds : list (row Z) :=
  [ ("EX_glc", -5, -5); ("BIOMASS", 5, 1); ("EX_glc", -8, -1) ].

(** The small model, with a parent that lacks the reaction [BIOMASS]. *)
Definition orphan_model : store Z :=
  Store
    (reactions small_model)
    (list_to_map [("EX_glc", (-10, 0))])
    (compartment_ids small_model)
    (log_concentration small_model).

Local Close Scope Z_scope.

(** * Facts *)

(** ** Running programs *)

Section RunFacts.
Context {Σ : sig} {W : Type} (h : lib Σ W).

Lemma run_eta {A} (p : prog Σ A) w :
  run h p w = (trace h p w, outcome h p w, final h p w).
Proof. unfold trace, outcome, final. by destruct (run h p w) as [[??]?]. Qed.

Lemma run_bind {A B} (p : prog Σ A) (f : A → prog Σ B) w :
  run h (bind p f) w =
  match outcome h p w with
  | Ok a =>
      (trace h p w ++ trace h (f a) (final h p w),
       outcome h (f a) (final h p w),
       final h (f a) (final h p w))
  | Err e => (trace h p w, Err e, final h p w)
  end.
Proof.
  revert w. induction p as [a|e|c k IH|c k IH except IHx]; intros w.
  - cbn. apply run_eta.
  - done.
  - unfold trace, outcome, final. cbn.
    destruct (h c w) as [[r|x] w1]; cbn; [|done].
    rewrite IH. unfold trace, outcome, final.
    destruct (run h (k r) w1) as [[tr o] w2]; cbn.
    by destruct o.
  - unfold trace, outcome, final. cbn.
    destruct (h c w) as [[r|x] w1]; cbn.
    + rewrite IH. unfold trace, outcome, final.
      destruct (run h (k r) w1) as [[tr o] w2]; cbn.
      by destruct o.
    + rewrite IHx. unfold trace, outcome, final.
      destruct (run h (except x) w1) as [[tr o] w2]; cbn.
      by destruct o.
Qed.

Lemma run_bind_Ok {A B} (p : prog Σ A) (f : A → prog Σ B) w tr1 a w1 :
  run h p w = (tr1, Ok a, w1) →
  run h (bind p f) w =
  (tr1 ++ trace h (f a) w1, outcome h (f a) w1, final h (f a) w1).
Proof.
  intros Hp. rewrite run_bind. unfold trace, outcome, final. by rewrite Hp.
Qed.

Lemma run_bind_Err {A B} (p : prog Σ A) (f : A → prog Σ B) w tr1 e w1 :
  run h p w = (tr1, Err e, w1) → run h (bind p f) w = (tr1, Err e, w1).
Proof.
  intros Hp. rewrite run_bind. unfold trace, outcome, final. by rewrite Hp.
Qed.

Lemma run_bind_inv {A B} (p : prog Σ A) (f : A → prog Σ B) w tr b w' :
  run h (bind p f) w = (tr, Ok b, w') →
  ∃ tr1 a w1 tr2,
    run h p w = (tr1, Ok a, w1) ∧ run h (f a) w1 = (tr2, Ok b, w') ∧
    tr = tr1 ++ tr2.
Proof.
  rewrite run_bind. rewrite (run_eta p w).
  destruct (outcome h p w) as [a|e]; [|done].
  intros [= <- Ho <-].
  exists (trace h p w), a, (final h p w), (trace h (f a) (final h p w)).
  split_and!; [done| |done]. by rewrite run_eta, Ho.
Qed.

Lemma run_perform (c : call Σ) w :
  run h (perform c) w =
  match h c w with
  | (Ok r, w') => ([Returned c r], Ok r, w')
  | (Err x, w') => ([Failed c x], Err (LibraryError x), w')
  end.
Proof. cbn. by destruct (h c w) as [[r|x] w']. Qed.

Lemma run_perform_inv (c : call Σ) w tr r w' :
  run h (perform c) w = (tr, Ok r, w') →
  h c w = (Ok r, w') ∧ tr = [Returned c r].
Proof.
  rewrite run_perform. destruct (h c w) as [[r0|x] w0]; [|done].
  by intros [= <- <- <-].
Qed.

Lemma trace_bind {A B} (p : prog Σ A) (f : A → prog Σ B) w :
  trace h (bind p f) w =
  match outcome h p w with
  | Ok a => trace h p w ++ trace h (f a) (final h p w)
  | Err e => trace h p w
  end.
Proof. unfold trace at 1. rewrite run_bind. by destruct (outcome h p w). Qed.

Lemma outcome_bind {A B} (p : prog Σ A) (f : A → prog Σ B) w :
  outcome h (bind p f) w =
  match outcome h p w with
  | Ok a => outcome h (f a) (final h p w)
  | Err e => Err e
  end.
Proof. unfold outcome at 1. rewrite run_bind. by destruct (outcome h p w). Qed.

Lemma final_bind {A B} (p : prog Σ A) (f : A → prog Σ B) w :
  final h (bind p f) w =
  match outcome h p w with
  | Ok a => final h (f a) (final h p w)
  | Err e => final h p w
  end.
Proof. unfold final at 1. rewrite run_bind. by destruct (outcome h p w). Qed.

Lemma run_for_app {T} (l1 l2 : list T) (body : T → prog Σ unit) w :
  run h (for_ (l1 ++ l2) body) w =
  run h (bind (for_ l1 body) (λ _, for_ l2 body)) w.
Proof.
  revert w. induction l1 as [|x l1 IH]; intros w; [reflexivity|].
  cbn [for_ app]. rewrite !run_eta.
  repeat first [rewrite trace_bind | rewrite outcome_bind | rewrite final_bind].
  destruct (outcome h (body x) w) as [[]|e]; [|done].
  pose proof (IH (final h (body x) w)) as IH'.
  rewrite !run_eta in IH'.
  rewrite trace_bind, outcome_bind, final_bind in IH'.
  injection IH' as -> -> ->.
  by destruct (outcome h (for_ l1 body) _); rewrite ?app_assoc.
Qed.

Lemma outcome_for_app {T} (l1 l2 : list T) (body : T → prog Σ unit) w :
  outcome h (for_ (l1 ++ l2) body) w =
  match outcome h (for_ l1 body) w with
  | Ok _ => outcome h (for_ l2 body) (final h (for_ l1 body) w)
  | Err e => Err e
  end.
Proof. unfold outcome at 1. rewrite run_for_app. apply outcome_bind. Qed.

Lemma final_for_app {T} (l1 l2 : list T) (body : T → prog Σ unit) w :
  final h (for_ (l1 ++ l2) body) w =
  match outcome h (for_ l1 body) w with
  | Ok _ => final h (for_ l2 body) (final h (for_ l1 body) w)
  | Err e => final h (for_ l1 body) w
  end.
Proof. unfold final at 1. rewrite run_for_app. apply final_bind. Qed.

(** A round that returns and leaves the world as it was can be dropped
    from a loop. *)
Lemma for_skip {T} (body : T → prog Σ unit) (l1 l2 : list T) (x : T) w :
  (outcome h (for_ l1 body) w = Ok tt →
   outcome h (body x) (final h (for_ l1 body) w) = Ok tt ∧
   final h (body x) (final h (for_ l1 body) w) = final h (for_ l1 body) w) →
  outcome h (for_ (l1 ++ x :: l2) body) w = outcome h (for_ (l1 ++ l2) body) w ∧
  final h (for_ (l1 ++ x :: l2) body) w = final h (for_ (l1 ++ l2) body) w.
Proof.
  intros Hx. rewrite !outcome_for_app, !final_for_app.
  destruct (outcome h (for_ l1 body) w) as [[]|e]; [|done].
  destruct Hx as [Ho Hf]; [done|].
  cbn [for_]. by rewrite outcome_bind, final_bind, Ho, Hf.
Qed.

(** Outside [try] blocks, a failed call ends the run. *)
Lemma run_Failed {A} (p : prog Σ A) w c x :
  no_except p →
  Failed c x ∈ trace h p w →
  last (trace h p w) = Some (Failed c x) ∧ outcome h p w = Err (LibraryError x).
Proof.
  revert w.
  induction p as [a|e|c' k IH|c' k IH except IHx]; intros w Hp;
    unfold trace, outcome; cbn.
  - by intros ?%elem_of_nil.
  - by intros ?%elem_of_nil.
  - destruct (h c' w) as [[r|x'] w1]; cbn.
    + specialize (IH r w1 (Hp r)). unfold trace, outcome in IH.
      destruct (run h (k r) w1) as [[tr o] w2]; cbn in *.
      intros [?|Hin]%elem_of_cons; [done|].
      destruct (IH Hin) as [Hl ->]. split; [|done].
      destruct tr; [done|]. by rewrite last_cons, Hl.
    + intros [[= -> ->]|?%elem_of_nil]%elem_of_cons; done.
  - destruct Hp.
Qed.

(** Outside [try] blocks, an exception comes from the program's own
    [Raise] or from the call that failed last. *)
Lemma run_Err {A} (p : prog Σ A) w e :
  no_except p →
  outcome h p w = Err e →
  may_raise p e ∨
  ∃ c x, e = LibraryError x ∧ last (trace h p w) = Some (Failed c x).
Proof.
  revert w.
  induction p as [a|e'|c k IH|c k IH except IHx]; intros w Hp;
    unfold trace, outcome; cbn.
  - done.
  - intros [= ->]. by left.
  - destruct (h c w) as [[r|x] w1]; cbn.
    + specialize (IH r w1 (Hp r)). unfold trace, outcome in IH.
      destruct (run h (k r) w1) as [[tr o] w2]; cbn in *.
      intros Ho. destruct (IH Ho) as [?|(c'&x&->&Hl)]; [left; eauto|].
      right. exists c', x. split; [done|].
      destruct tr; [done|]. by rewrite last_cons, Hl.
    + intros [= <-]. right. eauto.
  - destruct Hp.
Qed.

(** A program without [try] blocks passes on library failures. *)
Lemma run_passes_on {A} (p : prog Σ A) :
  no_except p → passes_on h p (may_raise p).
Proof.
  intros Hp w. split; [intros c x; by apply run_Failed|intros e; by apply run_Err].
Qed.

(** A program with a [try] block need not: the handler's answer replaces
    the exception of the call that failed. *)
Lemma try_except_catches (c : call Σ) (handler : exn Σ → prog Σ (resp Σ c))
    w x w1 :
  h c w = (Err x, w1) →
  run h (try_except (perform c) handler) w =
  (Failed c x :: trace h (handler (LibraryError x)) w1,
   outcome h (handler (LibraryError x)) w1,
   final h (handler (LibraryError x)) w1).
Proof.
  intros Hc. cbn. rewrite Hc. unfold trace, outcome, final.
  by destruct (run h (handler (LibraryError x)) w1) as [[tr o] w2].
Qed.

Lemma try_except_not_passes_on (c : call Σ) (a : resp Σ c) w x w1 :
  h c w = (Err x, w1) →
  ¬ passes_on h (try_except (perform c) (λ _, Ret a)) (λ _, True).
Proof.
  intros Hc Hp. destruct (Hp w) as [Hf _].
  unfold trace, outcome in Hf. rewrite (try_except_catches _ _ _ _ _ Hc) in Hf.
  cbn in Hf. destruct (Hf c x) as [_ Ho]; [left|]. discriminate Ho.
Qed.

Lemma passes_on_mono {A} (p : prog Σ A) (P Q : exn Σ → Prop) :
  (∀ e, P e → Q e) → passes_on h p P → passes_on h p Q.
Proof.
  intros HPQ Hp w. destruct (Hp w) as [H1 H2]. split; [done|].
  intros e He. destruct (H2 e He); eauto.
Qed.

(** A run that returns has no failed call behind it. *)
Lemma run_Ok_Returned {A} (p : prog Σ A) w tr a w' :
  no_except p →
  run h p w = (tr, Ok a, w') → Forall (λ e, is_Failed e = false) tr.
Proof.
  intros Hp Hr. apply Forall_forall. intros [c r|c x] Hin; [done|].
  pose proof (run_Failed p w c x Hp) as Hf. unfold trace, outcome in Hf.
  rewrite Hr in Hf. by destruct (Hf Hin).
Qed.

(** Only the calls a program can make show up in its runs. *)
Lemma trace_only_calls {A} (P : call Σ → Prop) (p : prog Σ A) w :
  only_calls P p → Forall (λ e, P (called e)) (trace h p w).
Proof.
  revert w.
  induction p as [a|e|c k IH|c k IH except IHx]; intros w; unfold trace; cbn.
  - constructor.
  - constructor.
  - intros [Hc Hk]. destruct (h c w) as [[r|x] w1]; cbn.
    + specialize (IH r w1 (Hk r)). unfold trace in IH.
      destruct (run h (k r) w1) as [[tr o] w2]; cbn in *.
      by constructor.
    + by repeat constructor.
  - intros (Hc & Hk & Hx). destruct (h c w) as [[r|x] w1]; cbn.
    + specialize (IH r w1 (Hk r)). unfold trace in IH.
      destruct (run h (k r) w1) as [[tr o] w2]; cbn in *.
      by constructor.
    + specialize (IHx x w1 (Hx x)). unfold trace in IHx.
      destruct (run h (except x) w1) as [[tr o] w2]; cbn in *.
      by constructor.
Qed.
End RunFacts.

Section MayRaise.
Context {Σ : sig}.

Lemma may_raise_bind {A B} (p : prog Σ A) (f : A → prog Σ B) e :
  may_raise (bind p f) e → may_raise p e ∨ ∃ a, may_raise (f a) e.
Proof.
  induction p as [a|e'|c k IH|c k IH except IHx]; cbn.
  - eauto.
  - eauto.
  - intros [r Hr]. destruct (IH r Hr) as [?|?]; eauto.
  - intros [[r Hr]|[x Hx]].
    + destruct (IH r Hr) as [?|?]; eauto.
    + destruct (IHx x Hx) as [?|?]; eauto.
Qed.

Lemma may_raise_for {T} (l : list T) (body : T → prog Σ unit) e :
  may_raise (for_ l body) e → ∃ x, x ∈ l ∧ may_raise (body x) e.
Proof.
  induction l as [|x l IH]; cbn; [done|].
  intros [?|[_ Hr]]%may_raise_bind.
  - exists x. split; [left|done].
  - destruct (IH Hr) as (y&?&?). exists y. split; [by right|done].
Qed.

Lemma may_raise_perform (c : call Σ) e : ¬ may_raise (perform c) e.
Proof. by intros [r []]. Qed.
End MayRaise.

Section OnlyCalls.
Context {Σ : sig} (P : call Σ → Prop).

Lemma only_calls_bind {A B} (p : prog Σ A) (f : A → prog Σ B) :
  only_calls P p → (∀ a, only_calls P (f a)) → only_calls P (bind p f).
Proof.
  intros Hp Hf. induction p as [a|e|c k IH|c k IH except IHx]; cbn in *;
    [done..| |].
  - destruct Hp as [Hc Hk]. split; [done|]. intros r. by apply IH.
  - destruct Hp as (Hc & Hk & Hx). split_and!; [done| |].
    + intros r. by apply IH.
    + intros x. by apply IHx.
Qed.

Lemma only_calls_for {T} (l : list T) (body : T → prog Σ unit) :
  (∀ x, only_calls P (body x)) → only_calls P (for_ l body).
Proof.
  intros Hb. induction l as [|x l IH]; cbn; [done|].
  by apply only_calls_bind.
Qed.

Lemma only_calls_perform (c : call Σ) : P c → only_calls P (perform c).
Proof. by split. Qed.
End OnlyCalls.

Section NoExcept.
Context {Σ : sig}.

Lemma no_except_bind {A B} (p : prog Σ A) (f : A → prog Σ B) :
  no_except p → (∀ a, no_except (f a)) → no_except (bind p f).
Proof.
  intros Hp Hf. induction p as [a|e|c k IH|c k IH except IHx]; cbn in *;
    [done..| |done].
  intros r. by apply IH.
Qed.

Lemma no_except_for {T} (l : list T) (body : T → prog Σ unit) :
  (∀ x, no_except (body x)) → no_except (for_ l body).
Proof.
  intros Hb. induction l as [|x l IH]; cbn; [done|].
  by apply no_except_bind.
Qed.

Lemma no_except_perform (c : call Σ) : no_except (perform c).
Proof. by intros r. Qed.
End NoExcept.

(** Shows that a program built from calls, [Raise], loops and branches has
    no [try] block. *)
Ltac show_no_except :=
  repeat first
    [ apply no_except_bind
    | apply no_except_for
    | apply no_except_perform
    | exact I
    | intros ?
    | match goal with
      | |- no_except (if ?b then _ else _) => destruct b
      | |- no_except (match ?x with (_, _) => _ end) => destruct x
      | |- no_except (match ?x with Some _ => _ | None => _ end) => destruct x
      end
    | progress cbn [no_except] ].

(** Splits a hypothesis [may_raise p e] along the structure of [p]. *)
Ltac split_raise :=
  repeat match goal with
  | H : may_raise (bind _ _) _ |- _ => apply may_raise_bind in H as [H|[? H]]
  | H : may_raise (for_ _ _) _ |- _ => apply may_raise_for in H as (?&_&H)
  | H : may_raise (perform _) _ |- _ => by apply may_raise_perform in H
  | H : may_raise (Ret _) _ |- _ => destruct H
  | H : may_raise (if ?b then _ else _) _ |- _ => destruct b
  | H : may_raise (match ?x with (_, _) => _ end) _ |- _ => destruct x
  end.

(** ** load_data and create_model *)

Section ThermoFacts.
Context `{Host}.

Lemma _silence_pytfa_never_raises logger_name e :
  ¬ may_raise (_silence_pytfa logger_name) e.
Proof. unfold _silence_pytfa. intros Hr. split_raise. Qed.

Lemma load_cbm_never_raises model_name e : ¬ may_raise (load_cbm model_name) e.
Proof. unfold load_cbm. intros Hr. split_raise. Qed.

Lemma load_data_never_raises model_name e : ¬ may_raise (load_data model_name) e.
Proof. unfold load_data. intros Hr. split_raise. Qed.

Lemma create_model_from_never_raises model_name td lx cd e :
  ¬ may_raise (create_model_from model_name td lx cd) e.
Proof.
  unfold create_model_from. intros Hr. split_raise;
    solve [ by eapply _silence_pytfa_never_raises
          | by eapply load_cbm_never_raises ].
Qed.

Lemma create_model_may_raise model_name td lx cd e :
  may_raise (create_model model_name td lx cd) e →
  e = not_all_supplied ∧
  (td = None ∨ lx = None ∨ cd = None) ∧ ¬ (td = None ∧ lx = None ∧ cd = None).
Proof.
  unfold create_model. intros [Hr|[[[a b] c] Hr]]%may_raise_bind.
  - destruct td, lx, cd; cbn in Hr;
      try (by apply load_data_never_raises in Hr);
      try done; subst e; (split; [done|]); intuition congruence.
  - by apply create_model_from_never_raises in Hr.
Qed.

Lemma _silence_pytfa_no_except logger_name :
  no_except (_silence_pytfa logger_name).
Proof. unfold _silence_pytfa. show_no_except. Qed.

Lemma load_cbm_no_except model_name : no_except (load_cbm model_name).
Proof. unfold load_cbm. show_no_except. Qed.

Lemma load_data_no_except model_name : no_except (load_data model_name).
Proof. unfold load_data. show_no_except. Qed.

Lemma create_model_from_no_except model_name td lx cd :
  no_except (create_model_from model_name td lx cd).
Proof.
  unfold create_model_from.
  repeat first
    [ apply _silence_pytfa_no_except | apply load_cbm_no_except
    | apply no_except_bind | apply no_except_perform | exact I | intros ?
    | match goal with |- no_except (if ?b then _ else _) => destruct b end ].
Qed.

Lemma create_model_no_except model_name td lx cd :
  no_except (create_model model_name td lx cd).
Proof.
  unfold create_model. apply no_except_bind.
  - unfold required_data.
    destruct td, lx, cd; cbn; intros; first [exact I | apply load_data_no_except].
  - intros [[a b] c]. apply create_model_from_no_except.
Qed.

(** C1. [create_model] raises its [ValueError] exactly when some but not
    all of [thermo_data], [lexicon] and [compartment_data] are [None], and
    it does so before any library call.  With all three [None] it goes on
    with the triple [load_data(model_name)] returns, with all three given
    it goes on with them; in neither case does a [ValueError] of its own
    come out, whatever the libraries do. *)
Theorem create_model_all_or_none
    (model_name : string) (thermo_data lexicon compartment_data : option obj) :
  let some_none :=
    thermo_data = None ∨ lexicon = None ∨ compartment_data = None in
  let all_none :=
    thermo_data = None ∧ lexicon = None ∧ compartment_data = None in
  (some_none ∧ ¬ all_none →
     create_model model_name thermo_data lexicon compartment_data
     = Raise not_all_supplied) ∧
  (all_none →
     create_model model_name thermo_data lexicon compartment_data
     = let* (td, lx, cd) := load_data model_name in
       create_model_from model_name td lx cd) ∧
  (∀ td lx cd,
     thermo_data = Some td → lexicon = Some lx → compartment_data = Some cd →
     create_model model_name thermo_data lexicon compartment_data
     = create_model_from model_name td lx cd) ∧
  (∀ W (h : lib thermo_sig W) w,
     (∃ msg, outcome h
               (create_model model_name thermo_data lexicon compartment_data) w
             = Err (ValueError msg))
     ↔ some_none ∧ ¬ all_none).
Proof.
  cbn zeta. split_and!.
  - intros [Hsome Hnot].
    destruct thermo_data, lexicon, compartment_data; try reflexivity;
      exfalso; intuition congruence.
  - by intros (-> & -> & ->).
  - by intros td lx cd -> -> ->.
  - intros W h w. split.
    + intros [msg Ho].
      apply run_Err in Ho as [Hr|(c&x&?&_)];
        [|done|apply create_model_no_except].
      by apply create_model_may_raise in Hr as [_ ?].
    + intros [Hsome Hnot]. exists "Not all required data supplied.".
      destruct thermo_data, lexicon, compartment_data; try reflexivity;
        exfalso; intuition congruence.
Qed.

(** C5. [load_data] makes three calls and no other, in this order:
    [load_thermoDB] on ["thermo_data.thermodb"], [read_lexicon] on
    [model_name/lexicon.csv] and [read_compartment_data] on
    [model_name/compartment_data.json], each path taken under the static
    folder, and it returns what they returned as a triple in that order.
    It returns exactly when the three calls succeed one after the other. *)
Theorem load_data_reads_static_files
    {W} (h : lib thermo_sig W) (model_name : string) w tr r w' :
  run h (load_data model_name) w = (tr, Ok r, w') ↔
  ∃ thermo_data lexicon compartment_data w1 w2,
    h (load_thermoDB (os_path_join static_dir "thermo_data.thermodb")) w
      = (Ok thermo_data, w1) ∧
    h (read_lexicon
         (os_path_join static_dir (os_path_join model_name "lexicon.csv"))) w1
      = (Ok lexicon, w2) ∧
    h (read_compartment_data
         (os_path_join static_dir
            (os_path_join model_name "compartment_data.json"))) w2
      = (Ok compartment_data, w') ∧
    r = (thermo_data, lexicon, compartment_data) ∧
    tr = [ Returned (Σ:=thermo_sig)
             (load_thermoDB (_path "thermo_data.thermodb")) thermo_data;
           Returned (Σ:=thermo_sig)
             (read_lexicon (_path (os_path_join model_name "lexicon.csv")))
             lexicon;
           Returned (Σ:=thermo_sig)
             (read_compartment_data
                (_path (os_path_join model_name "compartment_data.json")))
             compartment_data ].
Proof.
  unfold load_data, _path. cbn.
  destruct (h (load_thermoDB _) w) as [[td|x] w1] eqn:E1; cbn.
  2: { split; [done|]. intros (?&?&?&?&?&?&_). congruence. }
  destruct (h (read_lexicon _) w1) as [[lx|x] w2] eqn:E2; cbn.
  2: { split; [done|]. intros (?&?&?&?&?&[= <- <-]&?&_). congruence. }
  destruct (h (read_compartment_data _) w2) as [[cd|x] w3] eqn:E3; cbn.
  2: { split; [done|].
       intros (?&?&?&?&w2'&[= <- <-]&Hl&Hc&_).
       rewrite E2 in Hl. injection Hl as <- <-. congruence. }
  split.
  - intros [= <- <- <-]. by exists td, lx, cd, w1, w2.
  - intros (?&?&?&?&?&[= <- <-]&Hl&Hc&->&->).
    rewrite E2 in Hl. injection Hl as <- <-.
    rewrite E3 in Hc. by injection Hc as <- <-.
Qed.

Lemma _silence_pytfa_only_calls logger_name :
  only_calls (Σ:=thermo_sig) (λ c, configures_solver c = false)
    (_silence_pytfa logger_name).
Proof.
  unfold _silence_pytfa.
  repeat first
    [ apply only_calls_bind; [|intros ?]
    | apply only_calls_for; intros ?
    | by apply only_calls_perform
    | match goal with |- context [if ?b then _ else _] => destruct b end
    | done ].
Qed.

Lemma required_data_only_calls model_name td lx cd :
  only_calls (Σ:=thermo_sig) (λ c, configures_solver c = false)
    (required_data model_name td lx cd).
Proof. destruct td, lx, cd; cbn; done. Qed.

(** C6. A call of [create_model] that returns [tmodel] has, after the
    construction of [tmodel] and its annotation, asked for the name of the
    solver interface, set [NumericFocus] to 3 if and only if the answer was
    ["optlang.gurobi_interface"], then set the feasibility tolerance to
    1e-9 and presolve to [True], then called [prepare] and [convert]; no
    earlier call touches the solver configuration. *)
Theorem create_model_configures_solver
    {W} (h : lib thermo_sig W)
    (model_name : string) (thermo_data lexicon compartment_data : option obj)
    w tr tmodel w' :
  run h (create_model model_name thermo_data lexicon compartment_data) w
    = (tr, Ok tmodel, w') →
  ∃ pre td lx cd cmodel interface,
    Forall (λ e, configures_solver (called e) = false) pre ∧
    tr =
      pre ++
      [ Returned (Σ:=thermo_sig) (ThermoModel td cmodel) tmodel;
        Returned (Σ:=thermo_sig) (set_name tmodel model_name) tt;
        Returned (Σ:=thermo_sig) (annotate_from_lexicon tmodel lx) tt;
        Returned (Σ:=thermo_sig) (apply_compartment_data tmodel cd) tt;
        Returned (Σ:=thermo_sig) (solver_interface_name tmodel) interface ] ++
      (if String.eqb interface "optlang.gurobi_interface"
       then [ Returned (Σ:=thermo_sig) (set_NumericFocus tmodel 3) tt ]
       else []) ++
      [ Returned (Σ:=thermo_sig)
          (set_tolerances_feasibility tmodel (Float 1 (-9))) tt;
        Returned (Σ:=thermo_sig) (set_presolve tmodel true) tt;
        Returned (Σ:=thermo_sig) (prepare tmodel) tt;
        Returned (Σ:=thermo_sig) (convert tmodel false) tt ].
Proof.
  unfold create_model. intros Hrun.
  apply run_bind_inv in Hrun as (tr0 & [[td lx] cd] & w0 & tr1 & Hdata & Hrun & ->).
  unfold create_model_from in Hrun.
  apply run_bind_inv in Hrun as (tr2 & [] & w2 & tr3 & Hs1 & Hrun & ->).
  apply run_bind_inv in Hrun as (tr4 & [] & w4 & tr5 & Hs2 & Hrun & ->).
  apply run_bind_inv in Hrun as (tr6 & cmodel & w6 & tr7 & Hcbm & Hrun & ->).
  apply run_bind_inv in Hrun as (tr8 & tm & w8 & tr9 & Hnew & Hrun & ->).
  apply run_perform_inv in Hnew as [_ ->].
  apply run_bind_inv in Hrun as (? & [] & ? & ? & Hc & Hrun & ->).
  apply run_perform_inv in Hc as [_ ->].
  apply run_bind_inv in Hrun as (? & [] & ? & ? & Hc & Hrun & ->).
  apply run_perform_inv in Hc as [_ ->].
  apply run_bind_inv in Hrun as (? & [] & ? & ? & Hc & Hrun & ->).
  apply run_perform_inv in Hc as [_ ->].
  apply run_bind_inv in Hrun as (? & interface & ? & ? & Hc & Hrun & ->).
  apply run_perform_inv in Hc as [_ ->].
  apply run_bind_inv in Hrun as (trf & [] & ? & ? & Hfocus & Hrun & ->).
  apply run_bind_inv in Hrun as (? & [] & ? & ? & Hc & Hrun & ->).
  apply run_perform_inv in Hc as [_ ->].
  apply run_bind_inv in Hrun as (? & [] & ? & ? & Hc & Hrun & ->).
  apply run_perform_inv in Hc as [_ ->].
  apply run_bind_inv in Hrun as (? & [] & ? & ? & Hc & Hrun & ->).
  apply run_perform_inv in Hc as [_ ->].
  apply run_bind_inv in Hrun as (? & [] & ? & ? & Hc & Hrun & ->).
  apply run_perform_inv in Hc as [_ ->].
  injection Hrun as <- <- <-.
  exists (tr0 ++ tr2 ++ tr4 ++ tr6), td, lx, cd, cmodel, interface. split.
  - rewrite !Forall_app. split_and!.
    + replace tr0 with (trace h (required_data model_name thermo_data lexicon
                                   compartment_data) w)
        by (unfold trace; by rewrite Hdata).
      apply (trace_only_calls h (λ c, configures_solver c = false)),
        required_data_only_calls.
    + replace tr2 with (trace h (_silence_pytfa "thermomodel_None") w0)
        by (unfold trace; by rewrite Hs1).
      apply (trace_only_calls h (λ c, configures_solver c = false)),
        _silence_pytfa_only_calls.
    + replace tr4 with (trace h (_silence_pytfa ("thermomodel_" +:+ model_name)) w2)
        by (unfold trace; by rewrite Hs2).
      apply (trace_only_calls h (λ c, configures_solver c = false)),
        _silence_pytfa_only_calls.
    + unfold load_cbm in Hcbm. cbn in Hcbm.
      destruct (h _ w4) as [[?|?] ?]; [|done].
      injection Hcbm as <- _ _. by repeat constructor.
  - assert (trf = if String.eqb interface "optlang.gurobi_interface"
                  then [Returned (Σ:=thermo_sig) (set_NumericFocus tm 3) tt]
                  else []) as ->.
    { destruct (String.eqb interface _).
      - by apply run_perform_inv in Hfocus as [_ ->].
      - by injection Hfocus as <- _. }
    rewrite <- !app_assoc. cbn. by rewrite ?app_nil_r.
Qed.
End ThermoFacts.

(** ** The model factory *)

Global Instance str_le_total : Total str_le.
Proof. intros a b. apply String.leb_total. Qed.

Section FactoryFacts.
Context `{Host}.

Lemma sorted_Permutation (l : list string) : sorted l ≡ₚ l.
Proof. apply merge_sort_Permutation. Qed.

Lemma sorted_Sorted (l : list string) : Sorted str_le (sorted l).
Proof. apply (Sorted_merge_sort str_le). Qed.

Lemma __getattr___listed (self : _ModelFactory) (item : string) :
  item ∈ _list self →
  __getattr__ self item
  = let* tmodel := create_model item None None None in Ret (AttrObj tmodel).
Proof. intros Hin. unfold __getattr__. by rewrite bool_decide_eq_true_2. Qed.

Lemma __getattr___unlisted (self : _ModelFactory) (item : string) :
  item ∉ _list self → __getattr__ self item = object_getattribute self item.
Proof. intros Hin. unfold __getattr__. by rewrite bool_decide_eq_false_2. Qed.

(** C4, amended. The factory object lists the files [glob] finds for
    ["*.json"] under the static folder, each by its basename cut at the
    first dot: [__dir__] returns them in [glob]'s order and [dir(models)]
    is that list sorted.  For a listed name that normal attribute lookup
    does not find on the object, [models.name] runs as
    [create_model(name)] does: the same calls, the same final world, and
    the same model or the same exception. *)
Theorem models_lists_and_creates
    {W} (h : lib thermo_sig W) w tr (self : _ModelFactory) w1 :
  run h models w = (tr, Ok self, w1) →
  ∃ paths,
    tr = [Returned (Σ:=thermo_sig) (glob (_path "*.json")) paths] ∧
    __dir__ self = map (λ path, split_dot_0 (os_path_basename path)) paths ∧
    dir self ≡ₚ __dir__ self ∧
    Sorted str_le (dir self) ∧
    ∀ name,
      name ∈ dir self → default_lookup self name = None →
      ∀ w2,
        trace h (getattr self name) w2
          = trace h (create_model name None None None) w2 ∧
        outcome h (getattr self name) w2
          = result_map AttrObj (outcome h (create_model name None None None) w2) ∧
        final h (getattr self name) w2
          = final h (create_model name None None None) w2.
Proof.
  intros Hrun. unfold models, __init__ in Hrun. cbn in Hrun.
  destruct (h (glob _) w) as [[paths|x] w0]; [|done]. cbn in Hrun.
  injection Hrun as <- <- <-. exists paths. split_and!; try done.
  - apply sorted_Permutation.
  - apply sorted_Sorted.
  - intros name Hin Hlook w2. unfold getattr. rewrite Hlook.
    rewrite __getattr___listed.
    2: { unfold dir in Hin. by rewrite sorted_Permutation in Hin. }
    rewrite trace_bind, outcome_bind, final_bind.
    destruct (outcome h (create_model name None None None) w2); cbn; [|done].
    by rewrite app_nil_r.
Qed.

(** C10, amended. For a name that is not in the factory's list, attribute
    access gives what normal lookup gives, the attribute's value when the
    object has one and [AttributeError] when it has none, and makes no
    library call, so no model is created. *)
Theorem getattr_unlisted (self : _ModelFactory) (item : string) :
  item ∉ _list self →
  getattr self item = object_getattribute self item ∧
  __getattr__ self item = object_getattribute self item ∧
  (default_lookup self item = None →
     getattr self item = Raise (AttributeError item)) ∧
  (∀ v, default_lookup self item = Some v → getattr self item = Ret v) ∧
  (∀ W (h : lib thermo_sig W) w, trace h (getattr self item) w = []).
Proof.
  intros Hin. pose proof (__getattr___unlisted self item Hin) as Hg.
  unfold getattr. rewrite Hg. unfold object_getattribute.
  destruct (default_lookup self item) as [v|]; split_and!; try done.
  by intros v' [= <-].
Qed.
End FactoryFacts.

(** ** adjust_model on the reference store *)

Section Writes.
Context {num : Type}.
Implicit Types (d : gmap string (num * num)) (ws : list (string * (num * num))).

Lemma has_id_true d id : has_id d id = true ↔ is_Some (d !! id).
Proof. unfold has_id. apply bool_decide_eq_true. Qed.

Lemma has_id_false d id : has_id d id = false ↔ d !! id = None.
Proof.
  unfold has_id. rewrite bool_decide_eq_false. symmetry. apply eq_None_not_Some.
Qed.

Lemma has_id_insert d id v id' :
  has_id d id = true → has_id (<[id:=v]> d) id' = has_id d id'.
Proof.
  intros Hid. unfold has_id. apply bool_decide_ext.
  destruct (decide (id = id')) as [<-|Hne].
  - rewrite lookup_insert_eq. apply has_id_true in Hid. naive_solver.
  - by rewrite lookup_insert_ne.
Qed.

Lemma guarded_writes_app g d ws1 ws2 :
  guarded_writes g d (ws1 ++ ws2) = guarded_writes g (guarded_writes g d ws1) ws2.
Proof. revert d. induction ws1 as [|[k v] ws1 IH]; intros d; cbn; [done|apply IH]. Qed.

Lemma guarded_writes_ext g g' d ws :
  (∀ k, g k = g' k) → guarded_writes g d ws = guarded_writes g' d ws.
Proof.
  intros Hg. revert d. induction ws as [|[k v] ws IH]; intros d; cbn; [done|].
  by rewrite Hg, IH.
Qed.

(** Writes guarded by membership never change which ids are there. *)
Lemma has_id_guarded_writes g d ws id :
  (∀ k, g k = true → has_id d k = true) →
  has_id (guarded_writes g d ws) id = has_id d id.
Proof.
  revert d. induction ws as [|[k v] ws IH]; intros d Hg; cbn; [done|].
  destruct (g k) eqn:Hk; [|by apply IH].
  rewrite IH.
  - apply has_id_insert. by apply Hg.
  - intros k' Hk'. rewrite has_id_insert; by apply Hg.
Qed.

(** An id no write names keeps its value. *)
Lemma guarded_writes_other g d ws id :
  id ∉ ws.*1 → guarded_writes g d ws !! id = d !! id.
Proof.
  revert d. induction ws as [|[k v] ws IH]; intros d Hid; cbn; [done|].
  cbn in Hid. apply not_elem_of_cons in Hid as [Hne Hid].
  rewrite IH by done. destruct (g k); [|done]. by rewrite lookup_insert_ne.
Qed.

(** The value of an id is the one its writes agree on. *)
Lemma guarded_writes_agree g d ws id v :
  g id = true → (id, v) ∈ ws → (∀ v', (id, v') ∈ ws → v' = v) →
  guarded_writes g d ws !! id = Some v.
Proof.
  intros Hg. induction ws as [|[k v'] ws IH] using rev_ind; intros Hin Hall.
  - by apply elem_of_nil in Hin.
  - rewrite guarded_writes_app. cbn. destruct (decide (k = id)) as [->|Hne].
    + rewrite Hg, lookup_insert_eq. f_equal. apply Hall.
      apply elem_of_app. right. by left.
    + assert (guarded_writes g d ws !! id = Some v) as Hws.
      { apply IH.
        - apply elem_of_app in Hin as [?|Hin]; [done|].
          apply list_elem_of_singleton in Hin. congruence.
        - intros v'' ?. apply Hall, elem_of_app. by left. }
      destruct (g k); [|done]. by rewrite lookup_insert_ne.
Qed.

Lemma guarded_writes_last g d ws1 ws2 ws3 id v :
  g id = true → (id, v) ∈ ws2 → (∀ v', (id, v') ∈ ws2 → v' = v) →
  id ∉ ws3.*1 →
  guarded_writes g d (ws1 ++ ws2 ++ ws3) !! id = Some v.
Proof.
  intros Hg Hin Hall Hnot.
  rewrite !guarded_writes_app, guarded_writes_other by done.
  by apply guarded_writes_agree.
Qed.
End Writes.

Section AdjustFacts.
Context {num : Type} (bounds_ok : num → num → bool).

Local Abbreviation Σ := (model_sig handle num (cobra_exn num)).
Local Abbreviation lib_ := (cobra bounds_ok).
Local Abbreviation written s id lb ub :=
  (Store (<[id:=(lb, ub)]> (reactions s)) (<[id:=(lb, ub)]> (parent_reactions s))
     (compartment_ids s) (log_concentration s)).

(** One round of the first loop, in full. *)
Lemma run_constrain_reaction (s : store num) id lb ub :
  run lib_ (constrain_reaction the_tmodel (id, lb, ub)) s =
  if has_id (reactions s) id then
    if has_id (parent_reactions s) id then
      if bounds_ok lb ub then
        ([ Returned (Σ:=Σ) (reactions_has_id the_tmodel id) true;
           Returned (Σ:=Σ) (parent_reactions_get_by_id the_tmodel id)
             (parent_reaction id);
           Returned (Σ:=Σ) (reaction_set_bounds (parent_reaction id) lb ub) tt;
           Returned (Σ:=Σ) (reactions_get_by_id the_tmodel id) (reaction id);
           Returned (Σ:=Σ) (reaction_set_bounds (reaction id) lb ub) tt ],
         Ok tt, written s id lb ub)
      else
        ([ Returned (Σ:=Σ) (reactions_has_id the_tmodel id) true;
           Returned (Σ:=Σ) (parent_reactions_get_by_id the_tmodel id)
             (parent_reaction id);
           Failed (Σ:=Σ) (reaction_set_bounds (parent_reaction id) lb ub)
             (BoundsRejected lb ub) ],
         Err (LibraryError (Σ:=Σ) (BoundsRejected lb ub)), s)
    else
      ([ Returned (Σ:=Σ) (reactions_has_id the_tmodel id) true;
         Failed (Σ:=Σ) (parent_reactions_get_by_id the_tmodel id) (KeyError id) ],
       Err (LibraryError (Σ:=Σ) (KeyError id)), s)
  else ([ Returned (Σ:=Σ) (reactions_has_id the_tmodel id) false ], Ok tt, s).
Proof.
  cbn. destruct (has_id (reactions s) id) eqn:Hr; cbn; [|done].
  unfold get_by_id at 1.
  destruct (has_id (parent_reactions s) id) eqn:Hp; cbn; [|done].
  destruct (bounds_ok lb ub) eqn:Hb; cbn; [|done].
  unfold get_by_id. by rewrite Hr.
Qed.

Lemma store_eta (s : store num) :
  Store (reactions s) (parent_reactions s) (compartment_ids s)
    (log_concentration s) = s.
Proof. by destruct s. Qed.

Lemma rxn_writes_ids (rows : list (row num)) : (rxn_writes rows).*1 = rows.*1.*1.
Proof.
  induction rows as [|[[id lb] ub] rows IH]; [done|].
  cbn. f_equal. apply IH.
Qed.

(** The first loop, when it runs through: the writes of the rows, in
    order, each guarded by the id being a reaction of the model. *)
Lemma constrain_reactions_Ok (s : store num) rows tr s' :
  run lib_ (for_ rows (constrain_reaction the_tmodel)) s = (tr, Ok tt, s') →
  s' = Store
         (guarded_writes (has_id (reactions s)) (reactions s) (rxn_writes rows))
         (guarded_writes (has_id (reactions s)) (parent_reactions s)
            (rxn_writes rows))
         (compartment_ids s) (log_concentration s).
Proof.
  revert s tr. induction rows as [|[[id lb] ub] rows IH]; intros s tr Hrun.
  - injection Hrun as _ <-. cbn. by rewrite store_eta.
  - cbn [for_] in Hrun.
    apply run_bind_inv in Hrun as (tr1 & [] & s1 & tr2 & Hstep & Hrun & ->).
    rewrite run_constrain_reaction in Hstep. apply IH in Hrun as ->. cbn.
    destruct (has_id (reactions s) id) eqn:Hid.
    + destruct (has_id (parent_reactions s) id); [|done].
      destruct (bounds_ok lb ub); [|done]. injection Hstep as _ <-. cbn.
      by rewrite !(guarded_writes_ext (has_id (<[id:=(lb, ub)]> (reactions s)))
                     (has_id (reactions s)))
        by (intros k; by apply has_id_insert).
    + by injection Hstep as _ <-.
Qed.

(** One round of the inner loop, in full. *)
Lemma run_constrain_variable (s : store num) met lb ub c :
  let met_id := met +:+ "_" +:+ c in
  run lib_ (constrain_variable the_tmodel met lb ub c) s =
  if has_id (log_concentration s) met_id then
    if bounds_ok lb ub then
      ([ Returned (Σ:=Σ) (log_concentration_has_id the_tmodel met_id) true;
         Returned (Σ:=Σ) (log_concentration_get_by_id the_tmodel met_id)
           (lc_variable met_id);
         Returned (Σ:=Σ) (variable_set_bounds (lc_variable met_id) lb ub) tt ],
       Ok tt,
       set_log_concentration s (<[met_id:=(lb, ub)]> (log_concentration s)))
    else
      ([ Returned (Σ:=Σ) (log_concentration_has_id the_tmodel met_id) true;
         Returned (Σ:=Σ) (log_concentration_get_by_id the_tmodel met_id)
           (lc_variable met_id);
         Failed (Σ:=Σ) (variable_set_bounds (lc_variable met_id) lb ub)
           (BoundsRejected lb ub) ],
       Err (LibraryError (Σ:=Σ) (BoundsRejected lb ub)), s)
  else
    ([ Returned (Σ:=Σ) (log_concentration_has_id the_tmodel met_id) false ],
     Ok tt, s).
Proof.
  cbn. destruct (has_id (log_concentration s) _) eqn:Hid; cbn; [|done].
  unfold get_by_id. rewrite Hid. cbn.
  by destruct (bounds_ok lb ub).
Qed.

Lemma constrain_variables_Ok (s : store num) met lb ub comps tr s' :
  run lib_ (for_ comps (constrain_variable the_tmodel met lb ub)) s
    = (tr, Ok tt, s') →
  s' = set_log_concentration s
         (guarded_writes (has_id (log_concentration s)) (log_concentration s)
            (lc_row_writes comps (met, lb, ub))).
Proof.
  revert s tr. induction comps as [|c comps IH]; intros s tr Hrun.
  - injection Hrun as _ <-. by destruct s.
  - cbn [for_] in Hrun.
    apply run_bind_inv in Hrun as (tr1 & [] & s1 & tr2 & Hstep & Hrun & ->).
    rewrite run_constrain_variable in Hstep. apply IH in Hrun as ->. cbn.
    destruct (has_id (log_concentration s) _) eqn:Hid.
    + destruct (bounds_ok lb ub); [|done]. injection Hstep as _ <-. cbn.
      unfold set_log_concentration. cbn. f_equal.
      apply guarded_writes_ext. intros k. by apply has_id_insert.
    + by injection Hstep as _ <-.
Qed.

Lemma constrain_log_concentrations_Ok (s : store num) rows tr s' :
  run lib_ (for_ rows (constrain_log_concentration the_tmodel)) s
    = (tr, Ok tt, s') →
  s' = set_log_concentration s
         (guarded_writes (has_id (log_concentration s)) (log_concentration s)
            (lc_writes (compartment_ids s) rows)).
Proof.
  revert s tr. induction rows as [|[[met lb] ub] rows IH]; intros s tr Hrun.
  - injection Hrun as _ <-. by destruct s.
  - cbn [for_] in Hrun.
    apply run_bind_inv in Hrun as (tr1 & [] & s1 & tr2 & Hstep & Hrun & ->).
    unfold constrain_log_concentration in Hstep.
    apply run_bind_inv in Hstep as (tr3 & comps & s3 & tr4 & Hc & Hstep & ->).
    apply run_perform_inv in Hc as [Hc ->]. injection Hc as <- <-.
    apply constrain_variables_Ok in Hstep as ->.
    apply IH in Hrun as ->. unfold set_log_concentration. cbn. f_equal.
    unfold lc_writes. cbn [flat_map]. rewrite guarded_writes_app.
    apply guarded_writes_ext. intros k.
    by apply has_id_guarded_writes.
Qed.

(** [adjust_model], when it runs through. *)
Lemma adjust_model_Ok (s : store num) rxn_bounds lc_bounds tr s' :
  run lib_ (adjust_model the_tmodel rxn_bounds lc_bounds) s = (tr, Ok tt, s') →
  reactions s'
    = guarded_writes (has_id (reactions s)) (reactions s) (rxn_writes rxn_bounds) ∧
  parent_reactions s'
    = guarded_writes (has_id (reactions s)) (parent_reactions s)
        (rxn_writes rxn_bounds) ∧
  compartment_ids s' = compartment_ids s ∧
  log_concentration s'
    = guarded_writes (has_id (log_concentration s)) (log_concentration s)
        (lc_writes (compartment_ids s) lc_bounds).
Proof.
  unfold adjust_model. intros Hrun.
  apply run_bind_inv in Hrun as (tr1 & [] & s1 & tr2 & Hrxn & Hlc & ->).
  apply constrain_reactions_Ok in Hrxn as ->.
  by apply constrain_log_concentrations_Ok in Hlc as ->.
Qed.

Lemma for_prefix_Ok {T} (body : T → prog Σ unit) (l : list T) i
    (s : store num) tr s' :
  run lib_ (for_ l body) s = (tr, Ok tt, s') →
  ∃ tr1 s1 tr2,
    run lib_ (for_ (take i l) body) s = (tr1, Ok tt, s1) ∧
    run lib_ (for_ (drop i l) body) s1 = (tr2, Ok tt, s') ∧
    tr = tr1 ++ tr2.
Proof.
  rewrite <- (take_drop i l) at 1. rewrite run_for_app. intros Hrun.
  apply run_bind_inv in Hrun as (tr1 & [] & s1 & tr2 & H1 & H2 & ->).
  by exists tr1, s1, tr2.
Qed.

(** If [adjust_model] runs through, it runs through on the first rows of
    the reaction table alone. *)
Lemma adjust_model_rxn_prefix (s : store num) rxn_bounds lc_bounds i tr s' :
  run lib_ (adjust_model the_tmodel rxn_bounds lc_bounds) s = (tr, Ok tt, s') →
  ∃ tr_i s_i,
    run lib_ (adjust_model the_tmodel (take i rxn_bounds) []) s
      = (tr_i, Ok tt, s_i).
Proof.
  unfold adjust_model. intros Hrun.
  apply run_bind_inv in Hrun as (tr1 & [] & s1 & tr2 & Hrxn & _ & _).
  apply (for_prefix_Ok _ _ i) in Hrxn as (tr3 & s3 & _ & Hpre & _ & _).
  exists (tr3 ++ []), s3. by rewrite (run_bind_Ok _ _ _ _ _ _ _ Hpre).
Qed.

(** And on all of the reaction table with the first rows of the other. *)
Lemma adjust_model_lc_prefix (s : store num) rxn_bounds lc_bounds i tr s' :
  run lib_ (adjust_model the_tmodel rxn_bounds lc_bounds) s = (tr, Ok tt, s') →
  ∃ tr_i s_i,
    run lib_ (adjust_model the_tmodel rxn_bounds (take i lc_bounds)) s
      = (tr_i, Ok tt, s_i).
Proof.
  unfold adjust_model. intros Hrun.
  apply run_bind_inv in Hrun as (tr1 & [] & s1 & tr2 & Hrxn & Hlc & _).
  apply (for_prefix_Ok _ _ i) in Hlc as (tr3 & s3 & _ & Hpre & _ & _).
  exists (tr1 ++ tr3), s3.
  rewrite (run_bind_Ok _ _ _ _ _ _ _ Hrxn). unfold trace, outcome, final.
  by rewrite Hpre.
Qed.

(** C2. Let [adjust_model] run through on the model [s].  For every row
    [(id, lb, ub)] of [rxn_bounds] whose id is a reaction of the model,
    once the loop has dealt with the rows up to this one the reaction's
    bounds are [(lb, ub)], and they still are at the end unless a later row
    names the same id.  For every row [(met, lb, ub)] of [lc_bounds] and
    compartment [c] of the model with a log-concentration variable
    [met_c], once the loop has dealt with the rows up to this one the
    variable's bounds are [(lb, ub)], and they still are at the end unless
    a later row yields the same variable id. *)
Theorem adjust_model_sets_bounds (s : store num) rxn_bounds lc_bounds tr s' :
  run lib_ (adjust_model the_tmodel rxn_bounds lc_bounds) s = (tr, Ok tt, s') →
  (∀ i id lb ub,
     rxn_bounds !! i = Some (id, lb, ub) → is_Some (reactions s !! id) →
     (∃ tr_i s_i,
        run lib_ (adjust_model the_tmodel (take (S i) rxn_bounds) []) s
          = (tr_i, Ok tt, s_i) ∧
        reactions s_i !! id = Some (lb, ub)) ∧
     (id ∉ (drop (S i) rxn_bounds).*1.*1 → reactions s' !! id = Some (lb, ub))) ∧
  (∀ i met lb ub c,
     lc_bounds !! i = Some (met, lb, ub) → c ∈ compartment_ids s →
     is_Some (log_concentration s !! (met +:+ "_" +:+ c)) →
     (∃ tr_i s_i,
        run lib_ (adjust_model the_tmodel rxn_bounds (take (S i) lc_bounds)) s
          = (tr_i, Ok tt, s_i) ∧
        log_concentration s_i !! (met +:+ "_" +:+ c) = Some (lb, ub)) ∧
     ((∀ met' lb' ub' c',
         (met', lb', ub') ∈ drop (S i) lc_bounds → c' ∈ compartment_ids s →
         met' +:+ "_" +:+ c' ≠ met +:+ "_" +:+ c) →
      log_concentration s' !! (met +:+ "_" +:+ c) = Some (lb, ub))).
Proof.
  intros Hrun. split.
  - intros i id lb ub Hi Hid. apply has_id_true in Hid. split.
    + destruct (adjust_model_rxn_prefix _ _ _ (S i) _ _ Hrun) as (tr_i & s_i & Hpre).
      exists tr_i, s_i. split; [done|].
      apply adjust_model_Ok in Hpre as (-> & _).
      rewrite (take_S_r rxn_bounds i _ Hi). unfold rxn_writes. rewrite map_app. cbn.
      rewrite <- (app_nil_r [_]).
      apply guarded_writes_last; [done|by left| |by intros ?%elem_of_nil].
      intros v' Hin. apply list_elem_of_singleton in Hin. congruence.
    + intros Hlater. apply adjust_model_Ok in Hrun as (-> & _).
      rewrite <- (take_drop_middle rxn_bounds i _ Hi). unfold rxn_writes.
      rewrite map_app. cbn.
      apply (guarded_writes_last _ _ _ [_]); [done|by left| |].
      * intros v' Hin. apply list_elem_of_singleton in Hin. congruence.
      * rewrite <- rxn_writes_ids in Hlater. exact Hlater.
  - intros i met lb ub c Hi Hc Hid. apply has_id_true in Hid.
    assert ((met +:+ "_" +:+ c, (lb, ub))
              ∈ lc_row_writes (compartment_ids s) (met, lb, ub)) as Hin.
    { cbn. by apply (list_elem_of_fmap_2 (λ c, (met +:+ "_" +:+ c, (lb, ub)))). }
    assert (∀ v', (met +:+ "_" +:+ c, v')
                    ∈ lc_row_writes (compartment_ids s) (met, lb, ub) →
                  v' = (lb, ub)) as Hall.
    { cbn. intros v' (c' & [= _ ->] & _)%list_elem_of_fmap. done. }
    split.
    + destruct (adjust_model_lc_prefix _ _ _ (S i) _ _ Hrun) as (tr_i & s_i & Hpre).
      exists tr_i, s_i. split; [done|].
      apply adjust_model_Ok in Hpre as (_ & _ & _ & ->).
      rewrite (take_S_r lc_bounds i _ Hi). unfold lc_writes. rewrite flat_map_app. cbn.
      rewrite app_nil_r. rewrite <- (app_nil_r (map _ (compartment_ids s))).
      apply guarded_writes_last; [done..|by intros ?%elem_of_nil].
    + intros Hlater. apply adjust_model_Ok in Hrun as (_ & _ & _ & ->).
      rewrite <- (take_drop_middle lc_bounds i _ Hi). unfold lc_writes.
      rewrite flat_map_app. cbn [flat_map].
      apply guarded_writes_last; [done..|].
      intros ([k v] & Hk & Hkv)%list_elem_of_fmap. cbn in Hk. subst k.
      apply list_elem_of_In, in_flat_map in Hkv as ([[met' lb'] ub'] & Hrow & Hw).
      apply list_elem_of_In in Hrow.
      cbn in Hw. apply list_elem_of_In, list_elem_of_fmap in Hw as (c' & [= Hk _] & Hc').
      by eapply Hlater.
Qed.



Lemma constrain_reaction_absent (s : store num) id lb ub :
  reactions s !! id = None →
  run lib_ (constrain_reaction the_tmodel (id, lb, ub)) s =
  ([ Returned (Σ:=Σ) (reactions_has_id the_tmodel id) false ], Ok tt, s).
Proof.
  intros Hid%has_id_false. by rewrite run_constrain_reaction, Hid.
Qed.

Lemma constrain_variables_absent (s : store num) met lb ub comps :
  (∀ c, c ∈ comps → log_concentration s !! (met +:+ "_" +:+ c) = None) →
  outcome lib_ (for_ comps (constrain_variable the_tmodel met lb ub)) s = Ok tt ∧
  final lib_ (for_ comps (constrain_variable the_tmodel met lb ub)) s = s.
Proof.
  induction comps as [|c comps IH]; intros Hc; [done|].
  cbn [for_]. rewrite outcome_bind, final_bind.
  pose proof (run_constrain_variable s met lb ub c) as Hstep. cbn zeta in Hstep.
  assert (has_id (log_concentration s) (met +:+ "_" +:+ c) = false) as Hid.
  { apply has_id_false, Hc. by left. }
  rewrite Hid in Hstep.
  assert (outcome lib_ (constrain_variable the_tmodel met lb ub c) s = Ok tt)
    as Ho by (unfold outcome; by rewrite Hstep).
  assert (final lib_ (constrain_variable the_tmodel met lb ub c) s = s)
    as Hf by (unfold final; by rewrite Hstep).
  rewrite Ho, Hf. apply IH. intros c' Hc'. apply Hc. by right.
Qed.

Lemma constrain_log_concentration_absent (s : store num) met lb ub :
  (∀ c, c ∈ compartment_ids s →
        log_concentration s !! (met +:+ "_" +:+ c) = None) →
  outcome lib_ (constrain_log_concentration the_tmodel (met, lb, ub)) s = Ok tt ∧
  final lib_ (constrain_log_concentration the_tmodel (met, lb, ub)) s = s.
Proof.
  intros Hc. unfold constrain_log_concentration.
  rewrite outcome_bind, final_bind. cbn.
  by apply constrain_variables_absent.
Qed.

(** C3. A row of [rxn_bounds] whose id is not a reaction of the model, and
    a row of [lc_bounds] that names no log-concentration variable in any
    compartment, only asks whether the id is there: on its own it returns
    and leaves the model as it was, and within a table it can be taken out
    without changing what [adjust_model] returns or raises, nor the model
    it leaves. *)
Theorem adjust_model_skips_absent (s : store num) :
  (∀ id lb ub,
     reactions s !! id = None →
     run lib_ (adjust_model the_tmodel [(id, lb, ub)] []) s =
     ([ Returned (Σ:=Σ) (reactions_has_id the_tmodel id) false ], Ok tt, s)) ∧
  (∀ met lb ub,
     (∀ c, c ∈ compartment_ids s →
           log_concentration s !! (met +:+ "_" +:+ c) = None) →
     outcome lib_ (adjust_model the_tmodel [] [(met, lb, ub)]) s = Ok tt ∧
     final lib_ (adjust_model the_tmodel [] [(met, lb, ub)]) s = s) ∧
  (∀ pre (r : row num) post lc_bounds,
     reactions s !! r.1.1 = None →
     outcome lib_ (adjust_model the_tmodel (pre ++ r :: post) lc_bounds) s
       = outcome lib_ (adjust_model the_tmodel (pre ++ post) lc_bounds) s ∧
     final lib_ (adjust_model the_tmodel (pre ++ r :: post) lc_bounds) s
       = final lib_ (adjust_model the_tmodel (pre ++ post) lc_bounds) s) ∧
  (∀ rxn_bounds pre (r : row num) post,
     (∀ c, c ∈ compartment_ids s →
           log_concentration s !! (r.1.1 +:+ "_" +:+ c) = None) →
     outcome lib_ (adjust_model the_tmodel rxn_bounds (pre ++ r :: post)) s
       = outcome lib_ (adjust_model the_tmodel rxn_bounds (pre ++ post)) s ∧
     final lib_ (adjust_model the_tmodel rxn_bounds (pre ++ r :: post)) s
       = final lib_ (adjust_model the_tmodel rxn_bounds (pre ++ post)) s).
Proof.
  split_and!.
  - intros id lb ub Hid. unfold adjust_model.
    assert (run lib_ (for_ [(id, lb, ub)] (constrain_reaction the_tmodel)) s =
            ([ Returned (Σ:=Σ) (reactions_has_id the_tmodel id) false ], Ok tt, s))
      as Hloop.
    { cbn [for_].
      by rewrite (run_bind_Ok _ _ _ _ _ _ _
                    (constrain_reaction_absent s id lb ub Hid)). }
    by rewrite (run_bind_Ok _ _ _ _ _ _ _ Hloop).
  - intros met lb ub Hc. unfold adjust_model. cbn [for_ bind].
    rewrite outcome_bind, final_bind.
    destruct (constrain_log_concentration_absent s met lb ub Hc) as [-> ->].
    done.
  - intros pre [[id lb] ub] post lc_bounds Hid. cbn in Hid. unfold adjust_model.
    rewrite !outcome_bind, !final_bind.
    destruct (for_skip lib_ (constrain_reaction the_tmodel) pre post (id, lb, ub) s)
      as [-> ->]; [|done].
    intros Hpre.
    pose proof (run_eta lib_ (for_ pre (constrain_reaction the_tmodel)) s) as Hr.
    rewrite Hpre in Hr. apply constrain_reactions_Ok in Hr.
    unfold outcome, final. rewrite constrain_reaction_absent; [done|].
    unfold final in Hr. rewrite Hr. cbn.
    apply has_id_false. rewrite has_id_guarded_writes by done.
    by apply has_id_false.
  - intros rxn_bounds pre [[met lb] ub] post Hc. cbn in Hc. unfold adjust_model.
    rewrite !outcome_bind, !final_bind.
    destruct (outcome lib_ (for_ rxn_bounds _) s) as [[]|e] eqn:Hrxn; [|done].
    pose proof (run_eta lib_ (for_ rxn_bounds (constrain_reaction the_tmodel)) s) as Hr.
    rewrite Hrxn in Hr. apply constrain_reactions_Ok in Hr.
    apply for_skip. intros Hpre.
    pose proof (run_eta lib_ (for_ pre (constrain_log_concentration the_tmodel))
                  (final lib_ (for_ rxn_bounds (constrain_reaction the_tmodel)) s))
      as Hr'.
    rewrite Hpre in Hr'. apply constrain_log_concentrations_Ok in Hr'.
    apply constrain_log_concentration_absent.
    rewrite Hr'. cbn. rewrite Hr. cbn. intros c Hin.
    apply has_id_false. rewrite has_id_guarded_writes by done.
    apply has_id_false. by apply Hc.
Qed.
End AdjustFacts.

(** ** No function of io.py swallows or replaces an exception *)

Section Propagation.
Context `{Host}.

Lemma constrain_reaction_never_raises {obj' num X'} (tmodel : obj')
    (r : row num) e :
  ¬ may_raise (Σ:=model_sig obj' num X') (constrain_reaction tmodel r) e.
Proof.
  destruct r as [[rxn_id lb] ub]. unfold constrain_reaction.
  intros Hr. split_raise.
Qed.

Lemma constrain_log_concentration_never_raises {obj' num X'} (tmodel : obj')
    (r : row num) e :
  ¬ may_raise (Σ:=model_sig obj' num X') (constrain_log_concentration tmodel r) e.
Proof.
  destruct r as [[met lb] ub]. unfold constrain_log_concentration.
  intros Hr. split_raise. unfold constrain_variable in Hr. split_raise.
Qed.

Lemma adjust_model_never_raises {obj' num X'} (tmodel : obj')
    (rxn_bounds lc_bounds : list (row num)) e :
  ¬ may_raise (Σ:=model_sig obj' num X')
      (adjust_model tmodel rxn_bounds lc_bounds) e.
Proof.
  unfold adjust_model. intros Hr. split_raise.
  - by apply constrain_reaction_never_raises in Hr.
  - by apply constrain_log_concentration_never_raises in Hr.
Qed.

Lemma __init___never_raises e : ¬ may_raise __init__ e.
Proof. unfold __init__. intros Hr. split_raise. Qed.

Lemma models_never_raises e : ¬ may_raise models e.
Proof.
  unfold models. intros Hr. split_raise. by apply __init___never_raises in Hr.
Qed.

Lemma __getattr___may_raise (self : _ModelFactory) item e :
  may_raise (__getattr__ self item) e →
  e = AttributeError item ∧ (item ∉ _list self) ∧
  default_lookup self item = None.
Proof.
  unfold __getattr__. case_bool_decide as Hin.
  - intros Hr. split_raise.
    apply create_model_may_raise in Hr as (_ & _ & Hnot). by destruct Hnot.
  - unfold object_getattribute.
    destruct (default_lookup self item); [done|]. by intros <-.
Qed.

Lemma getattr_may_raise (self : _ModelFactory) item e :
  may_raise (getattr self item) e →
  e = AttributeError item ∧ (item ∉ _list self) ∧
  default_lookup self item = None.
Proof.
  unfold getattr. destruct (default_lookup self item) eqn:Hl; [done|].
  intros Hr. by apply __getattr___may_raise in Hr as (-> & ? & _).
Qed.

(** No call of [io.py] is inside a [try] block. *)
Lemma adjust_model_no_except {obj' num X'} (tmodel : obj')
    (rxn_bounds lc_bounds : list (row num)) :
  no_except (Σ:=model_sig obj' num X') (adjust_model tmodel rxn_bounds lc_bounds).
Proof.
  unfold adjust_model. apply no_except_bind; [|intros _];
    apply no_except_for; intros [[id lb] ub].
  - unfold constrain_reaction. show_no_except.
  - unfold constrain_log_concentration. apply no_except_bind; [show_no_except|].
    intros comps. apply no_except_for. intros c.
    unfold constrain_variable. show_no_except.
Qed.

Lemma models_no_except : no_except models.
Proof. unfold models, __init__. show_no_except. Qed.

Lemma getattr_no_except (self : _ModelFactory) item :
  no_except (getattr self item).
Proof.
  unfold getattr, __getattr__, object_getattribute.
  destruct (default_lookup self item); [exact I|].
  case_bool_decide; [|exact I].
  apply no_except_bind; [apply create_model_no_except|]. by intros tmodel.
Qed.

(** C7. No function of [io.py] catches or replaces an exception.  In a
    language where a call inside a [try] block hands the library's
    exception to an [except] clause ([try_except]) and a run goes on from
    there, the functions of [io.py] make all their calls outside such
    blocks; so, whatever the libraries do, a library call that fails is
    the last thing the function does, and the exception that leaves the
    function is the one the library raised, unchanged.  The only
    exceptions that do not come out of a library call are the
    [ValueError] of [create_model], raised when some but not all of the
    three data arguments are [None], and the [AttributeError] of normal
    attribute lookup on the factory for a name it neither lists nor has. *)
Theorem io_passes_on_library_failures
    {W} (h : lib thermo_sig W)
    {obj' num X' W'} (hm : lib (model_sig obj' num X') W') :
  (∀ logger_name, passes_on h (_silence_pytfa logger_name) (λ _, False)) ∧
  (∀ model_name, passes_on h (load_cbm model_name) (λ _, False)) ∧
  (∀ model_name, passes_on h (load_data model_name) (λ _, False)) ∧
  (∀ model_name thermo_data lexicon compartment_data,
     passes_on h (create_model model_name thermo_data lexicon compartment_data)
       (λ e, e = not_all_supplied ∧
             (thermo_data = None ∨ lexicon = None ∨ compartment_data = None) ∧
             ¬ (thermo_data = None ∧ lexicon = None ∧ compartment_data = None))) ∧
  (∀ tmodel rxn_bounds lc_bounds,
     passes_on hm (adjust_model tmodel rxn_bounds lc_bounds) (λ _, False)) ∧
  passes_on h models (λ _, False) ∧
  (∀ self item,
     passes_on h (getattr self item)
       (λ e, e = AttributeError item ∧ (item ∉ _list self) ∧
             default_lookup self item = None)).
Proof.
  split_and!; intros;
    (eapply passes_on_mono; [|apply run_passes_on]); cbn beta;
    try (intros e Hr).
  - by apply _silence_pytfa_never_raises in Hr.
  - apply _silence_pytfa_no_except.
  - by apply load_cbm_never_raises in Hr.
  - apply load_cbm_no_except.
  - by apply load_data_never_raises in Hr.
  - apply load_data_no_except.
  - by apply create_model_may_raise in Hr.
  - apply create_model_no_except.
  - by apply adjust_model_never_raises in Hr.
  - apply adjust_model_no_except.
  - by apply models_never_raises in Hr.
  - apply models_no_except.
  - by apply getattr_may_raise in Hr.
  - apply getattr_no_except.
Qed.
End Propagation.

(** ** The test-data script and its output file *)

Section ScriptFacts.
Context {obj file X W : Type} (h : lib (script_sig obj file X) W).

Local Abbreviation Σ := (script_sig obj file X).

Lemma safe_follows {A} (st : phase file) (p : prog Σ A) w :
  safe st p → follows st (trace h p w).
Proof.
  revert st w.
  induction p as [a|e|c k IH|c k IH except IHx]; intros st w; unfold trace;
    cbn; [done..| |].
  - intros [Hc Hk]. destruct (h c w) as [[r|x] w1]; cbn; [|done].
    specialize (IH r (next st c r) w1 (Hk r)). unfold trace in IH.
    by destruct (run h (k r) w1) as [[tr o] w2].
  - intros (Hc & Hk & Hx). destruct (h c w) as [[r|x] w1]; cbn.
    + specialize (IH r (next st c r) w1 (Hk r)). unfold trace in IH.
      by destruct (run h (k r) w1) as [[tr o] w2].
    + specialize (IHx x st w1 (Hx x)). unfold trace in IHx.
      by destruct (run h (except x) w1) as [[tr o] w2].
Qed.

Lemma generate_test_data_safe :
  safe (Start : phase file) (generate_test_data : prog Σ unit).
Proof.
  unfold generate_test_data. cbn.
  repeat first [ split; [done|] | intros [? ?] | intros ? ]; cbn; done.
Qed.

(** A trace that follows the protocol and holds a [close] that returned
    ends with the file closed. *)
Lemma follows_Closed (tr : list (event Σ)) : follows Closed tr → reached Closed tr = Closed.
Proof.
  induction tr as [|[c r|c x] tr IH]; cbn; [done| |].
  - intros [Hc Htr]. destruct c; cbn in *; first [done | by apply IH].
  - intros [_ Htr]. by apply IH.
Qed.

Lemma follows_close_reached (st : phase file) (tr : list (event Σ)) f :
  follows st tr → Returned (Σ:=Σ) (close f) tt ∈ tr → reached st tr = Closed.
Proof.
  revert st. induction tr as [|ev tr IH]; intros st Htr Hin.
  - by apply elem_of_nil in Hin.
  - apply elem_of_cons in Hin as [<-|Hin].
    + cbn in *. destruct Htr as [_ Htr]. by apply follows_Closed.
    + destruct ev as [c r|c x]; cbn in *; destruct Htr as [_ Htr]; by apply IH.
Qed.

(** Steps through a run of the script, call by call. *)
Ltac run_script Hrun :=
  unfold generate_test_data in Hrun; cbn in Hrun;
  repeat match type of Hrun with
  | context [h ?c ?w0] =>
      destruct (h c w0) as [[?|?] ?]; cbn in Hrun
  | context [match ?r with (_, _) => _ end] =>
      is_var r; destruct r as [? ?]; cbn in Hrun
  end.

(** C8. The script makes its calls one after the other, and in every run,
    also one that a failing call cuts short, the calls on files follow one
    protocol: a single [open], of ["test_data.obj"] for writing bytes;
    then a single [pickle.dump], into the file object that [open]
    returned; then [close] of that object; and no call on a file after
    that.  A run that reaches the end of the script is the one sequence
    of calls below: [open] right after [pd.set_option], the six frames
    read and limited to one model and one experiment, the eleven calls of
    the script generator, then the dump of the twenty objects collected
    from them, in the order of the source, and [close] of the file as the
    last call.  A run that a failing call cuts short does not close the
    file. *)
Theorem generate_test_data_file_handle w :
  follows Start (trace h generate_test_data w) ∧
  (∀ tr w',
     run h generate_test_data w = (tr, Ok tt, w') →
     ∃ filehandler raw_atomMappingReactions raw_modelReaction
       raw_atomMappingMetabolite raw_measuredFluxes raw_experimentalMS
       raw_tracer atomMappingReactions_data modelReaction_data
       atomMappingMetabolite_data model_measuredFluxes measuredFluxes_data
       experimentalMS_data tracer initiated_MATLAB_script model_reactions
       model_rxn_ids initialized_model symmetrical_metabolites_script
       unbalanced_reactions_script reaction_parameters
       verify_and_estimate_script experimental_parameters fragments_used
       mapping_script script runner,
       tr =
         [ Returned (Σ:=Σ) (pd_set_option "mode.chained_assignment" None) tt;
           Returned (Σ:=Σ) (open_ "test_data.obj" "wb") filehandler;
           Returned (Σ:=Σ)
             (pd_read_csv "data_stage02_isotopomer_atomMappingReactions2.csv")
             raw_atomMappingReactions;
           Returned (Σ:=Σ)
             (pd_read_csv "data_stage02_isotopomer_modelReactions.csv")
             raw_modelReaction;
           Returned (Σ:=Σ)
             (pd_read_csv "data_stage02_isotopomer_atomMappingMetabolites.csv")
             raw_atomMappingMetabolite;
           Returned (Σ:=Σ)
             (pd_read_csv "data_stage02_isotopomer_measuredFluxes.csv")
             raw_measuredFluxes;
           Returned (Σ:=Σ) (pd_read_csv "data-1604345289079.csv")
             raw_experimentalMS;
           Returned (Σ:=Σ) (pd_read_csv "data_stage02_isotopomer_tracers.csv")
             raw_tracer;
           Returned (Σ:=Σ)
             (limit_to_one_model raw_atomMappingReactions
                "mapping_id" "ecoli_RL2013_02")
             atomMappingReactions_data;
           Returned (Σ:=Σ)
             (limit_to_one_model raw_modelReaction "model_id" "ecoli_RL2013_02")
             modelReaction_data;
           Returned (Σ:=Σ)
             (limit_to_one_model raw_atomMappingMetabolite
                "mapping_id" "ecoli_RL2013_02")
             atomMappingMetabolite_data;
           Returned (Σ:=Σ)
             (limit_to_one_model raw_measuredFluxes "model_id" "ecoli_RL2013_02")
             model_measuredFluxes;
           Returned (Σ:=Σ)
             (limit_to_one_experiment model_measuredFluxes
                "experiment_id" "WTEColi_113C80_U13C20_01")
             measuredFluxes_data;
           Returned (Σ:=Σ)
             (limit_to_one_experiment raw_experimentalMS
                "experiment_id" "WTEColi_113C80_U13C20_01")
             experimentalMS_data;
           Returned (Σ:=Σ)
             (limit_to_one_experiment raw_tracer
                "experiment_id" "WTEColi_113C80_U13C20_01")
             tracer ] ++
         [ Returned (Σ:=Σ) initiate_MATLAB_script initiated_MATLAB_script;
           Returned (Σ:=Σ)
             (add_reactions_to_script
                modelReaction_data atomMappingReactions_data biomass_function)
             (model_reactions, model_rxn_ids);
           Returned (Σ:=Σ) initialize_model initialized_model;
           Returned (Σ:=Σ) (symmetrical_metabolites atomMappingMetabolite_data)
             symmetrical_metabolites_script;
           Returned (Σ:=Σ) (unbalanced_reactions atomMappingMetabolite_data)
             unbalanced_reactions_script;
           Returned (Σ:=Σ)
             (add_reaction_parameters
                modelReaction_data measuredFluxes_data model_rxn_ids true)
             reaction_parameters;
           Returned (Σ:=Σ) verify_and_estimate verify_and_estimate_script;
           Returned (Σ:=Σ)
             (add_experimental_parameters
                experimentalMS_data tracer measuredFluxes_data
                atomMappingMetabolite_data)
             (experimental_parameters, fragments_used);
           Returned (Σ:=Σ) (mapping experimentalMS_data fragments_used)
             mapping_script;
           Returned (Σ:=Σ)
             (script_generator
                modelReaction_data atomMappingReactions_data biomass_function
                atomMappingMetabolite_data measuredFluxes_data
                experimentalMS_data tracer)
             script;
           Returned (Σ:=Σ) (runner_script_generator "TestFile" 10) runner;
           Returned (Σ:=Σ)
             (pickle_dump
                [ PObj modelReaction_data; PObj atomMappingReactions_data;
                  PStr biomass_function; PObj atomMappingMetabolite_data;
                  PObj measuredFluxes_data; PObj experimentalMS_data;
                  PObj tracer; PObj initiated_MATLAB_script;
                  PObj model_reactions; PObj model_rxn_ids;
                  PObj initialized_model; PObj symmetrical_metabolites_script;
                  PObj unbalanced_reactions_script; PObj reaction_parameters;
                  PObj verify_and_estimate_script; PObj experimental_parameters;
                  PObj fragments_used; PObj mapping_script; PObj script;
                  PObj runner ]
                filehandler) tt;
           Returned (Σ:=Σ) (close filehandler) tt ]) ∧
  (∀ tr e w',
     run h generate_test_data w = (tr, Err e, w') →
     ∀ f, Returned (Σ:=Σ) (close f) tt ∉ tr).
Proof.
  pose proof (safe_follows Start generate_test_data w generate_test_data_safe)
    as Hfollows.
  split_and!; [exact Hfollows| |].
  - intros tr w' Hrun. run_script Hrun; try discriminate Hrun.
    injection Hrun as <- _.
    repeat match goal with
    | x : resp _ ?c |- _ =>
        lazymatch eval cbn in (script_resp c) with unit => destruct x end
    end.
    repeat eexists.
  - intros tr e w' Hrun f Hin.
    assert (reached Start tr = Closed) as Hclosed.
    { apply (follows_close_reached _ _ f); [|done].
      unfold trace in Hfollows. by rewrite Hrun in Hfollows. }
    clear Hin Hfollows. run_script Hrun; try discriminate Hrun.
    all: injection Hrun as <- _ _; cbn in Hclosed; discriminate Hclosed.
Qed.
End ScriptFacts.

(** ** More on [adjust_model] over the reference store *)

Section MoreWrites.
Context {num : Type}.
Implicit Types (d : gmap string (num * num)) (ws : list (string * (num * num))).

Lemma guarded_writes_lookup g d ws id :
  guarded_writes g d ws !! id =
  match last_write id ws with
  | Some v => if g id then Some v else d !! id
  | None => d !! id
  end.
Proof.
  revert d. induction ws as [|[k v] ws IH]; intros d; cbn; [done|].
  rewrite IH. destruct (last_write id ws) as [v'|].
  - destruct (g id) eqn:Hg; [done|].
    destruct (g k) eqn:Hk; [|done].
    rewrite lookup_insert_ne; [done|]. intros ->. congruence.
  - case_bool_decide as Hkid.
    + subst k. destruct (g id); [by rewrite lookup_insert_eq|done].
    + destruct (g k); [by rewrite lookup_insert_ne|done].
Qed.

Lemma guarded_writes_idem g d ws :
  guarded_writes g (guarded_writes g d ws) ws = guarded_writes g d ws.
Proof.
  apply map_eq. intros id. rewrite !guarded_writes_lookup.
  destruct (last_write id ws); [|done]. by destruct (g id).
Qed.

Lemma has_id_guarded_writes_in g d ws id :
  Forall (λ kv, g kv.1 = true → has_id d kv.1 = true) ws →
  has_id (guarded_writes g d ws) id = has_id d id.
Proof.
  revert d. induction ws as [|[k v] ws IH]; intros d Hws; cbn; [done|].
  apply Forall_cons in Hws as [Hk Hws]. cbn in Hk.
  destruct (g k) eqn:Hgk; [|by apply IH].
  rewrite IH.
  - apply has_id_insert. by apply Hk.
  - eapply Forall_impl; [exact Hws|]. intros [k' v'] Hk' Hg. cbn in *.
    rewrite has_id_insert; by auto.
Qed.
End MoreWrites.

Section MoreAdjust.
Context {num : Type} (bounds_ok : num → num → bool).

Local Abbreviation Σ := (model_sig handle num (cobra_exn num)).
Local Abbreviation lib_ := (cobra bounds_ok).
Local Abbreviation rxn_loop rows := (for_ rows (constrain_reaction (X:=cobra_exn num) the_tmodel)).
Local Abbreviation lc_loop rows :=
  (for_ rows (constrain_log_concentration (X:=cobra_exn num) the_tmodel)).

Lemma outcome_constrain_reaction (s : store num) id lb ub :
  outcome lib_ (constrain_reaction the_tmodel (id, lb, ub)) s =
  if has_id (reactions s) id then
    if has_id (parent_reactions s) id then
      if bounds_ok lb ub then Ok tt
      else Err (LibraryError (Σ:=Σ) (BoundsRejected lb ub))
    else Err (LibraryError (Σ:=Σ) (KeyError id))
  else Ok tt.
Proof.
  unfold outcome. rewrite run_constrain_reaction.
  by repeat match goal with |- context [if ?b then _ else _] => destruct b end.
Qed.

Lemma final_constrain_reaction (s : store num) id lb ub :
  final lib_ (constrain_reaction the_tmodel (id, lb, ub)) s =
  if has_id (reactions s) id && has_id (parent_reactions s) id && bounds_ok lb ub
  then Store (<[id:=(lb, ub)]> (reactions s)) (<[id:=(lb, ub)]> (parent_reactions s))
         (compartment_ids s) (log_concentration s)
  else s.
Proof.
  unfold final. rewrite run_constrain_reaction.
  by destruct (has_id (reactions s) id), (has_id (parent_reactions s) id),
       (bounds_ok lb ub).
Qed.

Lemma outcome_constrain_variable (s : store num) met lb ub c :
  outcome lib_ (constrain_variable the_tmodel met lb ub c) s =
  if has_id (log_concentration s) (met +:+ "_" +:+ c) then
    if bounds_ok lb ub then Ok tt
    else Err (LibraryError (Σ:=Σ) (BoundsRejected lb ub))
  else Ok tt.
Proof.
  unfold outcome. rewrite run_constrain_variable.
  by repeat match goal with |- context [if ?b then _ else _] => destruct b end.
Qed.

Lemma final_constrain_variable (s : store num) met lb ub c :
  final lib_ (constrain_variable the_tmodel met lb ub c) s =
  if has_id (log_concentration s) (met +:+ "_" +:+ c) && bounds_ok lb ub
  then set_log_concentration s
         (<[met +:+ "_" +:+ c:=(lb, ub)]> (log_concentration s))
  else s.
Proof.
  unfold final. rewrite run_constrain_variable.
  by destruct (has_id (log_concentration s) _), (bounds_ok lb ub).
Qed.

Lemma rxn_row_ok_ext (s1 s2 : store num) r :
  (∀ k, has_id (reactions s1) k = has_id (reactions s2) k) →
  (∀ k, has_id (parent_reactions s1) k = has_id (parent_reactions s2) k) →
  rxn_row_ok bounds_ok s1 r ↔ rxn_row_ok bounds_ok s2 r.
Proof.
  intros Hr Hp. unfold rxn_row_ok.
  by rewrite <- !has_id_true, Hr, Hp.
Qed.

Lemma lc_row_ok_ext (s1 s2 : store num) r :
  compartment_ids s1 = compartment_ids s2 →
  (∀ k, has_id (log_concentration s1) k = has_id (log_concentration s2) k) →
  lc_row_ok bounds_ok s1 r ↔ lc_row_ok bounds_ok s2 r.
Proof.
  intros Hc Hl. unfold lc_row_ok. rewrite Hc.
  by setoid_rewrite <- has_id_true; setoid_rewrite Hl.
Qed.

(** The first loop goes through exactly when every row is acceptable. *)
Lemma constrain_reactions_outcome (s : store num) rows :
  outcome lib_ (rxn_loop rows) s = Ok tt ↔ Forall (rxn_row_ok bounds_ok s) rows.
Proof.
  revert s. induction rows as [|[[id lb] ub] rows IH]; intros s.
  - split; [constructor|done].
  - cbn [for_]. rewrite outcome_bind, outcome_constrain_reaction,
      final_constrain_reaction, Forall_cons.
    unfold rxn_row_ok at 1. cbn. rewrite <- !has_id_true.
    destruct (has_id (reactions s) id) eqn:Hr; cbn.
    + destruct (has_id (parent_reactions s) id) eqn:Hp; cbn.
      * destruct (bounds_ok lb ub) eqn:Hb; cbn.
        -- rewrite IH.
           assert (∀ r, rxn_row_ok bounds_ok
                          (Store (<[id:=(lb, ub)]> (reactions s))
                             (<[id:=(lb, ub)]> (parent_reactions s))
                             (compartment_ids s) (log_concentration s)) r
                        ↔ rxn_row_ok bounds_ok s r) as Hext.
           { intros r. apply rxn_row_ok_ext; intros k; by apply has_id_insert. }
           rewrite (Forall_iff _ _ _ Hext). intuition congruence.
        -- split; [done|]. intros [Hok _]. by destruct Hok.
      * split; [done|]. intros [Hok _]. by destruct Hok.
    + rewrite IH. intuition congruence.
Qed.

Lemma constrain_variables_outcome (s : store num) met lb ub comps :
  outcome lib_ (for_ comps (constrain_variable the_tmodel met lb ub)) s = Ok tt ↔
  ∀ c, c ∈ comps → is_Some (log_concentration s !! (met +:+ "_" +:+ c)) →
       bounds_ok lb ub = true.
Proof.
  revert s. induction comps as [|c comps IH]; intros s.
  - split; [by intros _ c ?%elem_of_nil|done].
  - cbn [for_]. rewrite outcome_bind, outcome_constrain_variable,
      final_constrain_variable.
    setoid_rewrite elem_of_cons. setoid_rewrite <- has_id_true.
    destruct (has_id (log_concentration s) (met +:+ "_" +:+ c)) eqn:Hid; cbn.
    + destruct (bounds_ok lb ub) eqn:Hb; cbn.
      * rewrite IH. split; auto.
      * split; [done|]. intros Hall.
        by specialize (Hall c (or_introl eq_refl) Hid).
    + rewrite IH. setoid_rewrite <- has_id_true. split.
      * intros Hall c' [->|Hc'] Hid'; [congruence|eauto].
      * intros Hall c' Hc' Hid'. eauto.
Qed.

Lemma outcome_constrain_log_concentration (s : store num) met lb ub :
  outcome lib_ (constrain_log_concentration the_tmodel (met, lb, ub)) s =
  outcome lib_ (for_ (compartment_ids s) (constrain_variable the_tmodel met lb ub)) s.
Proof. unfold constrain_log_concentration. by rewrite outcome_bind. Qed.

Lemma final_constrain_log_concentration (s : store num) met lb ub :
  final lib_ (constrain_log_concentration the_tmodel (met, lb, ub)) s =
  final lib_ (for_ (compartment_ids s) (constrain_variable the_tmodel met lb ub)) s.
Proof. unfold constrain_log_concentration. by rewrite final_bind. Qed.

(** The state a loop leaves when it went through. *)
Lemma final_Ok {A} (p : prog Σ A) (s : store num) a :
  outcome lib_ p s = Ok a → run lib_ p s = (trace lib_ p s, Ok a, final lib_ p s).
Proof. intros Ho. by rewrite run_eta, Ho. Qed.

Lemma constrain_log_concentrations_outcome (s : store num) rows :
  outcome lib_ (lc_loop rows) s = Ok tt ↔ Forall (lc_row_ok bounds_ok s) rows.
Proof.
  revert s. induction rows as [|[[met lb] ub] rows IH]; intros s.
  - split; [constructor|done].
  - cbn [for_]. rewrite outcome_bind, outcome_constrain_log_concentration,
      final_constrain_log_concentration, Forall_cons.
    destruct (outcome lib_ (for_ (compartment_ids s) _) s) as [[]|e] eqn:Ho.
    + pose proof (proj1 (constrain_variables_outcome s met lb ub _) Ho) as Hrow.
      apply final_Ok, constrain_variables_Ok in Ho. rewrite Ho, IH.
      assert (∀ r, lc_row_ok bounds_ok
                     (set_log_concentration s
                        (guarded_writes (has_id (log_concentration s))
                           (log_concentration s)
                           (lc_row_writes (compartment_ids s) (met, lb, ub)))) r
                   ↔ lc_row_ok bounds_ok s r) as Hext.
      { intros r. apply lc_row_ok_ext; [done|].
        intros k. cbn. by apply has_id_guarded_writes. }
      rewrite (Forall_iff _ _ _ Hext). split; [|by intros [_ ?]].
      intros Hrows. split; [|done]. exact Hrow.
    + split; [done|]. intros [Hrow _].
      apply (constrain_variables_outcome s met lb ub) in Hrow. congruence.
Qed.

Lemma has_id_dom (d1 d2 : gmap string (num * num)) :
  (∀ k, has_id d1 k = has_id d2 k) ↔ dom d1 = dom d2.
Proof.
  split.
  - intros Hk. apply set_eq. intros k.
    by rewrite !elem_of_dom, <- !has_id_true, Hk.
  - intros Hd k. unfold has_id. apply bool_decide_ext.
    by rewrite <- !elem_of_dom, Hd.
Qed.

(** Whether [adjust_model] goes through is settled by its two loops, each
    judged on the store the call starts from: the loop over [rxn_bounds]
    writes no log-concentration variable and changes no set of ids. *)
Lemma adjust_model_outcome_loops (s : store num) rxn_bounds lc_bounds :
  outcome lib_ (adjust_model the_tmodel rxn_bounds lc_bounds) s = Ok tt ↔
  outcome lib_ (rxn_loop rxn_bounds) s = Ok tt ∧
  outcome lib_ (lc_loop lc_bounds) s = Ok tt.
Proof.
  unfold adjust_model. rewrite outcome_bind.
  destruct (outcome lib_ (rxn_loop rxn_bounds) s) as [[]|e] eqn:Ho.
  - apply final_Ok, constrain_reactions_Ok in Ho. rewrite Ho.
    rewrite !constrain_log_concentrations_outcome.
    assert (∀ r, lc_row_ok bounds_ok
                   (Store
                      (guarded_writes (has_id (reactions s)) (reactions s)
                         (rxn_writes rxn_bounds))
                      (guarded_writes (has_id (reactions s)) (parent_reactions s)
                         (rxn_writes rxn_bounds))
                      (compartment_ids s) (log_concentration s)) r
                 ↔ lc_row_ok bounds_ok s r) as Hext.
    { intros r. by apply lc_row_ok_ext. }
    rewrite (Forall_iff _ _ _ Hext). split; [done|by intros [_ ?]].
  - split; [done|]. by intros [? _].
Qed.

(** X1. On the reference store [adjust_model] goes through exactly when
    every row of [rxn_bounds] whose id is a reaction of the model has that
    reaction in the parent too and bounds the library accepts, and every
    row of [lc_bounds] that names a log-concentration variable in some
    compartment has bounds the library accepts. *)
Theorem adjust_model_goes_through (s : store num) rxn_bounds lc_bounds :
  outcome lib_ (adjust_model the_tmodel rxn_bounds lc_bounds) s = Ok tt ↔
  Forall (rxn_row_ok bounds_ok s) rxn_bounds ∧
  Forall (lc_row_ok bounds_ok s) lc_bounds.
Proof.
  rewrite adjust_model_outcome_loops, constrain_reactions_outcome,
    constrain_log_concentrations_outcome.
  done.
Qed.

Lemma rxn_writes_parent_present (s : store num) rows :
  Forall (rxn_row_ok bounds_ok s) rows →
  Forall (λ kv, has_id (reactions s) kv.1 = true →
                has_id (parent_reactions s) kv.1 = true) (rxn_writes rows).
Proof.
  unfold rxn_writes. rewrite Forall_fmap. intros Hrows.
  eapply Forall_impl; [exact Hrows|].
  intros [[id lb] ub] Hok Hid. cbn in *.
  apply has_id_true. apply Hok. by apply has_id_true.
Qed.

(** A first loop that went through has kept the ids of both models. *)
Lemma constrain_reactions_Ok_ids (s : store num) rows tr s1 :
  run lib_ (rxn_loop rows) s = (tr, Ok tt, s1) →
  (∀ k, has_id (reactions s1) k = has_id (reactions s) k) ∧
  (∀ k, has_id (parent_reactions s1) k = has_id (parent_reactions s) k).
Proof.
  intros Hrun.
  assert (Forall (rxn_row_ok bounds_ok s) rows) as Hok.
  { apply constrain_reactions_outcome. unfold outcome. by rewrite Hrun. }
  apply constrain_reactions_Ok in Hrun as ->. cbn. split; intros k.
  - by apply has_id_guarded_writes.
  - by apply has_id_guarded_writes_in, rxn_writes_parent_present.
Qed.

Lemma adjust_model_rxn_only (s : store num) rows tr s1 :
  run lib_ (adjust_model the_tmodel rows []) s = (tr, Ok tt, s1) →
  run lib_ (rxn_loop rows) s = (tr, Ok tt, s1).
Proof.
  unfold adjust_model. intros Hrun.
  apply run_bind_inv in Hrun as (tr1 & [] & s2 & tr2 & Hrxn & Hlc & ->).
  injection Hlc as <- <-. by rewrite app_nil_r.
Qed.

(** The run of [adjust_model] on a table whose row [r] comes after the
    rows [pre], when those went through and left the model [s1]. *)
Lemma adjust_model_at_row (s : store num) pre r post lc_bounds tr s1 :
  run lib_ (adjust_model the_tmodel pre []) s = (tr, Ok tt, s1) →
  outcome lib_ (adjust_model the_tmodel (pre ++ r :: post) lc_bounds) s =
  match outcome lib_ (constrain_reaction the_tmodel r) s1 with
  | Ok _ =>
      outcome lib_ (adjust_model the_tmodel post lc_bounds)
        (final lib_ (constrain_reaction the_tmodel r) s1)
  | Err e => Err e
  end ∧
  final lib_ (adjust_model the_tmodel (pre ++ r :: post) lc_bounds) s =
  match outcome lib_ (constrain_reaction the_tmodel r) s1 with
  | Ok _ =>
      final lib_ (adjust_model the_tmodel post lc_bounds)
        (final lib_ (constrain_reaction the_tmodel r) s1)
  | Err e => final lib_ (constrain_reaction the_tmodel r) s1
  end.
Proof.
  intros Hpre%adjust_model_rxn_only. unfold adjust_model.
  assert (outcome lib_ (rxn_loop pre) s = Ok tt) as Ho
    by (unfold outcome; by rewrite Hpre).
  assert (final lib_ (rxn_loop pre) s = s1) as Hf
    by (unfold final; by rewrite Hpre).
  rewrite !outcome_bind, !final_bind, outcome_for_app, final_for_app, Ho, Hf.
  cbn [for_]. rewrite !outcome_bind, !final_bind.
  by destruct (outcome lib_ (constrain_reaction the_tmodel r) s1) as [[]|e].
Qed.

(** X2. When the library rejects the bounds of a row whose id is a
    reaction of the model, [adjust_model] raises the library's exception
    and leaves the model as the rows before had made it: those rows stay
    applied, the rows after it and the whole of [lc_bounds] are not looked
    at. *)
Theorem adjust_model_stops_at_rejected_bounds
    (s : store num) pre id lb ub post lc_bounds tr s1 :
  run lib_ (adjust_model the_tmodel pre []) s = (tr, Ok tt, s1) →
  is_Some (reactions s !! id) → is_Some (parent_reactions s !! id) →
  bounds_ok lb ub = false →
  outcome lib_ (adjust_model the_tmodel (pre ++ (id, lb, ub) :: post) lc_bounds) s
    = Err (LibraryError (Σ:=Σ) (BoundsRejected lb ub)) ∧
  final lib_ (adjust_model the_tmodel (pre ++ (id, lb, ub) :: post) lc_bounds) s
    = s1.
Proof.
  intros Hpre Hid%has_id_true Hpid%has_id_true Hb.
  destruct (adjust_model_at_row s pre (id, lb, ub) post lc_bounds tr s1 Hpre)
    as [Ho Hf].
  apply adjust_model_rxn_only, constrain_reactions_Ok_ids in Hpre as [Hr Hp].
  rewrite outcome_constrain_reaction, final_constrain_reaction in Ho, Hf.
  rewrite Hr, Hp, Hid, Hpid, Hb in Ho, Hf. split; [exact Ho|exact Hf].
Qed.

(** X3. When the id of a row is a reaction of the model but not of its
    parent, [adjust_model] raises the [KeyError] of the parent's
    [get_by_id] and leaves the model as the rows before had made it; the
    model's own reaction is not written. *)
Theorem adjust_model_stops_at_missing_parent
    (s : store num) pre id lb ub post lc_bounds tr s1 :
  run lib_ (adjust_model the_tmodel pre []) s = (tr, Ok tt, s1) →
  is_Some (reactions s !! id) → parent_reactions s !! id = None →
  outcome lib_ (adjust_model the_tmodel (pre ++ (id, lb, ub) :: post) lc_bounds) s
    = Err (LibraryError (Σ:=Σ) (KeyError id)) ∧
  final lib_ (adjust_model the_tmodel (pre ++ (id, lb, ub) :: post) lc_bounds) s
    = s1.
Proof.
  intros Hpre Hid%has_id_true Hpid%has_id_false.
  destruct (adjust_model_at_row s pre (id, lb, ub) post lc_bounds tr s1 Hpre)
    as [Ho Hf].
  apply adjust_model_rxn_only, constrain_reactions_Ok_ids in Hpre as [Hr Hp].
  rewrite outcome_constrain_reaction, final_constrain_reaction in Ho, Hf.
  rewrite Hr, Hp, Hid, Hpid in Ho, Hf. split; [exact Ho|exact Hf].
Qed.

(** X4. Running [adjust_model] again with the same tables on the model it
    has left goes through and changes nothing. *)
Theorem adjust_model_idempotent (s : store num) rxn_bounds lc_bounds tr s' :
  run lib_ (adjust_model the_tmodel rxn_bounds lc_bounds) s = (tr, Ok tt, s') →
  outcome lib_ (adjust_model the_tmodel rxn_bounds lc_bounds) s' = Ok tt ∧
  final lib_ (adjust_model the_tmodel rxn_bounds lc_bounds) s' = s'.
Proof.
  intros Hrun.
  assert (outcome lib_ (adjust_model the_tmodel rxn_bounds lc_bounds) s = Ok tt)
    as Ho by (unfold outcome; by rewrite Hrun).
  apply adjust_model_outcome_loops in Ho as [Hrxn Hlc].
  apply constrain_reactions_outcome in Hrxn.
  apply constrain_log_concentrations_outcome in Hlc.
  pose proof (adjust_model_Ok bounds_ok _ _ _ _ _ Hrun) as (Hr & Hp & Hc & Hl).
  assert (∀ k, has_id (reactions s') k = has_id (reactions s) k) as Hrk.
  { intros k. rewrite Hr. by apply has_id_guarded_writes. }
  assert (∀ k, has_id (parent_reactions s') k = has_id (parent_reactions s) k)
    as Hpk.
  { intros k. rewrite Hp.
    by apply has_id_guarded_writes_in, rxn_writes_parent_present. }
  assert (∀ k, has_id (log_concentration s') k = has_id (log_concentration s) k)
    as Hlk.
  { intros k. rewrite Hl. by apply has_id_guarded_writes. }
  assert (outcome lib_ (adjust_model the_tmodel rxn_bounds lc_bounds) s' = Ok tt)
    as Ho'.
  { apply adjust_model_outcome_loops. split.
    - apply constrain_reactions_outcome.
      eapply Forall_impl; [exact Hrxn|]. intros r. by apply rxn_row_ok_ext.
    - apply constrain_log_concentrations_outcome.
      eapply Forall_impl; [exact Hlc|]. intros r. by apply lc_row_ok_ext. }
  split; [done|].
  apply final_Ok, adjust_model_Ok in Ho' as (Hr' & Hp' & Hc' & Hl').
  destruct s' as [r' p' c' l'], (final lib_ _ _) as [r2 p2 c2 l2]. cbn in *.
  subst c2. f_equal.
  - rewrite Hr', (guarded_writes_ext _ (has_id (reactions s))) by done.
    rewrite Hr. apply guarded_writes_idem.
  - rewrite Hp', (guarded_writes_ext _ (has_id (reactions s))) by done.
    rewrite Hp. apply guarded_writes_idem.
  - rewrite Hl', Hc, (guarded_writes_ext _ (has_id (log_concentration s))) by done.
    rewrite Hl. apply guarded_writes_idem.
Qed.

(** *** Runs that raise *)

(** Whatever its outcome, the first loop has applied an initial part of
    its writes, and every write it applied found the id in the parent. *)
Lemma constrain_reactions_any (s : store num) rows :
  ∃ ws,
    ws `prefix_of` rxn_writes rows ∧
    Forall (λ kv, has_id (reactions s) kv.1 = true →
                  has_id (parent_reactions s) kv.1 = true) ws ∧
    final lib_ (rxn_loop rows) s =
    Store (guarded_writes (has_id (reactions s)) (reactions s) ws)
      (guarded_writes (has_id (reactions s)) (parent_reactions s) ws)
      (compartment_ids s) (log_concentration s).
Proof.
  revert s. induction rows as [|[[id lb] ub] rows IH]; intros s.
  - exists []. split_and!; [done|constructor|]. cbn. by rewrite store_eta.
  - cbn [for_]. rewrite final_bind, outcome_constrain_reaction,
      final_constrain_reaction.
    destruct (has_id (reactions s) id) eqn:Hr; cbn.
    + destruct (has_id (parent_reactions s) id) eqn:Hp; cbn.
      * destruct (bounds_ok lb ub) eqn:Hb; cbn.
        -- destruct (IH (Store (<[id:=(lb, ub)]> (reactions s))
                           (<[id:=(lb, ub)]> (parent_reactions s))
                           (compartment_ids s) (log_concentration s)))
             as (ws & Hpre & Hall & ->). cbn in *.
           exists ((id, (lb, ub)) :: ws). split_and!.
           ++ by apply prefix_cons.
           ++ constructor; [done|].
              eapply Forall_impl; [exact Hall|]. intros [k v] Hk Hg. cbn in *.
              rewrite !has_id_insert in Hk by done. auto.
           ++ cbn. rewrite Hr.
              by rewrite !(guarded_writes_ext
                             (has_id (<[id:=(lb, ub)]> (reactions s)))
                             (has_id (reactions s)))
                by (intros k; by apply has_id_insert).
        -- exists []. split_and!; [apply prefix_nil|constructor|].
           cbn. by rewrite store_eta.
      * exists []. split_and!; [apply prefix_nil|constructor|].
        cbn. by rewrite store_eta.
    + destruct (IH s) as (ws & Hpre & Hall & ->).
      exists ((id, (lb, ub)) :: ws). split_and!.
      * by apply prefix_cons.
      * constructor; [|done]. cbn. congruence.
      * cbn. by rewrite Hr.
Qed.

Lemma constrain_variables_any (s : store num) met lb ub comps :
  ∃ ws,
    ws `prefix_of` lc_row_writes comps (met, lb, ub) ∧
    final lib_ (for_ comps (constrain_variable the_tmodel met lb ub)) s =
    set_log_concentration s
      (guarded_writes (has_id (log_concentration s)) (log_concentration s) ws).
Proof.
  revert s. induction comps as [|c comps IH]; intros s.
  - exists []. split; [done|]. by destruct s.
  - cbn [for_]. rewrite final_bind, outcome_constrain_variable,
      final_constrain_variable.
    destruct (has_id (log_concentration s) (met +:+ "_" +:+ c)) eqn:Hid; cbn.
    + destruct (bounds_ok lb ub) eqn:Hb; cbn.
      * destruct (IH (set_log_concentration s
                        (<[met +:+ "_" +:+ c:=(lb, ub)]> (log_concentration s))))
          as (ws & Hpre & ->).
        exists ((met +:+ "_" +:+ c, (lb, ub)) :: ws). split.
        -- by apply prefix_cons.
        -- unfold set_log_concentration. cbn. rewrite Hid. f_equal.
           apply guarded_writes_ext. intros k. by apply has_id_insert.
      * exists []. split; [apply prefix_nil|]. by destruct s.
    + destruct (IH s) as (ws & Hpre & ->).
      exists ((met +:+ "_" +:+ c, (lb, ub)) :: ws). split.
      * by apply prefix_cons.
      * cbn. by rewrite Hid.
Qed.

Lemma constrain_log_concentrations_any (s : store num) rows :
  ∃ ws,
    ws `prefix_of` lc_writes (compartment_ids s) rows ∧
    final lib_ (lc_loop rows) s =
    set_log_concentration s
      (guarded_writes (has_id (log_concentration s)) (log_concentration s) ws).
Proof.
  revert s. induction rows as [|[[met lb] ub] rows IH]; intros s.
  - exists []. split; [done|]. by destruct s.
  - cbn [for_]. rewrite final_bind, outcome_constrain_log_concentration,
      final_constrain_log_concentration.
    unfold lc_writes. cbn [flat_map].
    destruct (outcome lib_ (for_ (compartment_ids s) _) s) as [[]|e] eqn:Ho.
    + apply final_Ok, constrain_variables_Ok in Ho. rewrite Ho.
      destruct (IH (set_log_concentration s
                      (guarded_writes (has_id (log_concentration s))
                         (log_concentration s)
                         (lc_row_writes (compartment_ids s) (met, lb, ub)))))
        as (ws & Hpre & ->). cbn in Hpre.
      exists (lc_row_writes (compartment_ids s) (met, lb, ub) ++ ws). split.
      * by apply prefix_app.
      * unfold set_log_concentration. cbn. f_equal.
        rewrite guarded_writes_app. apply guarded_writes_ext.
        intros k. by apply has_id_guarded_writes.
    + destruct (constrain_variables_any s met lb ub (compartment_ids s))
        as (ws & Hpre & ->).
      exists ws. split; [|done]. by apply prefix_app_r.
Qed.

Lemma adjust_model_any (s : store num) rxn_bounds lc_bounds :
  ∃ ws1 ws2,
    ws1 `prefix_of` rxn_writes rxn_bounds ∧
    ws2 `prefix_of` lc_writes (compartment_ids s) lc_bounds ∧
    Forall (λ kv, has_id (reactions s) kv.1 = true →
                  has_id (parent_reactions s) kv.1 = true) ws1 ∧
    final lib_ (adjust_model the_tmodel rxn_bounds lc_bounds) s =
    Store (guarded_writes (has_id (reactions s)) (reactions s) ws1)
      (guarded_writes (has_id (reactions s)) (parent_reactions s) ws1)
      (compartment_ids s)
      (guarded_writes (has_id (log_concentration s)) (log_concentration s) ws2).
Proof.
  unfold adjust_model. rewrite final_bind.
  destruct (constrain_reactions_any s rxn_bounds) as (ws1 & Hpre1 & Hall & Hf).
  destruct (outcome lib_ (rxn_loop rxn_bounds) s) as [[]|e].
  - rewrite Hf.
    destruct (constrain_log_concentrations_any
                (Store (guarded_writes (has_id (reactions s)) (reactions s) ws1)
                   (guarded_writes (has_id (reactions s)) (parent_reactions s) ws1)
                   (compartment_ids s) (log_concentration s)) lc_bounds)
      as (ws2 & Hpre2 & ->).
    by exists ws1, ws2.
  - rewrite Hf. exists ws1, []. split_and!; [done|apply prefix_nil|done|done].
Qed.

Lemma prefix_of_keys (ws1 ws2 : list (string * (num * num))) k :
  ws1 `prefix_of` ws2 → k ∉ ws2.*1 → k ∉ ws1.*1.
Proof.
  intros [ws ->]. rewrite fmap_app, elem_of_app. tauto.
Qed.

(** X5. In every run, also one that raises, [adjust_model] leaves the
    model with the reactions, parent reactions, compartments and
    log-concentration variables it had: no id is added or removed. *)
Theorem adjust_model_keeps_ids (s : store num) rxn_bounds lc_bounds :
  let s' := final lib_ (adjust_model the_tmodel rxn_bounds lc_bounds) s in
  dom (reactions s') = dom (reactions s) ∧
  dom (parent_reactions s') = dom (parent_reactions s) ∧
  compartment_ids s' = compartment_ids s ∧
  dom (log_concentration s') = dom (log_concentration s).
Proof.
  destruct (adjust_model_any s rxn_bounds lc_bounds)
    as (ws1 & ws2 & _ & _ & Hall & Hf).
  cbn zeta. rewrite Hf. cbn. split_and!; [..|done|]; apply has_id_dom; intros k.
  - by apply has_id_guarded_writes.
  - by apply has_id_guarded_writes_in.
  - by apply has_id_guarded_writes.
Qed.

(** X6. In every run, a reaction that no row of [rxn_bounds] names keeps
    its bounds in the model and in the parent, whatever [lc_bounds] holds,
    and a log-concentration variable that no row of [lc_bounds] yields
    with any compartment keeps its bounds, whatever [rxn_bounds] holds. *)
Theorem adjust_model_leaves_others (s : store num) rxn_bounds lc_bounds :
  let s' := final lib_ (adjust_model the_tmodel rxn_bounds lc_bounds) s in
  (∀ id, id ∉ rxn_bounds.*1.*1 →
     reactions s' !! id = reactions s !! id ∧
     parent_reactions s' !! id = parent_reactions s !! id) ∧
  (∀ k,
     (∀ met lb ub c, (met, lb, ub) ∈ lc_bounds → c ∈ compartment_ids s →
                     met +:+ "_" +:+ c ≠ k) →
     log_concentration s' !! k = log_concentration s !! k).
Proof.
  destruct (adjust_model_any s rxn_bounds lc_bounds)
    as (ws1 & ws2 & Hpre1 & Hpre2 & _ & Hf).
  cbn zeta. rewrite Hf. cbn. split.
  - intros id Hid. rewrite <- rxn_writes_ids in Hid.
    pose proof (prefix_of_keys _ _ _ Hpre1 Hid).
    by rewrite !guarded_writes_other.
  - intros k Hk. apply guarded_writes_other.
    apply (prefix_of_keys _ _ _ Hpre2).
    intros ([k' v] & Hkk & Hkv)%list_elem_of_fmap. cbn in Hkk. subst k'.
    apply list_elem_of_In, in_flat_map in Hkv as ([[met lb] ub] & Hrow & Hw).
    apply list_elem_of_In in Hrow.
    cbn in Hw. apply list_elem_of_In, list_elem_of_fmap in Hw as (c & [= Hk' _] & Hc).
    by eapply Hk.
Qed.
End MoreAdjust.

(** ** More on the factory, [_silence_pytfa] and [create_model] *)

Section SplitFacts.

Lemma append_String c (a b : string) : String c a +:+ b = String c (a +:+ b).
Proof. reflexivity. Qed.

Lemma split_dot_0_dot_free (s : string) : has_dot (split_dot_0 s) = false.
Proof.
  induction s as [|c s IH]; [done|]. cbn.
  destruct (Ascii.eqb c ".") eqn:Hc; [done|]. cbn. by rewrite Hc.
Qed.

Lemma split_dot_0_id (s : string) : has_dot s = false → split_dot_0 s = s.
Proof.
  induction s as [|c s IH]; [done|]. cbn.
  destruct (Ascii.eqb c "."); [done|]. cbn. intros Hs. by rewrite IH.
Qed.

Lemma split_dot_0_app (a b : string) :
  has_dot a = false → split_dot_0 (a +:+ "." +:+ b) = a.
Proof.
  induction a as [|c a IH]; [done|]. rewrite append_String. cbn.
  destruct (Ascii.eqb c "."); [done|]. cbn. intros Ha. f_equal. by apply IH.
Qed.

Lemma split_dot_0_rest (s : string) :
  has_dot s = true → ∃ rest, s = split_dot_0 s +:+ "." +:+ rest.
Proof.
  induction s as [|c s IH]; [done|]. cbn.
  destruct (Ascii.eqb c ".") eqn:Hc; cbn.
  - intros _. exists s. apply Ascii.eqb_eq in Hc. by subst c.
  - intros [rest Hrest]%IH. exists rest. rewrite append_String. by f_equal.
Qed.

Lemma has_dot_app (a b : string) : has_dot (a +:+ b) = has_dot a || has_dot b.
Proof.
  induction a as [|c a IH]; [done|]. rewrite append_String. cbn.
  by rewrite IH, orb_assoc.
Qed.
End SplitFacts.

Section ThermoMoreFacts.
Context `{Host}.

Lemma silence_loop_trace {W} (h : lib thermo_sig W) (handlers : list obj) w tr w' :
  run h (for_ handlers (λ handler,
           let* is_file := perform (Σ:=thermo_sig) (isinstance_FileHandler handler) in
           if negb is_file
           then perform (Σ:=thermo_sig) (handler_setLevel handler logging_ERROR)
           else Ret tt)) w = (tr, Ok tt, w') →
  ∃ flags,
    length flags = length handlers ∧
    tr = concat (zip_with silenced handlers flags).
Proof.
  revert w tr. induction handlers as [|handler handlers IH]; intros w tr Hrun.
  - injection Hrun as <- _. by exists [].
  - cbn [for_] in Hrun.
    apply run_bind_inv in Hrun as (tr1 & [] & w1 & tr2 & Hstep & Hrun & ->).
    apply IH in Hrun as (flags & Hlen & ->).
    apply run_bind_inv in Hstep as (tr3 & is_file & w3 & tr4 & Hq & Hset & ->).
    apply run_perform_inv in Hq as [_ ->].
    exists (is_file :: flags). split; [cbn; by rewrite Hlen|].
    cbn [zip_with concat]. unfold silenced at 1.
    destruct is_file; cbn [negb] in Hset.
    + by injection Hset as <- _.
    + cbn in Hset. destruct (h _ w3) as [[[]|?] ?]; [|done].
      by injection Hset as <- _.
Qed.

(** X7. A call of [_silence_pytfa] that returns has asked for the logger of
    that name and for its handlers, and then, handler by handler in their
    order, asked whether it is a [FileHandler] and set its level to
    [logging.ERROR] exactly when it is not.  So no file handler has its
    level changed, and every other handler of the logger has. *)
Theorem silence_pytfa_spares_file_handlers
    {W} (h : lib thermo_sig W) (logger_name : string) w tr w' :
  run h (_silence_pytfa logger_name) w = (tr, Ok tt, w') →
  ∃ logger handlers flags,
    length flags = length handlers ∧
    tr = Returned (Σ:=thermo_sig) (get_bistream_logger logger_name) logger ::
         Returned (Σ:=thermo_sig) (logger_handlers logger) handlers ::
         concat (zip_with silenced handlers flags).
Proof.
  unfold _silence_pytfa. intros Hrun.
  apply run_bind_inv in Hrun as (tr1 & logger & w1 & tr2 & Hl & Hrun & ->).
  apply run_perform_inv in Hl as [_ ->].
  apply run_bind_inv in Hrun as (tr3 & handlers & w3 & tr4 & Hh & Hrun & ->).
  apply run_perform_inv in Hh as [_ ->].
  apply silence_loop_trace in Hrun as (flags & Hlen & ->).
  by exists logger, handlers, flags.
Qed.

Lemma _silence_pytfa_on_logger logger_name :
  only_calls (Σ:=thermo_sig) (λ c, on_logger c = true) (_silence_pytfa logger_name).
Proof.
  unfold _silence_pytfa.
  repeat first
    [ apply only_calls_bind; [|intros ?]
    | apply only_calls_for; intros ?
    | by apply only_calls_perform
    | match goal with |- context [if ?b then _ else _] => destruct b end
    | done ].
Qed.

(** X8. A call of [create_model] that returns [tmodel] has either been
    given the three data objects and read none of the data files, or been
    given none and loaded the three from the static folder first.  After
    some calls on loggers only, it has loaded the cobra model from
    [model_name.json] in the static folder, made [tmodel] from the
    thermodynamic data and that cobra model, given it the name
    [model_name], annotated it from the lexicon and applied the
    compartment data to it, in this order; what follows concerns the
    solver, [prepare] and [convert]. *)
Theorem create_model_builds_from_data
    {W} (h : lib thermo_sig W)
    (model_name : string) (thermo_data lexicon compartment_data : option obj)
    w tr tmodel w' :
  run h (create_model model_name thermo_data lexicon compartment_data) w
    = (tr, Ok tmodel, w') →
  ∃ tr_data td lx cd tr_log cmodel tr_solver,
    (thermo_data = Some td ∧ lexicon = Some lx ∧ compartment_data = Some cd ∧
       tr_data = []
     ∨ thermo_data = None ∧ lexicon = None ∧ compartment_data = None ∧
       tr_data =
         [ Returned (Σ:=thermo_sig)
             (load_thermoDB (_path "thermo_data.thermodb")) td;
           Returned (Σ:=thermo_sig)
             (read_lexicon (_path (os_path_join model_name "lexicon.csv"))) lx;
           Returned (Σ:=thermo_sig)
             (read_compartment_data
                (_path (os_path_join model_name "compartment_data.json"))) cd ]) ∧
    Forall (λ e, on_logger (called e) = true) tr_log ∧
    Forall (λ e, on_logger (called e) = false) tr_solver ∧
    tr =
      tr_data ++ tr_log ++
      [ Returned (Σ:=thermo_sig)
          (load_json_model (_path (model_name +:+ ".json"))) cmodel;
        Returned (Σ:=thermo_sig) (ThermoModel td cmodel) tmodel;
        Returned (Σ:=thermo_sig) (set_name tmodel model_name) tt;
        Returned (Σ:=thermo_sig) (annotate_from_lexicon tmodel lx) tt;
        Returned (Σ:=thermo_sig) (apply_compartment_data tmodel cd) tt ] ++
      tr_solver.
Proof.
  unfold create_model. intros Hrun.
  apply run_bind_inv in Hrun as (tr0 & [[td lx] cd] & w0 & tr1 & Hdata & Hrun & ->).
  unfold create_model_from in Hrun.
  apply run_bind_inv in Hrun as (tr2 & [] & w2 & tr3 & Hs1 & Hrun & ->).
  apply run_bind_inv in Hrun as (tr4 & [] & w4 & tr5 & Hs2 & Hrun & ->).
  apply run_bind_inv in Hrun as (tr6 & cmodel & w6 & tr7 & Hcbm & Hrun & ->).
  apply run_bind_inv in Hrun as (tr8 & tm & w8 & tr9 & Hnew & Hrun & ->).
  apply run_perform_inv in Hnew as [_ ->].
  apply run_bind_inv in Hrun as (? & [] & ? & ? & Hc & Hrun & ->).
  apply run_perform_inv in Hc as [_ ->].
  apply run_bind_inv in Hrun as (? & [] & ? & ? & Hc & Hrun & ->).
  apply run_perform_inv in Hc as [_ ->].
  apply run_bind_inv in Hrun as (? & [] & ? & trs & Hc & Hrun & ->).
  apply run_perform_inv in Hc as [_ ->].
  assert (tm = tmodel ∧ Forall (λ e, on_logger (called e) = false) trs)
    as [-> Hsolver].
  { apply run_bind_inv in Hrun as (? & interface & ? & ? & Hc & Hrun & ->).
    apply run_perform_inv in Hc as [_ ->].
    apply run_bind_inv in Hrun as (trf & [] & ? & ? & Hfocus & Hrun & ->).
    assert (Forall (λ e : event thermo_sig, on_logger (called e) = false) trf).
    { destruct (String.eqb interface _).
      - apply run_perform_inv in Hfocus as [_ ->]. by repeat constructor.
      - injection Hfocus as <- _. constructor. }
    apply run_bind_inv in Hrun as (? & [] & ? & ? & Hc & Hrun & ->).
    apply run_perform_inv in Hc as [_ ->].
    apply run_bind_inv in Hrun as (? & [] & ? & ? & Hc & Hrun & ->).
    apply run_perform_inv in Hc as [_ ->].
    apply run_bind_inv in Hrun as (? & [] & ? & ? & Hc & Hrun & ->).
    apply run_perform_inv in Hc as [_ ->].
    apply run_bind_inv in Hrun as (? & [] & ? & ? & Hc & Hrun & ->).
    apply run_perform_inv in Hc as [_ ->].
    injection Hrun as <- <- _. split; [done|].
    rewrite !Forall_app, !Forall_cons. by split_and!. }
  unfold load_cbm in Hcbm. cbn in Hcbm.
  destruct (h _ w4) as [[cm|?] ?]; [|done]. injection Hcbm as <- <- _.
  exists tr0, td, lx, cd, (tr2 ++ tr4), cm, trs. split_and!.
  - destruct thermo_data as [a|], lexicon as [b|], compartment_data as [c|];
      cbn in Hdata; try discriminate Hdata.
    + injection Hdata as <- <- <- <- _. by left.
    + right. unfold load_data, _path in Hdata. cbn in Hdata.
      destruct (h (load_thermoDB _) w) as [[r1|?] w1']; [|done]. cbn in Hdata.
      destruct (h (read_lexicon _) w1') as [[r2|?] w2']; [|done]. cbn in Hdata.
      destruct (h (read_compartment_data _) w2') as [[r3|?] w3']; [|done].
      cbn in Hdata. by injection Hdata as <- <- <- <- _.
  - rewrite Forall_app. split.
    + replace tr2 with (trace h (_silence_pytfa "thermomodel_None") w0)
        by (unfold trace; by rewrite Hs1).
      apply (trace_only_calls h (λ c, on_logger c = true)),
        _silence_pytfa_on_logger.
    + replace tr4 with (trace h (_silence_pytfa ("thermomodel_" +:+ model_name)) w2)
        by (unfold trace; by rewrite Hs2).
      apply (trace_only_calls h (λ c, on_logger c = true)),
        _silence_pytfa_on_logger.
  - done.
  - rewrite <- !app_assoc. by cbn.
Qed.
End ThermoMoreFacts.

Section StemFacts.

Lemma length_append (a b : string) :
  String.length (a +:+ b) = String.length a + String.length b.
Proof.
  induction a as [|c a IH]; [done|]. rewrite append_String. cbn. by rewrite IH.
Qed.

Lemma append_inj_r (a b s : string) : a +:+ s = b +:+ s → a = b.
Proof.
  revert b. induction a as [|c a IH]; intros [|c' b] Heq.
  - done.
  - apply (f_equal String.length) in Heq. rewrite !length_append in Heq.
    cbn in Heq. lia.
  - apply (f_equal String.length) in Heq. rewrite !length_append in Heq.
    cbn in Heq. lia.
  - rewrite !append_String in Heq. injection Heq as -> Heq.
    f_equal. by apply IH.
Qed.

(** The name listed for [stem.json] is the stem exactly when the stem has
    no dot. *)
Lemma split_dot_0_json (stem : string) :
  split_dot_0 (stem +:+ ".json") = stem ↔ has_dot stem = false.
Proof.
  split.
  - intros <-. apply split_dot_0_dot_free.
  - intros Hstem. by apply (split_dot_0_app stem "json").
Qed.
End StemFacts.

Section FactoryMoreFacts.
Context `{Host}.

Lemma run_models {W} (h : lib thermo_sig W) w tr (self : _ModelFactory) w' :
  run h models w = (tr, Ok self, w') →
  ∃ paths : list string,
    tr = [Returned (Σ:=thermo_sig) (glob (_path "*.json")) paths] ∧
    _list self = map (λ path, split_dot_0 (os_path_basename path)) paths.
Proof.
  intros Hrun. unfold models, __init__ in Hrun. cbn in Hrun.
  destruct (h (glob _) w) as [[paths|x] w0]; [|done]. cbn in Hrun.
  injection Hrun as <- <- _. by exists (paths : list string).
Qed.

Lemma Returned_glob_inj (pat : string) (paths1 paths2 : list string) :
  [Returned (Σ:=thermo_sig) (glob pat) paths1]
  = [Returned (Σ:=thermo_sig) (glob pat) paths2] →
  paths1 = paths2.
Proof.
  intros Heq.
  apply (f_equal (λ tr : list (event thermo_sig),
            match tr with
            | Returned c r :: _ =>
                match c return thermo_resp c → list string with
                | glob _ => λ r, r
                | _ => λ _, []
                end r
            | _ => []
            end)) in Heq.
  exact Heq.
Qed.

(** X9. The names the factory lists are in one-to-one position with the
    paths [glob] returned; each holds no dot and is the basename of its
    path, or what comes before the first dot of it.  A model file with a
    dot in its stem is therefore listed under a shorter name. *)
Theorem models_lists_stems
    {W} (h : lib thermo_sig W) w tr (self : _ModelFactory) w' :
  run h models w = (tr, Ok self, w') →
  ∃ paths : list string,
    tr = [Returned (Σ:=thermo_sig) (glob (_path "*.json")) paths] ∧
    Forall2
      (λ name path,
         has_dot name = false ∧
         (os_path_basename path = name ∨
          ∃ rest, os_path_basename path = name +:+ "." +:+ rest))
      (_list self) paths.
Proof.
  intros (paths & -> & ->)%run_models. exists paths. split; [done|].
  apply Forall2_fmap_l, Forall_Forall2_diag, Forall_forall. intros path _.
  split; [apply split_dot_0_dot_free|].
  destruct (has_dot (os_path_basename path)) eqn:Hdot.
  - right. by apply split_dot_0_rest.
  - left. by rewrite split_dot_0_id.
Qed.

(** X10. Take a run of [models] in which [glob] returned [paths], and a
    path among them whose basename is [stem.json].  The factory lists a
    name at the position of that path, and the one call [load_cbm] makes
    for that name asks for [name.json] in the static folder.  When the
    stem holds no dot the name is the stem and [name.json] is the basename
    of the listed path.  When the stem holds a dot the name is not the
    stem, and [name.json] is not the basename of the listed path. *)
Theorem models_name_opens_its_file
    {W} (h : lib thermo_sig W) w (paths : list string) (self : _ModelFactory) w' :
  run h models w
    = ([Returned (Σ:=thermo_sig) (glob (_path "*.json")) paths], Ok self, w') →
  ∀ i path stem,
    paths !! i = Some path → os_path_basename path = stem +:+ ".json" →
    ∃ name,
      _list self !! i = Some name ∧
      (∀ W2 (h2 : lib thermo_sig W2) w2,
         map called (trace h2 (load_cbm name) w2)
         = [load_json_model (_path (name +:+ ".json"))]) ∧
      (has_dot stem = false →
         name = stem ∧ name +:+ ".json" = os_path_basename path) ∧
      (has_dot stem = true →
         name ≠ stem ∧ name +:+ ".json" ≠ os_path_basename path).
Proof.
  intros Hrun.
  destruct (run_models _ _ _ _ _ Hrun) as (paths0 & Htr & Hlist).
  apply Returned_glob_inj in Htr. subst paths0.
  intros i path stem Hi Hbase. exists (split_dot_0 (os_path_basename path)).
  split_and!.
  - rewrite Hlist.
    change (map ?f paths) with (f <$> paths).
    by rewrite list_lookup_fmap, Hi.
  - intros W2 h2 w2. unfold load_cbm, trace. cbn.
    by destruct (h2 _ w2) as [[?|?] ?].
  - intros Hstem. rewrite Hbase.
    by rewrite (proj2 (split_dot_0_json stem) Hstem).
  - intros Hstem.
    assert (split_dot_0 (os_path_basename path) ≠ stem) as Hne.
    { intros Heq. rewrite <- Heq, split_dot_0_dot_free in Hstem. done. }
    split; [done|]. rewrite Hbase at 2. by intros ?%append_inj_r.
Qed.
End FactoryMoreFacts.

(** ** More on the test-data script *)

Section ScriptMoreFacts.
Context {obj file X W : Type} (h : lib (script_sig obj file X) W).

Local Abbreviation Σ := (script_sig obj file X).

Ltac step_script Hrun :=
  repeat match type of Hrun with
  | context [h ?c ?w0] =>
      destruct (h c w0) as [[?|?] ?]; cbn in Hrun
  | context [match ?r with (_, _) => _ end] =>
      is_var r; destruct r as [? ?]; cbn in Hrun
  end.

(** X13. The script closes its output file exactly in the runs that reach
    its end.  A run that a failing call cuts short ends with that call,
    raises what the call raised, and leaves the file as it was then: not
    yet opened when [pd.set_option] or [open] failed, written but not
    closed when [close] failed, and opened, with nothing dumped into it
    and not closed, when any other call failed. *)
Theorem generate_test_data_leaves_file_open w tr o w' :
  run h generate_test_data w = (tr, o, w') →
  (o = Ok tt ↔ reached Start tr = Closed) ∧
  ∀ e, o = Err e →
    ∃ pre c x,
      tr = pre ++ [Failed (Σ:=Σ) c x] ∧ e = LibraryError x ∧
      Forall (λ ev, is_Failed ev = false) pre ∧
      match c with
      | pd_set_option _ _ | open_ _ _ => reached Start tr = Start
      | close f => reached Start tr = Dumped f
      | _ => ∃ f, reached Start tr = Opened f
      end.
Proof.
  intros Hrun. unfold generate_test_data in Hrun. cbn in Hrun.
  step_script Hrun.
  all: injection Hrun as <- <- _.
  all: repeat match goal with
       | u : resp _ ?c |- _ =>
           lazymatch eval cbn in (script_resp c) with unit => destruct u end
       end.
  all: split; [cbn; split; intros Hx; first [done | discriminate Hx]|].
  all: intros ? He; try discriminate He; injection He as <-.
  all: lazymatch goal with
       | |- ∃ _ _ _, ?t = _ ∧ _ =>
           exists (take (pred (length t)) t); cbn
       end.
  all: do 2 eexists; split; [reflexivity|]; split; [reflexivity|].
  all: split; [repeat constructor|cbn; eauto].
Qed.

Ltac run_to_end Hrun :=
  unfold generate_test_data in Hrun; cbn in Hrun;
  repeat match type of Hrun with
  | context [h ?c ?w0] =>
      destruct (h c w0) as [[?|?] ?]; cbn in Hrun; [|discriminate Hrun]
  | context [match ?r with (_, _) => _ end] =>
      is_var r; destruct r as [? ?]; cbn in Hrun
  end;
  injection Hrun as <- _;
  repeat match goal with
  | u : resp _ ?c |- _ =>
      lazymatch eval cbn in (script_resp c) with unit => destruct u end
  end.

(** X11. In a run that reaches the end of the script, the list pickled
    holds, in this order, the seven inputs of the INCA script generator
    and the results of the eleven generator calls the script made on
    them just before: the calls took their arguments from those inputs
    and from earlier results, [script_generator] all seven inputs. *)
Theorem generate_test_data_pickles_generator_io w tr w' :
  run h generate_test_data w = (tr, Ok tt, w') →
  ∃ pre filehandler
    modelReaction_data atomMappingReactions_data atomMappingMetabolite_data
    measuredFluxes_data experimentalMS_data tracer
    initiated_MATLAB_script model_reactions model_rxn_ids initialized_model
    symmetrical_metabolites_script unbalanced_reactions_script
    reaction_parameters verify_and_estimate_script experimental_parameters
    fragments_used mapping_script script runner,
    tr = pre ++
      [ Returned (Σ:=Σ) initiate_MATLAB_script initiated_MATLAB_script;
        Returned (Σ:=Σ)
          (add_reactions_to_script
             modelReaction_data atomMappingReactions_data biomass_function)
          (model_reactions, model_rxn_ids);
        Returned (Σ:=Σ) initialize_model initialized_model;
        Returned (Σ:=Σ) (symmetrical_metabolites atomMappingMetabolite_data)
          symmetrical_metabolites_script;
        Returned (Σ:=Σ) (unbalanced_reactions atomMappingMetabolite_data)
          unbalanced_reactions_script;
        Returned (Σ:=Σ)
          (add_reaction_parameters
             modelReaction_data measuredFluxes_data model_rxn_ids true)
          reaction_parameters;
        Returned (Σ:=Σ) verify_and_estimate verify_and_estimate_script;
        Returned (Σ:=Σ)
          (add_experimental_parameters
             experimentalMS_data tracer measuredFluxes_data
             atomMappingMetabolite_data)
          (experimental_parameters, fragments_used);
        Returned (Σ:=Σ) (mapping experimentalMS_data fragments_used)
          mapping_script;
        Returned (Σ:=Σ)
          (script_generator
             modelReaction_data atomMappingReactions_data biomass_function
             atomMappingMetabolite_data measuredFluxes_data
             experimentalMS_data tracer)
          script;
        Returned (Σ:=Σ) (runner_script_generator "TestFile" 10) runner;
        Returned (Σ:=Σ)
          (pickle_dump
             [ PObj modelReaction_data; PObj atomMappingReactions_data;
               PStr biomass_function; PObj atomMappingMetabolite_data;
               PObj measuredFluxes_data; PObj experimentalMS_data;
               PObj tracer; PObj initiated_MATLAB_script;
               PObj model_reactions; PObj model_rxn_ids;
               PObj initialized_model; PObj symmetrical_metabolites_script;
               PObj unbalanced_reactions_script; PObj reaction_parameters;
               PObj verify_and_estimate_script; PObj experimental_parameters;
               PObj fragments_used; PObj mapping_script; PObj script;
               PObj runner ]
             filehandler) tt;
        Returned (Σ:=Σ) (close filehandler) tt ].
Proof.
  intros Hrun. run_to_end Hrun.
  lazymatch goal with
  | |- context [?t = _] =>
      lazymatch t with
      | _ :: _ => exists (take 15 t)
      end
  end.
  cbn. repeat eexists.
Qed.

(** X12. In a run that reaches the end of the script, the six data frames
    pickled are not the frames [pd.read_csv] returned but what
    [limit_to_one_model] and [limit_to_one_experiment] made of them: the
    reactions, atom mappings and metabolite mappings limited to model
    ["ecoli_RL2013_02"], the measured fluxes to that model and then to
    experiment ["WTEColi_113C80_U13C20_01"], the MS data and the tracers
    to that experiment. *)
Theorem generate_test_data_pickles_filtered_frames w tr w' :
  run h generate_test_data w = (tr, Ok tt, w') →
  ∃ filehandler raw_atomMappingReactions raw_modelReaction
    raw_atomMappingMetabolite raw_measuredFluxes raw_experimentalMS raw_tracer
    atomMappingReactions_data modelReaction_data atomMappingMetabolite_data
    model_measuredFluxes measuredFluxes_data experimentalMS_data tracer
    middle outputs,
    tr =
      [ Returned (Σ:=Σ) (pd_set_option "mode.chained_assignment" None) tt;
        Returned (Σ:=Σ) (open_ "test_data.obj" "wb") filehandler;
        Returned (Σ:=Σ)
          (pd_read_csv "data_stage02_isotopomer_atomMappingReactions2.csv")
          raw_atomMappingReactions;
        Returned (Σ:=Σ)
          (pd_read_csv "data_stage02_isotopomer_modelReactions.csv")
          raw_modelReaction;
        Returned (Σ:=Σ)
          (pd_read_csv "data_stage02_isotopomer_atomMappingMetabolites.csv")
          raw_atomMappingMetabolite;
        Returned (Σ:=Σ)
          (pd_read_csv "data_stage02_isotopomer_measuredFluxes.csv")
          raw_measuredFluxes;
        Returned (Σ:=Σ) (pd_read_csv "data-1604345289079.csv")
          raw_experimentalMS;
        Returned (Σ:=Σ) (pd_read_csv "data_stage02_isotopomer_tracers.csv")
          raw_tracer;
        Returned (Σ:=Σ)
          (limit_to_one_model raw_atomMappingReactions
             "mapping_id" "ecoli_RL2013_02")
          atomMappingReactions_data;
        Returned (Σ:=Σ)
          (limit_to_one_model raw_modelReaction "model_id" "ecoli_RL2013_02")
          modelReaction_data;
        Returned (Σ:=Σ)
          (limit_to_one_model raw_atomMappingMetabolite
             "mapping_id" "ecoli_RL2013_02")
          atomMappingMetabolite_data;
        Returned (Σ:=Σ)
          (limit_to_one_model raw_measuredFluxes "model_id" "ecoli_RL2013_02")
          model_measuredFluxes;
        Returned (Σ:=Σ)
          (limit_to_one_experiment model_measuredFluxes
             "experiment_id" "WTEColi_113C80_U13C20_01")
          measuredFluxes_data;
        Returned (Σ:=Σ)
          (limit_to_one_experiment raw_experimentalMS
             "experiment_id" "WTEColi_113C80_U13C20_01")
          experimentalMS_data;
        Returned (Σ:=Σ)
          (limit_to_one_experiment raw_tracer
             "experiment_id" "WTEColi_113C80_U13C20_01")
          tracer ] ++
      middle ++
      [ Returned (Σ:=Σ)
          (pickle_dump
             ([ PObj modelReaction_data; PObj atomMappingReactions_data;
                PStr biomass_function; PObj atomMappingMetabolite_data;
                PObj measuredFluxes_data; PObj experimentalMS_data;
                PObj tracer ] ++ outputs)
             filehandler) tt;
        Returned (Σ:=Σ) (close filehandler) tt ].
Proof.
  intros Hrun. run_to_end Hrun.
  do 14 eexists.
  lazymatch goal with
  | |- context [?t = _] =>
      lazymatch t with
      | _ :: _ => exists (take 11 (drop 15 t))
      end
  end.
  cbn. eexists. reflexivity.
Qed.
End ScriptMoreFacts.

(** * The theorems at work *)

(** Settles a closed decidable proposition by evaluating its decision
    procedure. *)
Ltac by_computing :=
  match goal with
  | |- ?P => apply (bool_decide_unpack P); vm_compute; exact I
  end.

(** ** On the shipped static folder *)

Section Shipped.
Local Abbreviation create_model := (@create_model posix_host).
Local Abbreviation load_data := (@load_data posix_host).
Local Abbreviation Σp := (@thermo_sig posix_host).

Lemma create_model_all_or_none_witness :
  create_model "small_ecoli" (Some "<thermo_data>") None None
  = Raise not_all_supplied.
Proof.
  apply (proj1 (create_model_all_or_none (H:=posix_host)
                  "small_ecoli" (Some "<thermo_data>") None None)).
  split; [right; left; reflexivity | intros [Hnone _]; discriminate Hnone].
Defined.

Lemma load_data_reads_static_files_witness :
  ∃ thermo_data lexicon compartment_data,
    outcome glpk (load_data "small_ecoli") tt
    = Ok (thermo_data, lexicon, compartment_data) ∧
    trace glpk (load_data "small_ecoli") tt
    = [ Returned (Σ:=Σp)
          (load_thermoDB "/site-packages/BFAIR/thermo/static/thermo_data.thermodb")
          thermo_data;
        Returned (Σ:=Σp)
          (read_lexicon "/site-packages/BFAIR/thermo/static/small_ecoli/lexicon.csv")
          lexicon;
        Returned (Σ:=Σp)
          (read_compartment_data
             "/site-packages/BFAIR/thermo/static/small_ecoli/compartment_data.json")
          compartment_data ].
Proof.
  destruct (proj1 (load_data_reads_static_files (H:=posix_host)
                     glpk "small_ecoli" tt _ _ _)
              (run_eta glpk (load_data "small_ecoli") tt))
    as (td & lx & cd & w1 & w2 & _ & _ & _ & Hr & Htr).
  exists td, lx, cd. split; [exact (f_equal Ok Hr) | exact Htr].
Defined.

Lemma create_model_configures_solver_witness :
  ∃ pre td lx cd cmodel interface,
    Forall (λ e, configures_solver (called e) = false) pre ∧
    trace gurobi (create_model "small_ecoli" None None None) tt =
      pre ++
      [ Returned (Σ:=Σp) (ThermoModel (H:=posix_host) td cmodel) "<ThermoModel>";
        Returned (Σ:=Σp) (set_name (H:=posix_host) "<ThermoModel>" "small_ecoli") tt;
        Returned (Σ:=Σp) (annotate_from_lexicon (H:=posix_host) "<ThermoModel>" lx) tt;
        Returned (Σ:=Σp) (apply_compartment_data (H:=posix_host) "<ThermoModel>" cd) tt;
        Returned (Σ:=Σp) (solver_interface_name (H:=posix_host) "<ThermoModel>")
          interface ] ++
      (if String.eqb interface "optlang.gurobi_interface"
       then [ Returned (Σ:=Σp) (set_NumericFocus (H:=posix_host) "<ThermoModel>" 3) tt ]
       else []) ++
      [ Returned (Σ:=Σp)
          (set_tolerances_feasibility (H:=posix_host) "<ThermoModel>" (Float 1 (-9))) tt;
        Returned (Σ:=Σp) (set_presolve (H:=posix_host) "<ThermoModel>" true) tt;
        Returned (Σ:=Σp) (prepare (H:=posix_host) "<ThermoModel>") tt;
        Returned (Σ:=Σp) (convert (H:=posix_host) "<ThermoModel>" false) tt ].
Proof.
  assert (run gurobi (create_model "small_ecoli" None None None) tt
          = (trace gurobi (create_model "small_ecoli" None None None) tt,
             Ok "<ThermoModel>", tt)) as Hrun by (vm_compute; reflexivity).
  exact (create_model_configures_solver (H:=posix_host) gurobi
           "small_ecoli" None None None tt _ _ _ Hrun).
Defined.

Lemma io_passes_on_library_failures_witness :
  outcome glpk (create_model "iJO1366" None None None) tt
  = Err (LibraryError (Σ:=Σp)
           "FileNotFoundError: /site-packages/BFAIR/thermo/static/iJO1366/lexicon.csv").
Proof.
  destruct (io_passes_on_library_failures (H:=posix_host) glpk
              (cobra Z.leb)) as (_ & _ & _ & Hcreate & _).
  destruct (Hcreate "iJO1366" None None None tt) as [Hfailed _].
  apply (Hfailed
           (read_lexicon "/site-packages/BFAIR/thermo/static/iJO1366/lexicon.csv")).
  vm_compute. right. left.
Defined.

(** By contrast, [load_cbm] put inside a [try] block that answers a
    failure with a stand-in object does not pass the failure on. *)
Lemma load_cbm_caught :
  outcome glpk
    (try_except (load_cbm (H:=posix_host) "absent") (λ _, Ret "<no model>")) tt
  = Ok "<no model>" ∧
  ¬ passes_on glpk
      (try_except (load_cbm (H:=posix_host) "absent") (λ _, Ret "<no model>"))
      (λ _, True).
Proof.
  split; [vm_compute; reflexivity|].
  apply (try_except_not_passes_on glpk
           (load_json_model (H:=posix_host)
              (_path (H:=posix_host) ("absent" +:+ ".json")))
           "<no model>" tt
           "FileNotFoundError: /site-packages/BFAIR/thermo/static/absent.json" tt).
  vm_compute. reflexivity.
Qed.

Lemma models_lists_and_creates_witness :
  dir shipped_models = ["iJO1366"; "small_ecoli"] ∧
  outcome glpk (getattr (H:=posix_host) shipped_models "small_ecoli") tt
  = result_map AttrObj (outcome glpk (create_model "small_ecoli" None None None) tt).
Proof.
  assert (run glpk (models (H:=posix_host)) tt
          = ([ Returned (Σ:=Σp) (glob "/site-packages/BFAIR/thermo/static/*.json")
                 shipped_json ], Ok shipped_models, tt)) as Hrun
    by (vm_compute; reflexivity).
  destruct (models_lists_and_creates (H:=posix_host) glpk tt _ _ _ Hrun)
    as (paths & _ & _ & _ & _ & Hget).
  split; [vm_compute; reflexivity|].
  apply (Hget "small_ecoli").
  - vm_compute. right. left.
  - vm_compute. reflexivity.
Defined.

(** C4 as stated fails on a static folder that holds [_list.json]: the
    name [_list] is listed, yet [models._list] is the list itself, found by
    normal lookup, while [create_model("_list")] returns a model. *)
Lemma models_listed_name_clash :
  ∃ self,
    outcome clashing (models (H:=posix_host)) tt = Ok self ∧
    ¬ (∀ name, name ∈ dir self →
         outcome clashing (getattr (H:=posix_host) self name) tt
         = result_map AttrObj
             (outcome clashing (create_model name None None None) tt)).
Proof.
  exists {| _list := ["_list"]; __doc__ := Some models_doc |}.
  split; [vm_compute; reflexivity|].
  intros Hall.
  assert ("_list" ∈ dir {| _list := ["_list"]; __doc__ := Some models_doc |})
    as Hin by by_computing.
  specialize (Hall "_list" Hin). vm_compute in Hall. discriminate Hall.
Defined.

Lemma getattr_unlisted_witness :
  getattr (H:=posix_host) shipped_models "iJO1515" = Raise (AttributeError "iJO1515") ∧
  getattr (H:=posix_host) shipped_models "__dir__"
  = Ret (AttrObj (H:=posix_host) "<__dir__>").
Proof.
  assert ("iJO1515" ∉ _list shipped_models) as Hnot1
    by (by_computing).
  assert ("__dir__" ∉ _list shipped_models) as Hnot2
    by (by_computing).
  destruct (getattr_unlisted (H:=posix_host) shipped_models "iJO1515" Hnot1)
    as (_ & _ & Hnone & _).
  destruct (getattr_unlisted (H:=posix_host) shipped_models "__dir__" Hnot2)
    as (_ & _ & _ & Hsome & _).
  split; [apply Hnone | apply Hsome]; vm_compute; reflexivity.
Defined.

(** C10 as stated fails on the factory's own attribute [_list]: it is not a
    listed model, and [models._list] returns the list instead of raising
    [AttributeError]. *)
Lemma getattr_unlisted_attribute :
  ¬ (∀ item, item ∉ _list shipped_models →
       getattr (H:=posix_host) shipped_models item = Raise (AttributeError item)).
Proof.
  intros Hall.
  assert ("_list" ∉ _list shipped_models) as Hnot
    by (by_computing).
  specialize (Hall "_list" Hnot). vm_compute in Hall. discriminate Hall.
Defined.
End Shipped.

(** ** On a small model *)

Section Small.
Local Open Scope Z_scope.
Local Abbreviation lib_ := (cobra Z.leb).
Local Abbreviation adjusted :=
  (final lib_ (adjust_model the_tmodel small_rxn_bounds small_lc_bounds) small_model).

Lemma small_model_adjusts :
  run lib_ (adjust_model the_tmodel small_rxn_bounds small_lc_bounds) small_model
  = (trace lib_ (adjust_model the_tmodel small_rxn_bounds small_lc_bounds) small_model,
     Ok tt, adjusted).
Proof. vm_compute. reflexivity. Defined.

Lemma adjust_model_sets_bounds_witness :
  reactions adjusted !! "BIOMASS" = Some (0, 1) ∧
  log_concentration adjusted !! "glc_e" = Some (-7, -3).
Proof.
  destruct (adjust_model_sets_bounds Z.leb _ _ _ _ _ small_model_adjusts)
    as [Hrxn Hlc].
  split.
  - apply (Hrxn 2%nat "BIOMASS" 0 1).
    + reflexivity.
    + vm_compute. eauto.
    + by_computing.
  - apply (Hlc 0%nat "glc" (-7) (-3) "e").
    + reflexivity.
    + by_computing.
    + vm_compute. eauto.
    + intros met' lb' ub' c' Hrow Hc' Heq.
      vm_compute in Hrow.
      apply elem_of_cons in Hc' as [->|Hc'];
        [|apply list_elem_of_singleton in Hc' as ->];
        (apply elem_of_cons in Hrow as [[= -> _ _]|Hrow];
         [|apply list_elem_of_singleton in Hrow as [= -> _ _]]);
        discriminate Heq.
Defined.

(** C2 as stated fails for a row whose bounds the library rejects: the
    table names the reaction [BIOMASS] once and the model has it, but the
    call raises at that row and the reaction keeps the bounds it had. *)
Lemma adjust_model_rejected_row_unset :
  (outcome lib_ (adjust_model the_tmodel [("BIOMASS", 5, 1)] []) small_model
   = Err (LibraryError (Σ:=model_sig handle Z (cobra_exn Z)) (BoundsRejected 5 1)) ∧
   reactions
     (final lib_ (adjust_model the_tmodel [("BIOMASS", 5, 1)] []) small_model)
     !! "BIOMASS" = Some (0, 1000)) ∧
  ¬ (∀ (s : store Z) (rxn_bounds lc_bounds : list (row Z)) id lb ub,
       NoDup rxn_bounds.*1.*1 →
       (id, lb, ub) ∈ rxn_bounds → is_Some (reactions s !! id) →
       reactions (final lib_ (adjust_model the_tmodel rxn_bounds lc_bounds) s)
         !! id = Some (lb, ub)).
Proof.
  split; [split; vm_compute; reflexivity|].
  intros Hall.
  specialize (Hall small_model [("BIOMASS", 5, 1)] [] "BIOMASS" 5 1).
  assert (reactions
            (final lib_ (adjust_model the_tmodel [("BIOMASS", 5, 1)] []) small_model)
            !! "BIOMASS" = Some (5, 1)) as Hset.
  { apply Hall.
    - apply NoDup_singleton.
    - apply list_elem_of_singleton. reflexivity.
    - vm_compute. eauto. }
  vm_compute in Hset. discriminate Hset.
Defined.

Lemma adjust_model_skips_absent_witness :
  run lib_ (adjust_model the_tmodel [("PFK", 0, 10)] []) small_model
  = ([ Returned (Σ:=model_sig handle Z (cobra_exn Z))
         (reactions_has_id the_tmodel "PFK") false ], Ok tt, small_model).
Proof.
  apply (proj1 (adjust_model_skips_absent Z.leb small_model)).
  vm_compute. reflexivity.
Defined.


End Small.

(** ** On a run of the script *)

Section ScriptRun.
Local Abbreviation Σs := (script_sig string string string).

Lemma generate_test_data_file_handle_witness :
  follows Start (trace (canned_script ["data-1604345289079.csv"])
                   generate_test_data tt) ∧
  (∀ f, Returned (Σ:=Σs) (close f) tt
        ∉ trace (canned_script ["data-1604345289079.csv"]) generate_test_data tt) ∧
  ∃ filehandler raw_atomMappingReactions raw_modelReaction
    raw_atomMappingMetabolite raw_measuredFluxes raw_experimentalMS
    raw_tracer atomMappingReactions_data modelReaction_data
    atomMappingMetabolite_data model_measuredFluxes measuredFluxes_data
    experimentalMS_data tracer initiated_MATLAB_script model_reactions
    model_rxn_ids initialized_model symmetrical_metabolites_script
    unbalanced_reactions_script reaction_parameters
    verify_and_estimate_script experimental_parameters fragments_used
    mapping_script script runner,
    trace (canned_script []) generate_test_data tt =
      [ Returned (Σ:=Σs) (pd_set_option "mode.chained_assignment" None) tt;
        Returned (Σ:=Σs) (open_ "test_data.obj" "wb") filehandler;
        Returned (Σ:=Σs)
          (pd_read_csv "data_stage02_isotopomer_atomMappingReactions2.csv")
          raw_atomMappingReactions;
        Returned (Σ:=Σs)
          (pd_read_csv "data_stage02_isotopomer_modelReactions.csv")
          raw_modelReaction;
        Returned (Σ:=Σs)
          (pd_read_csv "data_stage02_isotopomer_atomMappingMetabolites.csv")
          raw_atomMappingMetabolite;
        Returned (Σ:=Σs)
          (pd_read_csv "data_stage02_isotopomer_measuredFluxes.csv")
          raw_measuredFluxes;
        Returned (Σ:=Σs) (pd_read_csv "data-1604345289079.csv")
          raw_experimentalMS;
        Returned (Σ:=Σs) (pd_read_csv "data_stage02_isotopomer_tracers.csv")
          raw_tracer;
        Returned (Σ:=Σs)
          (limit_to_one_model raw_atomMappingReactions
             "mapping_id" "ecoli_RL2013_02")
          atomMappingReactions_data;
        Returned (Σ:=Σs)
          (limit_to_one_model raw_modelReaction "model_id" "ecoli_RL2013_02")
          modelReaction_data;
        Returned (Σ:=Σs)
          (limit_to_one_model raw_atomMappingMetabolite
             "mapping_id" "ecoli_RL2013_02")
          atomMappingMetabolite_data;
        Returned (Σ:=Σs)
          (limit_to_one_model raw_measuredFluxes "model_id" "ecoli_RL2013_02")
          model_measuredFluxes;
        Returned (Σ:=Σs)
          (limit_to_one_experiment model_measuredFluxes
             "experiment_id" "WTEColi_113C80_U13C20_01")
          measuredFluxes_data;
        Returned (Σ:=Σs)
          (limit_to_one_experiment raw_experimentalMS
             "experiment_id" "WTEColi_113C80_U13C20_01")
          experimentalMS_data;
        Returned (Σ:=Σs)
          (limit_to_one_experiment raw_tracer
             "experiment_id" "WTEColi_113C80_U13C20_01")
          tracer ] ++
      [ Returned (Σ:=Σs) initiate_MATLAB_script initiated_MATLAB_script;
        Returned (Σ:=Σs)
          (add_reactions_to_script
             modelReaction_data atomMappingReactions_data biomass_function)
          (model_reactions, model_rxn_ids);
        Returned (Σ:=Σs) initialize_model initialized_model;
        Returned (Σ:=Σs) (symmetrical_metabolites atomMappingMetabolite_data)
          symmetrical_metabolites_script;
        Returned (Σ:=Σs) (unbalanced_reactions atomMappingMetabolite_data)
          unbalanced_reactions_script;
        Returned (Σ:=Σs)
          (add_reaction_parameters
             modelReaction_data measuredFluxes_data model_rxn_ids true)
          reaction_parameters;
        Returned (Σ:=Σs) verify_and_estimate verify_and_estimate_script;
        Returned (Σ:=Σs)
          (add_experimental_parameters
             experimentalMS_data tracer measuredFluxes_data
             atomMappingMetabolite_data)
          (experimental_parameters, fragments_used);
        Returned (Σ:=Σs) (mapping experimentalMS_data fragments_used)
          mapping_script;
        Returned (Σ:=Σs)
          (script_generator
             modelReaction_data atomMappingReactions_data biomass_function
             atomMappingMetabolite_data measuredFluxes_data
             experimentalMS_data tracer)
          script;
        Returned (Σ:=Σs) (runner_script_generator "TestFile" 10) runner;
        Returned (Σ:=Σs)
          (pickle_dump
             [ PObj modelReaction_data; PObj atomMappingReactions_data;
               PStr biomass_function; PObj atomMappingMetabolite_data;
               PObj measuredFluxes_data; PObj experimentalMS_data;
               PObj tracer; PObj initiated_MATLAB_script;
               PObj model_reactions; PObj model_rxn_ids;
               PObj initialized_model; PObj symmetrical_metabolites_script;
               PObj unbalanced_reactions_script; PObj reaction_parameters;
               PObj verify_and_estimate_script; PObj experimental_parameters;
               PObj fragments_used; PObj mapping_script; PObj script;
               PObj runner ]
             filehandler) tt;
        Returned (Σ:=Σs) (close filehandler) tt ].
Proof.
  split_and!.
  - exact (proj1 (generate_test_data_file_handle
                    (canned_script ["data-1604345289079.csv"]) tt)).
  - assert (run (canned_script ["data-1604345289079.csv"]) generate_test_data tt
            = (trace (canned_script ["data-1604345289079.csv"])
                 generate_test_data tt,
               Err (LibraryError (Σ:=Σs)
                      "FileNotFoundError: data-1604345289079.csv"), tt))
      as Hrun by (vm_compute; reflexivity).
    exact (proj2 (proj2 (generate_test_data_file_handle
                           (canned_script ["data-1604345289079.csv"]) tt))
             _ _ _ Hrun).
  - assert (run (canned_script []) generate_test_data tt
            = (trace (canned_script []) generate_test_data tt, Ok tt, tt))
      as Hrun by (vm_compute; reflexivity).
    exact (proj1 (proj2 (generate_test_data_file_handle (canned_script []) tt))
             _ _ Hrun).
Defined.

(** C8 as stated fails when a call between [open] and [close] raises:
    with one CSV file missing the script has opened its output file, and
    it ends without having closed it. *)
Lemma generate_test_data_handle_left_open :
  ¬ (∀ h : lib (script_sig string string string) unit,
       (∃ f, Returned (Σ:=Σs) (open_ "test_data.obj" "wb") f
             ∈ trace h generate_test_data tt) →
       ∃ f, Returned (Σ:=Σs) (close f) tt ∈ trace h generate_test_data tt).
Proof.
  intros Hall.
  destruct (Hall (canned_script ["data-1604345289079.csv"])) as [f Hin].
  - eexists. vm_compute. right. left.
  - vm_compute in Hin.
    repeat (apply elem_of_cons in Hin as [Heq|Hin]; [discriminate Heq|]).
    by apply elem_of_nil in Hin.
Defined.
End ScriptRun.

(** ** Further runs on the canned libraries *)

Section MoreShipped.
Local Abbreviation Σp := (@thermo_sig posix_host).

Lemma silence_pytfa_spares_file_handlers_witness :
  ∃ logger handlers flags,
    length flags = length handlers ∧
    trace glpk (_silence_pytfa (H:=posix_host) "thermomodel_None") tt
    = Returned (Σ:=Σp) (get_bistream_logger (H:=posix_host) "thermomodel_None")
        logger ::
      Returned (Σ:=Σp) (logger_handlers (H:=posix_host) logger) handlers ::
      concat (zip_with (silenced (H:=posix_host)) handlers flags).
Proof.
  assert (run glpk (_silence_pytfa (H:=posix_host) "thermomodel_None") tt
          = (trace glpk (_silence_pytfa (H:=posix_host) "thermomodel_None") tt,
             Ok tt, tt)) as Hrun by (vm_compute; reflexivity).
  exact (silence_pytfa_spares_file_handlers (H:=posix_host) glpk
           "thermomodel_None" tt _ _ Hrun).
Defined.

Lemma create_model_builds_from_data_witness :
  ∃ tr_data td lx cd tr_log cmodel tr_solver,
    tr_data =
      [ Returned (Σ:=Σp)
          (load_thermoDB (H:=posix_host)
             "/site-packages/BFAIR/thermo/static/thermo_data.thermodb") td;
        Returned (Σ:=Σp)
          (read_lexicon (H:=posix_host)
             "/site-packages/BFAIR/thermo/static/small_ecoli/lexicon.csv") lx;
        Returned (Σ:=Σp)
          (read_compartment_data (H:=posix_host)
             "/site-packages/BFAIR/thermo/static/small_ecoli/compartment_data.json")
          cd ] ∧
    Forall (λ e, on_logger (H:=posix_host) (called e) = true) tr_log ∧
    Forall (λ e, on_logger (H:=posix_host) (called e) = false) tr_solver ∧
    trace glpk (create_model (H:=posix_host) "small_ecoli" None None None) tt =
      tr_data ++ tr_log ++
      [ Returned (Σ:=Σp)
          (load_json_model (H:=posix_host)
             "/site-packages/BFAIR/thermo/static/small_ecoli.json") cmodel;
        Returned (Σ:=Σp) (ThermoModel (H:=posix_host) td cmodel) "<ThermoModel>";
        Returned (Σ:=Σp) (set_name (H:=posix_host) "<ThermoModel>" "small_ecoli") tt;
        Returned (Σ:=Σp) (annotate_from_lexicon (H:=posix_host) "<ThermoModel>" lx) tt;
        Returned (Σ:=Σp) (apply_compartment_data (H:=posix_host) "<ThermoModel>" cd) tt ] ++
      tr_solver.
Proof.
  assert (run glpk (create_model (H:=posix_host) "small_ecoli" None None None) tt
          = (trace glpk (create_model (H:=posix_host) "small_ecoli" None None None) tt,
             Ok "<ThermoModel>", tt)) as Hrun by (vm_compute; reflexivity).
  destruct (create_model_builds_from_data (H:=posix_host) glpk
              "small_ecoli" None None None tt _ _ _ Hrun)
    as (tr_data & td & lx & cd & tr_log & cmodel & tr_solver
        & [(Hgiven & _)|(_ & _ & _ & Hdata)] & Hlog & Hsolver & Htr);
    [discriminate Hgiven|].
  exists tr_data, td, lx, cd, tr_log, cmodel, tr_solver.
  split_and!; [exact Hdata|exact Hlog|exact Hsolver|exact Htr].
Defined.

Lemma models_lists_stems_witness :
  ∃ paths : list string,
    trace dotted (models (H:=posix_host)) tt
    = [ Returned (Σ:=Σp)
          (glob (H:=posix_host) "/site-packages/BFAIR/thermo/static/*.json")
          paths ] ∧
    Forall2
      (λ name path,
         has_dot name = false ∧
         (posix_basename path = name ∨
          ∃ rest, posix_basename path = name +:+ "." +:+ rest))
      ["iJO1366"; "e_coli"] paths.
Proof.
  assert (run dotted (models (H:=posix_host)) tt
          = (trace dotted (models (H:=posix_host)) tt, Ok dotted_models, tt))
    as Hrun by (vm_compute; reflexivity).
  exact (models_lists_stems (H:=posix_host) dotted tt _ _ _ Hrun).
Defined.

Lemma models_name_opens_its_file_witness :
  ∃ name,
    _list dotted_models !! 1%nat = Some name ∧
    name +:+ ".json" ≠ "e_coli.core.json".
Proof.
  assert (run dotted (models (H:=posix_host)) tt
          = ([ Returned (Σ:=Σp)
                 (glob (H:=posix_host) "/site-packages/BFAIR/thermo/static/*.json")
                 dotted_json ], Ok dotted_models, tt)) as Hrun
    by (vm_compute; reflexivity).
  destruct (models_name_opens_its_file (H:=posix_host) dotted tt _ _ _ Hrun
              1%nat "/site-packages/BFAIR/thermo/static/e_coli.core.json"
              "e_coli.core")
    as (name & Hname & _ & _ & Hdot).
  - reflexivity.
  - vm_compute. reflexivity.
  - exists name. split; [exact Hname|].
    destruct Hdot as [_ Hne]; [reflexivity|]. exact Hne.
Defined.
End MoreShipped.

Section MoreSmall.
Local Open Scope Z_scope.
Local Abbreviation lib_ := (cobra Z.leb).
Local Abbreviation adjusted :=
  (final lib_ (adjust_model the_tmodel small_rxn_bounds small_lc_bounds) small_model).

Lemma adjust_model_stops_at_rejected_bounds_witness :
  outcome lib_ (adjust_model the_tmodel crossed_rxn_bounds small_lc_bounds)
    small_model
  = Err (LibraryError (Σ:=model_sig handle Z (cobra_exn Z)) (BoundsRejected 5 1)) ∧
  reactions
    (final lib_ (adjust_model the_tmodel crossed_rxn_bounds small_lc_bounds)
       small_model) !! "EX_glc" = Some (-5, -5).
Proof.
  assert (run lib_ (adjust_model the_tmodel [("EX_glc", -5, -5)] []) small_model
          = (trace lib_ (adjust_model the_tmodel [("EX_glc", -5, -5)] []) small_model,
             Ok tt,
             final lib_ (adjust_model the_tmodel [("EX_glc", -5, -5)] []) small_model))
    as Hrun by (vm_compute; reflexivity).
  destruct (adjust_model_stops_at_rejected_bounds Z.leb small_model
              [("EX_glc", -5, -5)] "BIOMASS" 5 1 [("EX_glc", -8, -1)]
              small_lc_bounds _ _ Hrun)
    as [Ho Hf].
  - vm_compute. eauto.
  - vm_compute. eauto.
  - reflexivity.
  - split; [exact Ho|].
    etrans; [exact (f_equal (λ s, reactions s !! "EX_glc") Hf)|].
    vm_compute. reflexivity.
Defined.

Lemma adjust_model_stops_at_missing_parent_witness :
  outcome lib_ (adjust_model the_tmodel small_rxn_bounds small_lc_bounds)
    orphan_model
  = Err (LibraryError (Σ:=model_sig handle Z (cobra_exn Z)) (KeyError "BIOMASS")) ∧
  reactions
    (final lib_ (adjust_model the_tmodel small_rxn_bounds small_lc_bounds)
       orphan_model) !! "EX_glc" = Some (-5, -5).
Proof.
  assert (run lib_ (adjust_model the_tmodel [("EX_glc", -5, -5); ("PFK", 0, 10)] [])
            orphan_model
          = (trace lib_
               (adjust_model the_tmodel [("EX_glc", -5, -5); ("PFK", 0, 10)] [])
               orphan_model,
             Ok tt,
             final lib_
               (adjust_model the_tmodel [("EX_glc", -5, -5); ("PFK", 0, 10)] [])
               orphan_model))
    as Hrun by (vm_compute; reflexivity).
  destruct (adjust_model_stops_at_missing_parent Z.leb orphan_model
              [("EX_glc", -5, -5); ("PFK", 0, 10)] "BIOMASS" 0 1
              [("EX_glc", -8, -1)] small_lc_bounds _ _ Hrun)
    as [Ho Hf].
  - vm_compute. eauto.
  - vm_compute. reflexivity.
  - split; [exact Ho|].
    etrans; [exact (f_equal (λ s, reactions s !! "EX_glc") Hf)|].
    vm_compute. reflexivity.
Defined.

Lemma adjust_model_idempotent_witness :
  outcome lib_ (adjust_model the_tmodel small_rxn_bounds small_lc_bounds) adjusted
  = Ok tt ∧
  final lib_ (adjust_model the_tmodel small_rxn_bounds small_lc_bounds) adjusted
  = adjusted.
Proof.
  exact (adjust_model_idempotent Z.leb _ _ _ _ _ small_model_adjusts).
Defined.

Lemma adjust_model_leaves_others_witness :
  reactions
    (final lib_ (adjust_model the_tmodel [("EX_glc", -5, -5)] [("glc", -7, -3)])
       small_model) !! "BIOMASS" = Some (0, 1000) ∧
  log_concentration
    (final lib_ (adjust_model the_tmodel [("EX_glc", -5, -5)] [("glc", -7, -3)])
       small_model) !! "atp_c" = Some (-12, -2).
Proof.
  destruct (adjust_model_leaves_others Z.leb small_model
              [("EX_glc", -5, -5)] [("glc", -7, -3)]) as [Hrxn Hlc].
  split.
  - destruct (Hrxn "BIOMASS") as [-> _]; [by_computing|].
    vm_compute. reflexivity.
  - rewrite (Hlc "atp_c"); [vm_compute; reflexivity|].
    intros met lb ub c Hrow Hc Heq.
    apply list_elem_of_singleton in Hrow as [= -> _ _].
    vm_compute in Hc.
    apply elem_of_cons in Hc as [->|Hc];
      [|apply list_elem_of_singleton in Hc as ->]; discriminate Heq.
Defined.
End MoreSmall.

Section MoreScript.
Local Abbreviation Σs := (script_sig string string string).

Lemma generate_test_data_pickles_generator_io_witness :
  ∃ pre filehandler
    modelReaction_data atomMappingReactions_data atomMappingMetabolite_data
    measuredFluxes_data experimentalMS_data tracer
    initiated_MATLAB_script model_reactions model_rxn_ids initialized_model
    symmetrical_metabolites_script unbalanced_reactions_script
    reaction_parameters verify_and_estimate_script experimental_parameters
    fragments_used mapping_script script runner,
    trace (canned_script []) generate_test_data tt = pre ++
      [ Returned (Σ:=Σs) initiate_MATLAB_script initiated_MATLAB_script;
        Returned (Σ:=Σs)
          (add_reactions_to_script
             modelReaction_data atomMappingReactions_data biomass_function)
          (model_reactions, model_rxn_ids);
        Returned (Σ:=Σs) initialize_model initialized_model;
        Returned (Σ:=Σs) (symmetrical_metabolites atomMappingMetabolite_data)
          symmetrical_metabolites_script;
        Returned (Σ:=Σs) (unbalanced_reactions atomMappingMetabolite_data)
          unbalanced_reactions_script;
        Returned (Σ:=Σs)
          (add_reaction_parameters
             modelReaction_data measuredFluxes_data model_rxn_ids true)
          reaction_parameters;
        Returned (Σ:=Σs) verify_and_estimate verify_and_estimate_script;
        Returned (Σ:=Σs)
          (add_experimental_parameters
             experimentalMS_data tracer measuredFluxes_data
             atomMappingMetabolite_data)
          (experimental_parameters, fragments_used);
        Returned (Σ:=Σs) (mapping experimentalMS_data fragments_used)
          mapping_script;
        Returned (Σ:=Σs)
          (script_generator
             modelReaction_data atomMappingReactions_data biomass_function
             atomMappingMetabolite_data measuredFluxes_data
             experimentalMS_data tracer)
          script;
        Returned (Σ:=Σs) (runner_script_generator "TestFile" 10) runner;
        Returned (Σ:=Σs)
          (pickle_dump
             [ PObj modelReaction_data; PObj atomMappingReactions_data;
               PStr biomass_function; PObj atomMappingMetabolite_data;
               PObj measuredFluxes_data; PObj experimentalMS_data;
               PObj tracer; PObj initiated_MATLAB_script;
               PObj model_reactions; PObj model_rxn_ids;
               PObj initialized_model; PObj symmetrical_metabolites_script;
               PObj unbalanced_reactions_script; PObj reaction_parameters;
               PObj verify_and_estimate_script; PObj experimental_parameters;
               PObj fragments_used; PObj mapping_script; PObj script;
               PObj runner ]
             filehandler) tt;
        Returned (Σ:=Σs) (close filehandler) tt ].
Proof.
  assert (run (canned_script []) generate_test_data tt
          = (trace (canned_script []) generate_test_data tt, Ok tt, tt))
    as Hrun by (vm_compute; reflexivity).
  exact (generate_test_data_pickles_generator_io (canned_script []) tt _ _ Hrun).
Defined.

Lemma generate_test_data_pickles_filtered_frames_witness :
  ∃ filehandler raw_atomMappingReactions raw_modelReaction
    raw_atomMappingMetabolite raw_measuredFluxes raw_experimentalMS raw_tracer
    atomMappingReactions_data modelReaction_data atomMappingMetabolite_data
    model_measuredFluxes measuredFluxes_data experimentalMS_data tracer
    middle outputs,
    trace (canned_script []) generate_test_data tt =
      [ Returned (Σ:=Σs) (pd_set_option "mode.chained_assignment" None) tt;
        Returned (Σ:=Σs) (open_ "test_data.obj" "wb") filehandler;
        Returned (Σ:=Σs)
          (pd_read_csv "data_stage02_isotopomer_atomMappingReactions2.csv")
          raw_atomMappingReactions;
        Returned (Σ:=Σs)
          (pd_read_csv "data_stage02_isotopomer_modelReactions.csv")
          raw_modelReaction;
        Returned (Σ:=Σs)
          (pd_read_csv "data_stage02_isotopomer_atomMappingMetabolites.csv")
          raw_atomMappingMetabolite;
        Returned (Σ:=Σs)
          (pd_read_csv "data_stage02_isotopomer_measuredFluxes.csv")
          raw_measuredFluxes;
        Returned (Σ:=Σs) (pd_read_csv "data-1604345289079.csv")
          raw_experimentalMS;
        Returned (Σ:=Σs) (pd_read_csv "data_stage02_isotopomer_tracers.csv")
          raw_tracer;
        Returned (Σ:=Σs)
          (limit_to_one_model raw_atomMappingReactions
             "mapping_id" "ecoli_RL2013_02")
          atomMappingReactions_data;
        Returned (Σ:=Σs)
          (limit_to_one_model raw_modelReaction "model_id" "ecoli_RL2013_02")
          modelReaction_data;
        Returned (Σ:=Σs)
          (limit_to_one_model raw_atomMappingMetabolite
             "mapping_id" "ecoli_RL2013_02")
          atomMappingMetabolite_data;
        Returned (Σ:=Σs)
          (limit_to_one_model raw_measuredFluxes "model_id" "ecoli_RL2013_02")
          model_measuredFluxes;
        Returned (Σ:=Σs)
          (limit_to_one_experiment model_measuredFluxes
             "experiment_id" "WTEColi_113C80_U13C20_01")
          measuredFluxes_data;
        Returned (Σ:=Σs)
          (limit_to_one_experiment raw_experimentalMS
             "experiment_id" "WTEColi_113C80_U13C20_01")
          experimentalMS_data;
        Returned (Σ:=Σs)
          (limit_to_one_experiment raw_tracer
             "experiment_id" "WTEColi_113C80_U13C20_01")
          tracer ] ++
      middle ++
      [ Returned (Σ:=Σs)
          (pickle_dump
             ([ PObj modelReaction_data; PObj atomMappingReactions_data;
                PStr biomass_function; PObj atomMappingMetabolite_data;
                PObj measuredFluxes_data; PObj experimentalMS_data;
                PObj tracer ] ++ outputs)
             filehandler) tt;
        Returned (Σ:=Σs) (close filehandler) tt ].
Proof.
  assert (run (canned_script []) generate_test_data tt
          = (trace (canned_script []) generate_test_data tt, Ok tt, tt))
    as Hrun by (vm_compute; reflexivity).
  exact (generate_test_data_pickles_filtered_frames (canned_script []) tt _ _ Hrun).
Defined.

Lemma generate_test_data_leaves_file_open_witness :
  ∃ pre c x,
    trace (canned_script ["data-1604345289079.csv"]) generate_test_data tt
    = pre ++ [Failed (Σ:=Σs) c x] ∧
    LibraryError (Σ:=Σs) "FileNotFoundError: data-1604345289079.csv"
    = LibraryError x ∧
    Forall (λ ev, is_Failed ev = false) pre ∧
    match c with
    | pd_set_option _ _ | open_ _ _ =>
        reached Start
          (trace (canned_script ["data-1604345289079.csv"]) generate_test_data tt)
        = Start
    | close f =>
        reached Start
          (trace (canned_script ["data-1604345289079.csv"]) generate_test_data tt)
        = Dumped f
    | _ =>
        ∃ f,
          reached Start
            (trace (canned_script ["data-1604345289079.csv"]) generate_test_data tt)
          = Opened f
    end.
Proof.
  assert (run (canned_script ["data-1604345289079.csv"]) generate_test_data tt
          = (trace (canned_script ["data-1604345289079.csv"]) generate_test_data tt,
             Err (LibraryError (Σ:=Σs) "FileNotFoundError: data-1604345289079.csv"),
             tt)) as Hrun by (vm_compute; reflexivity).
  exact (proj2 (generate_test_data_leaves_file_open
                  (canned_script ["data-1604345289079.csv"]) tt _ _ _ Hrun)
           _ eq_refl).
Defined.
End MoreScript.
